(** * Cookbook LLM client: transport, provider adapters and facade

    A shallow embedding of [shared/http_client.py], [shared/errors.py],
    [shared/llm/adapters.py], [shared/llm/config.py] and
    [shared/llm/client.py], with the properties the specification states
    about them.

    Conventions.
    - A Python [str] is the list of its Unicode code points.
    - A parsed JSON document (and any Python value built from dicts, lists,
      strings and numbers) is a [JSON] tree; a dict keeps its keys in
      insertion order and [dict_get] is the lookup.
    - An exception is its class together with [str(e)].
    - Code that talks to the network runs in the monad [M]: it threads a
      [World] that records every [session.post] call and every
      [time.sleep] call, and it returns a value or raises. *)

From Stdlib Require Import ZArith List String Ascii Bool Lia.
From Stdlib Require Import Floats.PrimFloat Uint63.
From Stdlib Require Import DecimalString.
From stdpp Require Import gmap strings.
Import ListNotations.
Open Scope Z_scope.
Set Warnings "-register-all".

(* ===================================================================== *)
(** ** Python strings *)
(* ===================================================================== *)

Definition pystr : Type := list N.

(** A literal of the source, as code points. *)
Definition str (s : string) : pystr := map N_of_ascii (list_ascii_of_string s).
Arguments str s%_string : simpl never.

(** [a == b] on strings. *)
Definition str_eqb (a b : pystr) : bool := bool_decide (a = b).

(** [str(n)] for an [int]. *)
Definition py_str_int (n : Z) : pystr := str (NilZero.string_of_int (Z.to_int n)).
Arguments py_str_int n : simpl never.

(** [s[:k]] for a non-negative literal [k]. *)
Definition prefix_chars (k : nat) (s : pystr) : pystr := take k s.

(** [str.isspace] on one code point (CPython's [_PyUnicode_IsWhitespace]). *)
Definition is_space (c : N) : bool :=
  ((9 <=? c) && (c <=? 13) || (28 <=? c) && (c <=? 32) || (c =? 133) || (c =? 160)
   || (c =? 5760) || (8192 <=? c) && (c <=? 8202) || (c =? 8232) || (c =? 8233)
   || (c =? 8239) || (c =? 8287) || (c =? 12288))%N.

(** [s.lstrip()], [s.rstrip()] and [s.strip()] with no argument. *)
Fixpoint lstrip (s : pystr) : pystr :=
  match s with
  | c :: s' => if is_space c then lstrip s' else s
  | [] => []
  end.

Definition rstrip (s : pystr) : pystr := rev (lstrip (rev s)).

Definition strip (s : pystr) : pystr := rstrip (lstrip s).

(** [s.rstrip('/')]. *)
Fixpoint drop_leading (ch : N) (s : pystr) : pystr :=
  match s with
  | c :: s' => if (c =? ch)%N then drop_leading ch s' else s
  | [] => []
  end.

Definition rstrip_char (ch : N) (s : pystr) : pystr := rev (drop_leading ch (rev s)).

(** [s.split('\n')]: the pieces between newlines, never an empty list. *)
Fixpoint split_lines (s : pystr) : list pystr :=
  match s with
  | [] => [[]]
  | c :: s' =>
      if (c =? 10)%N then [] :: split_lines s'
      else match split_lines s' with
           | piece :: rest => (c :: piece) :: rest
           | [] => [[c]]
           end
  end.

(** [''.join(parts)]. *)
Definition join_empty (parts : list pystr) : pystr := concat parts.

(* ===================================================================== *)
(** ** Python values *)
(* ===================================================================== *)

Inductive JSON : Type :=
| JNull
| JBool (b : bool)
| JInt (n : Z)
| JFloat (x : float)
| JStr (s : pystr)
| JArr (items : list JSON)
| JObj (fields : list (pystr * JSON)).

(** [d.get(k)] / [k in d] on a dict. *)
Fixpoint dict_get (k : pystr) (d : list (pystr * JSON)) : option JSON :=
  match d with
  | [] => None
  | (k', v) :: d' => if str_eqb k' k then Some v else dict_get k d'
  end.

(** Truth value of a Python object ([if x], [x or y], [not x]). *)
Definition truthy (v : JSON) : bool :=
  match v with
  | JNull => false
  | JBool b => b
  | JInt n => negb (n =? 0)
  | JFloat x => negb (PrimFloat.eqb x 0%float)
  | JStr s => match s with [] => false | _ => true end
  | JArr l => match l with [] => false | _ => true end
  | JObj d => match d with [] => false | _ => true end
  end.

(** [str(type(obj))]. *)
Definition type_repr (v : JSON) : pystr :=
  match v with
  | JNull => str "<class 'NoneType'>"
  | JBool _ => str "<class 'bool'>"
  | JInt _ => str "<class 'int'>"
  | JFloat _ => str "<class 'float'>"
  | JStr _ => str "<class 'str'>"
  | JArr _ => str "<class 'list'>"
  | JObj _ => str "<class 'dict'>"
  end.

(* ===================================================================== *)
(** ** Exceptions ([shared/errors.py] and the ones the code meets) *)
(* ===================================================================== *)

Inductive exn_class : Type :=
| LLMError            (* class LLMError(RuntimeError) *)
| LLMRateLimit        (* class LLMRateLimit(LLMError) *)
| LLMAuthError        (* class LLMAuthError(LLMError) *)
| RequestException    (* requests.RequestException *)
| HTTPError           (* requests.HTTPError(RequestException) *)
| ConnectionError     (* requests.ConnectionError(RequestException) *)
| JSONDecodeError     (* requests.JSONDecodeError(RequestException) *)
| ValueError
| KeyError
| IndexError
| TypeError
| AttributeError
| AssertionError.

#[global] Instance exn_class_eq_dec : EqDecision exn_class.
Proof. solve_decision. Defined.

Record exn : Type := Exn { exn_cls : exn_class; exn_msg : pystr }.

(** [isinstance(e, LLMError)]: the class itself and its two subclasses. *)
Definition is_LLMError (c : exn_class) : bool :=
  match c with
  | LLMError | LLMRateLimit | LLMAuthError => true
  | _ => false
  end.

(** [isinstance(e, requests.RequestException)]. *)
Definition is_RequestException (c : exn_class) : bool :=
  match c with
  | RequestException | HTTPError | ConnectionError | JSONDecodeError => true
  | _ => false
  end.

Inductive Result (A : Type) : Type :=
| Ok (a : A)
| Raise (e : exn).
Arguments Ok {A} a.
Arguments Raise {A} e.

(* ===================================================================== *)
(** ** The world: the HTTP session and the clock *)
(* ===================================================================== *)

Record Request : Type := {
  req_url : pystr;
  req_headers : option (list (pystr * pystr));
  req_json : option JSON;
  req_timeout : Z
}.

(** What the code reads of a [requests.Response]; [resp_json] is what
    [resp.json()] does. *)
Record Response : Type := {
  status_code : Z;
  resp_text : pystr;
  resp_reason : pystr;
  resp_json : Result JSON
}.

Inductive Outcome : Type :=
| Responds (r : Response)
| Throws (e : exn).

(** A session answers its [k]-th call (counting from 0) to [post]. *)
Definition Session : Type := nat -> Request -> Outcome.

Record World : Type := {
  posts : list Request;     (* every session.post call, oldest first *)
  sleeps : list float       (* every time.sleep argument, oldest first *)
}.

Definition M (A : Type) : Type := World -> Result A * World.

Definition ret {A} (a : A) : M A := fun w => (Ok a, w).
Definition raise {A} (e : exn) : M A := fun w => (Raise e, w).
Definition bind {A B} (m : M A) (k : A -> M B) : M B :=
  fun w => match m w with
           | (Ok a, w') => k a w'
           | (Raise e, w') => (Raise e, w')
           end.
Definition lift {A} (r : Result A) : M A := fun w => (r, w).

Notation "'let*' x ':=' m 'in' k" := (bind m (fun x => k))
  (at level 10, x name, m at level 100, k at level 200).

Definition session_post (s : Session) (r : Request) : M Response :=
  fun w =>
    let w' := {| posts := posts w ++ [r]; sleeps := sleeps w |} in
    match s (length (posts w)) r with
    | Responds resp => (Ok resp, w')
    | Throws e => (Raise e, w')
    end.

Definition time_sleep (d : float) : M unit :=
  fun w => (Ok tt, {| posts := posts w; sleeps := sleeps w ++ [d] |}).

(** Modelled from the requests library: [Response.raise_for_status] raises
    [HTTPError] for a status in 400..599 and does nothing otherwise. The
    text of the error names the URL of the request; requests names the
    response's own URL, which is that URL normalised and after redirects.
    No statement below depends on that text. *)
Definition raise_for_status (url : pystr) (r : Response) : Result unit :=
  if (400 <=? status_code r) && (status_code r <? 500) then
    Raise (Exn HTTPError (py_str_int (status_code r) ++ str " Client Error: "
                          ++ resp_reason r ++ str " for url: " ++ url))
  else if (500 <=? status_code r) && (status_code r <? 600) then
    Raise (Exn HTTPError (py_str_int (status_code r) ++ str " Server Error: "
                          ++ resp_reason r ++ str " for url: " ++ url))
  else Ok tt.

(* ===================================================================== *)
(** ** [shared/http_client.py] *)
(* ===================================================================== *)

Module HttpClient.

Record t : Type := {
  session : Session;
  timeout_s : Z;
  max_retries : Z
}.

(** The body of the [try]: one request and its classification. *)
Definition try_body (c : t) (url : pystr) (headers : option (list (pystr * pystr)))
    (json : option JSON) : M JSON :=
  let* resp := session_post (session c)
                  {| req_url := url; req_headers := headers; req_json := json;
                     req_timeout := timeout_s c |} in
  if (status_code resp =? 429) || (status_code resp =? 408) then
    raise (Exn LLMRateLimit (str "Rate limited or timeout: "
             ++ py_str_int (status_code resp) ++ str " " ++ prefix_chars 200 (resp_text resp)))
  else if (500 <=? status_code resp) && (status_code resp <? 600) then
    raise (Exn LLMError (str "Server error " ++ py_str_int (status_code resp)
             ++ str ": " ++ prefix_chars 200 (resp_text resp)))
  else if (status_code resp =? 401) || (status_code resp =? 403) then
    raise (Exn LLMAuthError (str "Auth failed: " ++ prefix_chars 200 (resp_text resp)))
  else
    let* _ := lift (raise_for_status url resp) in
    lift (resp_json resp).

(** [except (requests.RequestException, LLMError) as e]. *)
Definition caught (e : exn) : bool :=
  is_RequestException (exn_cls e) || is_LLMError (exn_cls e).

(** [min(delay * 2.0, 8.0)]. *)
Definition next_delay (delay : float) : float :=
  let x := PrimFloat.mul delay 2%float in
  if PrimFloat.ltb 8%float x then 8%float else x.

(** How the [for] loop is left when it does not return or raise. *)
Inductive loop_exit : Type :=
| Returned (v : JSON)
| Fell_through (last_err : option exn).

(** [for attempt in range(1, max_retries + 1)], with [n] values of
    [attempt] still to come. *)
Fixpoint post_loop (c : t) (url : pystr) (headers : option (list (pystr * pystr)))
    (json : option JSON) (n : nat) (attempt : Z) (delay : float)
    (last_err : option exn) : M loop_exit :=
  match n with
  | O => ret (Fell_through last_err)
  | S n' =>
      fun w =>
        match try_body c url headers json w with
        | (Ok v, w1) => (Ok (Returned v), w1)
        | (Raise e, w1) =>
            if caught e then
              if attempt =? max_retries c then (Ok (Fell_through (Some e)), w1)
              else
                (let* _ := time_sleep delay in
                 post_loop c url headers json n' (attempt + 1) (next_delay delay) (Some e)) w1
            else (Raise e, w1)
        end
  end.

Definition post (c : t) (url : pystr) (headers : option (list (pystr * pystr)))
    (json : option JSON) : M JSON :=
  let* r := post_loop c url headers json (Z.to_nat (max_retries c)) 1 1%float None in
  match r with
  | Returned v => ret v
  | Fell_through None => raise (Exn AssertionError [])
  | Fell_through (Some last_err) =>
      raise (Exn LLMError (str "POST " ++ url ++ str " failed after "
               ++ py_str_int (max_retries c) ++ str " attempts: " ++ exn_msg last_err))
  end.

End HttpClient.

(* ===================================================================== *)
(** ** [shared/core]: message type and constants *)
(* ===================================================================== *)

(** [ChatMessage]; the role is a plain string at run time. *)
Record ChatMessage : Type := { role : pystr; content : pystr }.

(** A message as the dict that is sent on the wire. *)
Definition message_dict (m : ChatMessage) : JSON :=
  JObj [(str "role", JStr (role m)); (str "content", JStr (content m))].

Definition DEFAULT_PROVIDER : pystr := str "ollama".
Definition DEFAULT_MODEL : pystr := str "llama3".
(** The double nearest to 0.2, which is what the literal [0.2] denotes. *)
Definition DEFAULT_TEMPERATURE : float := 0x1.999999999999ap-3%float.
Definition DEFAULT_MAX_TOKENS : option Z := None.
Definition DEFAULT_TIMEOUT_S : Z := 60.
Definition DEFAULT_MAX_RETRIES : Z := 3.
Definition OPENAI_BASE_URL : pystr := str "https://api.openai.com".
Definition ANTHROPIC_BASE_URL : pystr := str "https://api.anthropic.com".
Definition ANTHROPIC_VERSION : pystr := str "2023-06-01".
Definition OLLAMA_BASE_URL : pystr := str "http://localhost:11434".
Definition MAX_CONTENT_LENGTH_FOR_AI : nat := 2000.
Definition MAX_CONTENT_LENGTH_FOR_TAGS : nat := 1000.

(** The [Provider] enum's values. *)
Definition Provider_OPENAI : pystr := str "openai".
Definition Provider_ANTHROPIC : pystr := str "anthropic".
Definition Provider_OLLAMA : pystr := str "ollama".

(* ===================================================================== *)
(** ** Python built-ins the code calls on strings *)
(* ===================================================================== *)

(** [float(s)], [int(s)] and [s.lower()] are the interpreter's; the code is
    modelled over any implementation of them. [float] and [int] raise
    [ValueError] on text they do not accept. *)
Class Builtins : Type := {
  py_float : pystr -> Result float;
  py_int : pystr -> Result Z;
  py_lower : pystr -> pystr
}.

(** [str(DEFAULT_TEMPERATURE)]: the shortest text that reads back as the
    constant. *)
Definition DEFAULT_TEMPERATURE_str : pystr := str "0.2".

Definition rbind {A B} (r : Result A) (k : A -> Result B) : Result B :=
  match r with
  | Ok a => k a
  | Raise e => Raise e
  end.

Notation "'let?' x ':=' r 'in' k" := (rbind r (fun x => k))
  (at level 10, x name, r at level 100, k at level 200).

(* ===================================================================== *)
(** ** [shared/llm/config.py] *)
(* ===================================================================== *)

Module LLMConfig.

Record t : Type := {
  provider : pystr;
  model : pystr;
  temperature : float;
  max_tokens : option Z;
  timeout_s : Z;
  max_retries : Z;
  openai_api_key : option pystr;
  openai_base_url : pystr;
  anthropic_api_key : option pystr;
  anthropic_api_url : pystr;
  anthropic_version : pystr;
  ollama_base_url : pystr
}.

(** [os.getenv(name, default)] *)
Definition getenv (env : gmap string pystr) (name : string) (dflt : pystr) : pystr :=
  default dflt (env !! name).

(** [provider in ("openai", "anthropic", "ollama")] *)
Definition supported (provider : pystr) : bool :=
  str_eqb provider (str "openai") || str_eqb provider (str "anthropic")
  || str_eqb provider (str "ollama").

Definition from_env `{B : Builtins} (env : gmap string pystr) : Result t :=
  let provider := py_lower (getenv env "LLM_PROVIDER" DEFAULT_PROVIDER) in
  if negb (supported provider) then
    Raise (Exn ValueError (str "Unsupported provider: " ++ provider))
  else
    let model := getenv env "LLM_MODEL" DEFAULT_MODEL in
    let? temperature := py_float (getenv env "LLM_TEMPERATURE"
                                    DEFAULT_TEMPERATURE_str) in
    let? max_tokens :=
      match env !! "LLM_MAX_TOKENS"%string with
      | Some (c :: s) => let? n := py_int (c :: s) in Ok (Some n)
      | _ => Ok None
      end in
    let? timeout_s := py_int (getenv env "LLM_TIMEOUT_S" (py_str_int DEFAULT_TIMEOUT_S)) in
    let? max_retries :=
      py_int (getenv env "LLM_MAX_RETRIES" (py_str_int DEFAULT_MAX_RETRIES)) in
    Ok {| provider := provider;
          model := model;
          temperature := temperature;
          max_tokens := max_tokens;
          timeout_s := timeout_s;
          max_retries := max_retries;
          openai_api_key := env !! "OPENAI_API_KEY"%string;
          openai_base_url := getenv env "OPENAI_BASE_URL" OPENAI_BASE_URL;
          anthropic_api_key := env !! "ANTHROPIC_API_KEY"%string;
          anthropic_api_url := getenv env "ANTHROPIC_API_URL" ANTHROPIC_BASE_URL;
          anthropic_version := getenv env "ANTHROPIC_VERSION" ANTHROPIC_VERSION;
          ollama_base_url := getenv env "OLLAMA_BASE_URL" OLLAMA_BASE_URL |}.

Definition openai_url (self : t) : pystr :=
  rstrip_char 47 (openai_base_url self) ++ str "/v1/chat/completions".

Definition anthropic_url (self : t) : pystr :=
  rstrip_char 47 (anthropic_api_url self) ++ str "/v1/messages".

Definition ollama_url (self : t) : pystr :=
  rstrip_char 47 (ollama_base_url self) ++ str "/api/chat".

End LLMConfig.

(* ===================================================================== *)
(** ** [shared/llm/adapters.py] *)
(* ===================================================================== *)

Module LLMResult.

(** [text] is annotated [str] but holds whatever the adapter stored. *)
Record t : Type := {
  text : JSON;
  raw : JSON;
  provider : pystr;
  model : pystr;
  usage : JSON
}.

End LLMResult.

(** [str(type(obj).__name__)]-style names used in interpreter messages. *)
Definition type_name (v : JSON) : pystr :=
  match v with
  | JNull => str "NoneType"
  | JBool _ => str "bool"
  | JInt _ => str "int"
  | JFloat _ => str "float"
  | JStr _ => str "str"
  | JArr _ => str "list"
  | JObj _ => str "dict"
  end.

(** [v[k]] for a string literal [k]. *)
Definition getitem_key (v : JSON) (k : pystr) : Result JSON :=
  match v with
  | JObj d =>
      match dict_get k d with
      | Some x => Ok x
      | None => Raise (Exn KeyError (str "'" ++ k ++ str "'"))
      end
  | JArr _ => Raise (Exn TypeError (str "list indices must be integers or slices, not str"))
  | JStr _ => Raise (Exn TypeError (str "string indices must be integers, not 'str'"))
  | _ => Raise (Exn TypeError (str "'" ++ type_name v ++ str "' object is not subscriptable"))
  end.

(** [v[0]]. A parsed JSON object has string keys only, so [d[0]] is a
    [KeyError]. *)
Definition getitem_0 (v : JSON) : Result JSON :=
  match v with
  | JArr (x :: _) => Ok x
  | JArr [] => Raise (Exn IndexError (str "list index out of range"))
  | JStr (c :: _) => Ok (JStr [c])
  | JStr [] => Raise (Exn IndexError (str "string index out of range"))
  | JObj _ => Raise (Exn KeyError (str "0"))
  | _ => Raise (Exn TypeError (str "'" ++ type_name v ++ str "' object is not subscriptable"))
  end.

(** [d.get(k) == s] for a string literal [s]. *)
Definition get_is_str (d : list (pystr * JSON)) (k s : pystr) : bool :=
  match dict_get k d with
  | Some (JStr x) => str_eqb x s
  | _ => false
  end.

Module BaseAdapter.

Definition JSON_CT : pystr := str "application/json".

Definition require (value : option pystr) (name : pystr) : Result pystr :=
  match value with
  | Some (c :: s) => Ok (c :: s)
  | _ => Raise (Exn LLMAuthError (str "Missing " ++ name))
  end.

Definition ensure_dict (obj : JSON) (provider_name : pystr)
    : Result (list (pystr * JSON)) :=
  match obj with
  | JObj d => Ok d
  | _ => Raise (Exn LLMError (provider_name ++ str ": expected JSON object, got "
                              ++ type_repr obj))
  end.

(** The [for msg in messages] loop, with its two accumulators. *)
Fixpoint split_loop (messages : list ChatMessage) (system : option pystr)
    (core : list ChatMessage) : option pystr * list ChatMessage :=
  match messages with
  | [] => (system, core)
  | msg :: rest =>
      if str_eqb (role msg) (str "system") && negb (bool_decide (is_Some system)) then
        split_loop rest (Some (content msg)) core
      else
        split_loop rest system (core ++ [msg])
  end.

Definition split_system_message (messages : list ChatMessage)
    : option pystr * list ChatMessage :=
  split_loop messages None [].

End BaseAdapter.

(** [except (KeyError, IndexError, TypeError) as e: raise LLMError(f"{prefix}{e}")],
    restricted to the classes listed. *)
Definition reraise_as_LLMError {A} (classes : list exn_class) (prefix : pystr)
    (r : Result A) : Result A :=
  match r with
  | Ok a => Ok a
  | Raise e =>
      if bool_decide (exn_cls e ∈ classes)
      then Raise (Exn LLMError (prefix ++ exn_msg e))
      else Raise e
  end.

Module OpenAIAdapter.

(** The [headers] dict of [chat]. *)
Definition headers (api_key : pystr) : list (pystr * pystr) :=
  [(str "Authorization", str "Bearer " ++ api_key);
   (str "Content-Type", BaseAdapter.JSON_CT)].

(** The [payload] dict of [chat], after the optional [max_tokens]. *)
Definition payload (cfg : LLMConfig.t) (messages : list ChatMessage) : JSON :=
  let payload := [(str "model", JStr (LLMConfig.model cfg));
                  (str "messages", JArr (map message_dict messages));
                  (str "temperature", JFloat (LLMConfig.temperature cfg))] in
  JObj (match LLMConfig.max_tokens cfg with
        | Some n => payload ++ [(str "max_tokens", JInt n)]
        | None => payload
        end).

Definition chat (cfg : LLMConfig.t) (messages : list ChatMessage) (client : HttpClient.t)
    : M LLMResult.t :=
  let* api_key := lift (BaseAdapter.require (LLMConfig.openai_api_key cfg)
                          (str "OPENAI_API_KEY")) in
  let* resp := HttpClient.post client (LLMConfig.openai_url cfg) (Some (headers api_key))
                 (Some (payload cfg messages)) in
  let* raw := lift (BaseAdapter.ensure_dict resp (str "openai")) in
  let* text := lift (reraise_as_LLMError [KeyError; IndexError; TypeError]
                       (str "OpenAI: unexpected response format: ")
                       (let? choices := getitem_key (JObj raw) (str "choices") in
                        let? first := getitem_0 choices in
                        let? message := getitem_key first (str "message") in
                        getitem_key message (str "content"))) in
  ret {| LLMResult.text := text;
         LLMResult.raw := JObj raw;
         LLMResult.provider := Provider_OPENAI;
         LLMResult.model := LLMConfig.model cfg;
         LLMResult.usage := default JNull (dict_get (str "usage") raw) |}.

End OpenAIAdapter.

Module AnthropicAdapter.

(** One converted message of [anthropic_messages]. *)
Definition convert (msg : ChatMessage) : JSON :=
  JObj [(str "role",
         JStr (if str_eqb (role msg) (str "user") || str_eqb (role msg) (str "assistant")
               then role msg else str "user"));
        (str "content",
         JArr [JObj [(str "type", JStr (str "text")); (str "text", JStr (content msg))]])].

(** What the generator inside [join] yields:
    [block.get("text", "") for block in blocks
       if isinstance(block, dict) and block.get("type") == "text"]. *)
Fixpoint text_items (blocks : list JSON) : list JSON :=
  match blocks with
  | [] => []
  | JObj d :: rest =>
      if get_is_str d (str "type") (str "text")
      then default (JStr []) (dict_get (str "text") d) :: text_items rest
      else text_items rest
  | _ :: rest => text_items rest
  end.

(** ["".join(items)]: a [TypeError] at the first item that is not a [str];
    [i] is the position of the head of [items]. *)
Fixpoint join_items (i : Z) (items : list JSON) : Result pystr :=
  match items with
  | [] => Ok []
  | JStr s :: rest => let? r := join_items (i + 1) rest in Ok (s ++ r)
  | v :: _ => Raise (Exn TypeError (str "sequence item " ++ py_str_int i
                       ++ str ": expected str instance, " ++ type_name v ++ str " found"))
  end.

(** The [headers] dict of [chat]. *)
Definition headers (cfg : LLMConfig.t) (api_key : pystr) : list (pystr * pystr) :=
  [(str "x-api-key", api_key);
   (str "anthropic-version", LLMConfig.anthropic_version cfg);
   (str "content-type", BaseAdapter.JSON_CT)].

(** The [payload] dict of [chat], after the optional [system]. *)
Definition payload (cfg : LLMConfig.t) (messages : list ChatMessage) : JSON :=
  let '(system_prompt, core_messages) := BaseAdapter.split_system_message messages in
  let anthropic_messages := map convert core_messages in
  let payload := [(str "model", JStr (LLMConfig.model cfg));
                  (str "max_tokens",
                   JInt (match LLMConfig.max_tokens cfg with
                         | Some n => if n =? 0 then 1024 else n
                         | None => 1024
                         end));
                  (str "temperature", JFloat (LLMConfig.temperature cfg));
                  (str "messages", JArr anthropic_messages)] in
  JObj (match system_prompt with
        | Some (c :: s) => payload ++ [(str "system", JStr (c :: s))]
        | _ => payload
        end).

Definition chat (cfg : LLMConfig.t) (messages : list ChatMessage) (client : HttpClient.t)
    : M LLMResult.t :=
  let* api_key := lift (BaseAdapter.require (LLMConfig.anthropic_api_key cfg)
                          (str "ANTHROPIC_API_KEY")) in
  let* resp := HttpClient.post client (LLMConfig.anthropic_url cfg)
                 (Some (headers cfg api_key)) (Some (payload cfg messages)) in
  let* raw := lift (BaseAdapter.ensure_dict resp (str "anthropic")) in
  let* text := lift (reraise_as_LLMError [KeyError; TypeError]
                       (str "Anthropic: unexpected response format: ")
                       (let? blocks := getitem_key (JObj raw) (str "content") in
                        match blocks with
                        | JArr blocks =>
                            let? joined := join_items 0 (text_items blocks) in
                            Ok (strip joined)
                        | _ => Raise (Exn TypeError (str "content is not a list"))
                        end)) in
  ret {| LLMResult.text := JStr text;
         LLMResult.raw := JObj raw;
         LLMResult.provider := Provider_ANTHROPIC;
         LLMResult.model := LLMConfig.model cfg;
         LLMResult.usage := default JNull (dict_get (str "usage") raw) |}.

End AnthropicAdapter.

Module OllamaAdapter.

(** The [payload] dict of [chat], after the optional [num_predict]. *)
Definition payload (cfg : LLMConfig.t) (messages : list ChatMessage) : JSON :=
  let options := [(str "temperature", JFloat (LLMConfig.temperature cfg))] in
  let options := match LLMConfig.max_tokens cfg with
                 | Some n => options ++ [(str "num_predict", JInt n)]
                 | None => options
                 end in
  JObj [(str "model", JStr (LLMConfig.model cfg));
        (str "messages", JArr (map message_dict messages));
        (str "stream", JBool false);
        (str "options", JObj options)].

Definition chat (cfg : LLMConfig.t) (messages : list ChatMessage) (client : HttpClient.t)
    : M LLMResult.t :=
  let* resp := HttpClient.post client (LLMConfig.ollama_url cfg) None
                 (Some (payload cfg messages)) in
  let* raw := lift (BaseAdapter.ensure_dict resp (str "ollama")) in
  (* [except Exception as e] catches the one exception the block raises *)
  let* text := lift (match default (JObj []) (dict_get (str "message") raw) with
                     | JObj message =>
                         let v := default (JStr []) (dict_get (str "content") message) in
                         Ok (if truthy v then v else JStr [])
                     | _ => Raise (Exn LLMError (str "Ollama: unexpected response format: "
                                                 ++ str "message is not an object"))
                     end) in
  ret {| LLMResult.text := text;
         LLMResult.raw := JObj raw;
         LLMResult.provider := Provider_OLLAMA;
         LLMResult.model := LLMConfig.model cfg;
         LLMResult.usage :=
           JObj [(str "eval_count", default JNull (dict_get (str "eval_count") raw))] |}.

End OllamaAdapter.

(* ===================================================================== *)
(** ** [shared/llm/client.py] *)
(* ===================================================================== *)

(** [l[:k]] for any integer [k]: a negative [k] counts from the end. *)
Definition slice_to {A} (k : Z) (l : list A) : list A :=
  if k <? 0 then take (Z.to_nat (Z.of_nat (length l) + k)) l
  else take (Z.to_nat k) l.

Module LLM.

Inductive Adapter : Type := OpenAI | Anthropic | Ollama.

Definition adapter_chat (a : Adapter)
    : LLMConfig.t -> list ChatMessage -> HttpClient.t -> M LLMResult.t :=
  match a with
  | OpenAI => OpenAIAdapter.chat
  | Anthropic => AnthropicAdapter.chat
  | Ollama => OllamaAdapter.chat
  end.

Record t : Type := {
  cfg : LLMConfig.t;
  _client : HttpClient.t;
  _adapters : gmap pystr Adapter
}.

(** [LLM(config)]; the [requests.Session] the client opens is the
    network, given here as [net]. *)
Definition init (config : LLMConfig.t) (net : Session) : t :=
  {| cfg := config;
     _client := {| HttpClient.session := net;
                   HttpClient.timeout_s := LLMConfig.timeout_s config;
                   HttpClient.max_retries := LLMConfig.max_retries config |};
     _adapters := <[str "openai" := OpenAI]>
                    (<[str "anthropic" := Anthropic]>
                       (<[str "ollama" := Ollama]> ∅)) |}.

Definition from_env `{B : Builtins} (env : gmap string pystr) (net : Session) : Result t :=
  let? config := LLMConfig.from_env env in Ok (init config net).

Definition chat (self : t) (messages : list ChatMessage) : M LLMResult.t :=
  match _adapters self !! LLMConfig.provider (cfg self) with
  | None => raise (Exn LLMError (str "Unsupported provider: "
                                 ++ LLMConfig.provider (cfg self)))
  | Some adapter => adapter_chat adapter (cfg self) messages (_client self)
  end.

(** [result.text.<method>] needs [text] to be a [str]. *)
Definition text_str (method : pystr) (v : JSON) : Result pystr :=
  match v with
  | JStr s => Ok s
  | _ => Raise (Exn AttributeError (str "'" ++ type_name v
                  ++ str "' object has no attribute '" ++ method ++ str "'"))
  end.

Definition summarize (self : t) (text style : pystr) : M JSON :=
  let content := prefix_chars MAX_CONTENT_LENGTH_FOR_AI text in
  let messages :=
    [ {| role := str "system";
         content := str "Summarize the following text in a " ++ style ++ str " manner." |};
      {| role := str "user"; content := content |} ] in
  let* result := chat self messages in
  ret (LLMResult.text result).

(** [[tag.strip() for tag in lines if tag.strip()]] *)
Fixpoint stripped_nonempty (lines : list pystr) : list pystr :=
  match lines with
  | [] => []
  | tag :: rest =>
      match strip tag with
      | [] => stripped_nonempty rest
      | c :: s => (c :: s) :: stripped_nonempty rest
      end
  end.

(** The [messages] list of [extract_tags]. *)
Definition tags_messages (text : pystr) (max_tags : Z) : list ChatMessage :=
  let content := prefix_chars MAX_CONTENT_LENGTH_FOR_TAGS text in
  [ {| role := str "system";
       content := str "Extract up to " ++ py_str_int max_tags
                  ++ str " relevant tags from the text. Return only the tags, one per line." |};
    {| role := str "user"; content := content |} ].

Definition extract_tags (self : t) (text : pystr) (max_tags : Z) : M (list pystr) :=
  let* result := chat self (tags_messages text max_tags) in
  let* s := lift (text_str (str "split") (LLMResult.text result)) in
  let tags := stripped_nonempty (split_lines s) in
  ret (slice_to max_tags tags).

Definition analyze_sentiment `{B : Builtins} (self : t) (text : pystr) : M pystr :=
  let content := prefix_chars MAX_CONTENT_LENGTH_FOR_AI text in
  let messages :=
    [ {| role := str "system";
         content := str "Analyze the sentiment of the following text. Respond with just: positive, negative, or neutral." |};
      {| role := str "user"; content := content |} ] in
  let* result := chat self messages in
  let* s := lift (text_str (str "strip") (LLMResult.text result)) in
  ret (py_lower (strip s)).

End LLM.

(* ===================================================================== *)
(** ** Definitions the statements use *)
(* ===================================================================== *)

(** The delay sequence as the specification words it: 1, 2, 4, 8, 8, ...
    [backoff_delay i] is the sleep before attempt [i + 2]. *)
Definition backoff_delay (i : nat) : float :=
  match i with
  | 0%nat => 1%float
  | 1%nat => 2%float
  | 2%nat => 4%float
  | _ => 8%float
  end.

(** The request [HttpClient.post] hands to the session. *)
Definition request_of (c : HttpClient.t) (url : pystr)
    (headers : option (list (pystr * pystr))) (json : option JSON) : Request :=
  {| req_url := url; req_headers := headers; req_json := json;
     req_timeout := HttpClient.timeout_s c |}.

(** The world after [n] more posts of [r] and the sleeps [ds]. *)
Definition after (w : World) (r : Request) (n : nat) (ds : list float) : World :=
  {| posts := posts w ++ repeat r n; sleeps := sleeps w ++ ds |}.

(** The content of the first message whose role is "system", if there is
    one. *)
Fixpoint first_system (messages : list ChatMessage) : option pystr :=
  match messages with
  | [] => None
  | m :: rest => if str_eqb (role m) (str "system") then Some (content m)
                 else first_system rest
  end.

(** The messages in their order, without the first one whose role is
    "system". *)
Fixpoint without_first_system (messages : list ChatMessage) : list ChatMessage :=
  match messages with
  | [] => []
  | m :: rest => if str_eqb (role m) (str "system") then rest
                 else m :: without_first_system rest
  end.

(** The role a message is sent with: "user" and "assistant" are kept,
    anything else becomes "user". *)
Definition wire_role (r : pystr) : pystr :=
  if decide (r = str "user" ∨ r = str "assistant") then r else str "user".

(** A message in the Anthropic wire format, as the specification gives it:
    [{role, content: [{type: "text", text: <original content>}]}]. *)
Definition wire_message (m : ChatMessage) : JSON :=
  JObj [(str "role", JStr (wire_role (role m)));
        (str "content",
         JArr [JObj [(str "type", JStr (str "text")); (str "text", JStr (content m))]])].

(** A content block whose [type] is "text". *)
Definition is_text_block (b : JSON) : bool :=
  match b with
  | JObj d => get_is_str d (str "type") (str "text")
  | _ => false
  end.

(** The text of a block: its [text] field when that is a string, the empty
    string when the block has no [text] field, nothing otherwise. *)
Definition block_text (b : JSON) : option pystr :=
  match b with
  | JObj d =>
      match dict_get (str "text") d with
      | None => Some []
      | Some (JStr s) => Some s
      | Some _ => None
      end
  | _ => None
  end.

(** The texts of the text blocks, in list order. *)
Definition block_texts (blocks : list JSON) : list pystr :=
  omap block_text (List.filter is_text_block blocks).

(** A value that is a Python [str]. *)
Definition is_str (v : JSON) : bool :=
  match v with
  | JStr _ => true
  | _ => false
  end.

(** A string with no whitespace at either end. *)
Definition trimmed (s : pystr) : Prop := strip s = s.

(** A string that is not empty. *)
Definition nonempty (s : pystr) : bool :=
  match s with
  | [] => false
  | _ => true
  end.

(** [reads_as parse v dflt a]: the variable's value [v] parses to [a], or
    the variable is absent and [a] is the default. *)
Definition reads_as {A} (parse : pystr -> Result A) (v : option pystr) (dflt a : A) : Prop :=
  match v with
  | Some s => parse s = Ok a
  | None => a = dflt
  end.

(** [reads_opt parse v a]: an optional variable. Set to non-empty text,
    it parses to the value held; absent, or set to the empty string,
    nothing is held. *)
Definition reads_opt {A} (parse : pystr -> Result A) (v : option pystr) (a : option A) : Prop :=
  match v with
  | Some s => if nonempty s then ∃ x, parse s = Ok x ∧ a = Some x else a = None
  | None => a = None
  end.

(** An exception that is not a plain [LLMError] whose message starts with
    the letter U (code point 85), as "Unsupported provider: ..." does. *)
Definition not_unsupported (e : exn) : Prop :=
  exn_cls e = LLMError → ∃ c rest, exn_msg e = c :: rest ∧ c ≠ 85%N.

(** The three provider names. *)
Definition provider_names : list pystr := [str "openai"; str "anthropic"; str "ollama"].

(* ===================================================================== *)
(** ** Fixtures: the mocks of the test suite *)
(* ===================================================================== *)

Module Fixtures.

Definition world0 : World := {| posts := []; sleeps := [] |}.

(** A response with the given status, text and parsed body. *)
Definition response (status : Z) (text : pystr) (body : Result JSON) : Response :=
  {| status_code := status; resp_text := text; resp_reason := str "";
     resp_json := body |}.

Definition no_body : Result JSON := Raise (Exn JSONDecodeError (str "Expecting value")).

(** [mock_session.post.return_value = r] *)
Definition always (r : Response) : Session := fun _ _ => Responds r.

Definition http_client (net : Session) (retries : Z) : HttpClient.t :=
  {| HttpClient.session := net; HttpClient.timeout_s := 30;
     HttpClient.max_retries := retries |}.

Definition url : pystr := str "https://api.example.com/test".

(** The request [http_client.post(url)] of the tests sends. *)
Definition plain_request : Request :=
  {| req_url := url; req_headers := None; req_json := None; req_timeout := 30 |}.

(** A session that answers 200 with the given JSON body. *)
Definition answering (body : JSON) : Session := always (response 200 (str "") (Ok body)).

Definition config (provider : pystr) : LLMConfig.t :=
  {| LLMConfig.provider := provider;
     LLMConfig.model := str "test-model";
     LLMConfig.temperature := 0.5%float;
     LLMConfig.max_tokens := Some 100;
     LLMConfig.timeout_s := 30;
     LLMConfig.max_retries := 2;
     LLMConfig.openai_api_key := Some (str "test-openai-key");
     LLMConfig.openai_base_url := OPENAI_BASE_URL;
     LLMConfig.anthropic_api_key := Some (str "test-anthropic-key");
     LLMConfig.anthropic_api_url := ANTHROPIC_BASE_URL;
     LLMConfig.anthropic_version := ANTHROPIC_VERSION;
     LLMConfig.ollama_base_url := OLLAMA_BASE_URL |}.

Definition text_block (s : pystr) : JSON :=
  JObj [(str "type", JStr (str "text")); (str "text", JStr s)].

Definition three_turns : list ChatMessage :=
  [ {| role := str "system"; content := str "You are terse." |};
    {| role := str "user"; content := str "Hello" |};
    {| role := str "assistant"; content := str "Hi" |} ].

(** A conversation whose system message has empty content. *)
Definition empty_system_turns : list ChatMessage :=
  [ {| role := str "system"; content := [] |};
    {| role := str "user"; content := str "Hello" |} ].

(** An Anthropic response with the given content blocks. *)
Definition anthropic_response (blocks : list JSON) : JSON :=
  JObj [(str "content", JArr blocks)].

(** An OpenAI response whose first choice has the given message content. *)
Definition openai_response (v : JSON) : JSON :=
  JObj [(str "choices", JArr [JObj [(str "message", JObj [(str "content", v)])]])].

(** An Ollama response with the given [message]. *)
Definition ollama_response (message : JSON) : JSON :=
  JObj [(str "message", message)].

(** Six tags, one per line, with blank lines and stray spaces between. *)
Definition six_tags : pystr :=
  [112; 121; 116; 104; 111; 110; 10;            (* python   *)
   10;                                           (* (blank)  *)
   32; 32; 97; 105; 32; 10;                      (*   ai     *)
   109; 108; 10;                                 (* ml       *)
   32; 32; 32; 10;                               (* (spaces) *)
   110; 108; 112; 10;                            (* nlp      *)
   9; 100; 97; 116; 97; 10;                      (* \tdata   *)
   119; 101; 98]%N.                              (* web      *)

(** Reference built-ins for ASCII text: [lower] on A..Z, [int] on an
    optional sign and decimal digits, [float] on short decimals
    [digits.digits], where the quotient of two exactly represented
    integers is the correctly rounded value. They stand for the
    interpreter's only at such inputs (no exponents, no long digit
    strings); the theorems hold for every [Builtins]. *)
Definition ascii_lower (s : pystr) : pystr :=
  map (fun c => if (65 <=? c)%N && (c <=? 90)%N then (c + 32)%N else c) s.

Fixpoint digits (acc : Z) (s : pystr) : option Z :=
  match s with
  | [] => Some acc
  | c :: s' => if (48 <=? c)%N && (c <=? 57)%N
               then digits (10 * acc + Z.of_N (c - 48)) s'
               else None
  end.

Definition bad_literal {A} (what : string) : Result A :=
  Raise (Exn ValueError (str what)).

Definition decimal_int (s : pystr) : Result Z :=
  match s with
  | [] => bad_literal "invalid literal for int() with base 10"
  | 45%N :: (c :: r) => match digits 0 (c :: r) with
                        | Some n => Ok (- n)
                        | None => bad_literal "invalid literal for int() with base 10"
                        end
  | _ => match digits 0 s with
         | Some n => Ok n
         | None => bad_literal "invalid literal for int() with base 10"
         end
  end.

Fixpoint split_dot (s : pystr) : pystr * option pystr :=
  match s with
  | [] => ([], None)
  | c :: s' => if (c =? 46)%N then ([], Some s')
               else let '(a, b) := split_dot s' in (c :: a, b)
  end.

Definition float_of_Z (n : Z) : float := PrimFloat.of_uint63 (Uint63.of_Z n).

Definition decimal_float (s : pystr) : Result float :=
  match split_dot s with
  | (c :: a, None) =>
      match digits 0 (c :: a) with
      | Some n => Ok (float_of_Z n)
      | None => bad_literal "could not convert string to float"
      end
  | (c :: a, Some (f :: b)) =>
      match digits 0 (c :: a ++ f :: b) with
      | Some n => Ok (PrimFloat.div (float_of_Z n)
                        (float_of_Z (10 ^ Z.of_nat (length (f :: b)))))
      | None => bad_literal "could not convert string to float"
      end
  | _ => bad_literal "could not convert string to float"
  end.

Definition builtins : Builtins :=
  {| py_float := decimal_float; py_int := decimal_int; py_lower := ascii_lower |}.

(** An environment that sets every variable. *)
Definition full_env : gmap string pystr :=
  list_to_map
    [("LLM_PROVIDER"%string, str "anthropic");
     ("LLM_MODEL"%string, str "claude-test");
     ("LLM_TEMPERATURE"%string, str "0.75");
     ("LLM_MAX_TOKENS"%string, str "256");
     ("LLM_TIMEOUT_S"%string, str "45");
     ("LLM_MAX_RETRIES"%string, str "5");
     ("OPENAI_API_KEY"%string, str "sk-test");
     ("OPENAI_BASE_URL"%string, str "https://openai.example");
     ("ANTHROPIC_API_KEY"%string, str "ak-test");
     ("ANTHROPIC_API_URL"%string, str "https://anthropic.example");
     ("ANTHROPIC_VERSION"%string, str "2024-01-01");
     ("OLLAMA_BASE_URL"%string, str "http://ollama.example:11434")].

(** An environment that writes the provider in mixed case and sets the
    token limit to the empty string. *)
Definition mixed_case_env : gmap string pystr :=
  list_to_map [("LLM_PROVIDER"%string, str "OpenAI"); ("LLM_MAX_TOKENS"%string, [])].

(** An environment whose temperature is not a number. *)
Definition hot_env : gmap string pystr :=
  list_to_map [("LLM_PROVIDER"%string, str "openai"); ("LLM_TEMPERATURE"%string, str "hot")].

End Fixtures.

(* ===================================================================== *)
(** ** More Python string methods *)
(* ===================================================================== *)

(** [s.startswith(prefix)]. *)
Definition startswith (prefix s : pystr) : bool :=
  bool_decide (take (length prefix) s = prefix).

(** [s.split()] with no argument: the maximal runs of non-whitespace;
    [cur] is the run being read, last character first. *)
Fixpoint split_ws_from (cur : pystr) (s : pystr) : list pystr :=
  match s with
  | [] => match cur with [] => [] | _ => [rev cur] end
  | c :: s' =>
      if is_space c then
        match cur with
        | [] => split_ws_from [] s'
        | _ => rev cur :: split_ws_from [] s'
        end
      else split_ws_from (c :: cur) s'
  end.

Definition split_ws (s : pystr) : list pystr := split_ws_from [] s.

(** ['\n'.join(lines)]. *)
Fixpoint join_lines (lines : list pystr) : pystr :=
  match lines with
  | [] => []
  | [l] => l
  | l :: rest => l ++ 10%N :: join_lines rest
  end.

(** [s.replace('\r\n', '\n')]: left to right, without overlap. *)
Fixpoint replace_crlf (s : pystr) : pystr :=
  match s with
  | [] => []
  | c :: s' =>
      match s' with
      | d :: s'' => if (c =? 13)%N && (d =? 10)%N then 10%N :: replace_crlf s''
                    else c :: replace_crlf s'
      | [] => [c]
      end
  end.

(** [s.replace('\r', '\n')]. *)
Definition replace_cr (s : pystr) : pystr :=
  map (fun c => if (c =? 13)%N then 10%N else c) s.

(** [re.sub(r'\n{3,}', '\n\n', s)]: every maximal run of three or more
    newlines becomes two, so a run of [n] newlines becomes [min n 2];
    [run] is the number of newlines just written (at most 2). *)
Fixpoint squeeze_newlines (run : nat) (s : pystr) : pystr :=
  match s with
  | [] => []
  | c :: s' =>
      if (c =? 10)%N then
        if (run <? 2)%nat then 10%N :: squeeze_newlines (S run) s'
        else squeeze_newlines run s'
      else c :: squeeze_newlines 0 s'
  end.

(** [line.expandtabs(4)]: a tab becomes spaces up to the next multiple of
    4 columns; a newline or carriage return starts the count again. [col]
    is the current column. *)
Fixpoint expandtabs_from (col : nat) (s : pystr) : pystr :=
  match s with
  | [] => []
  | c :: s' =>
      if (c =? 9)%N then
        let incr := (4 - col mod 4)%nat in
        repeat 32%N incr ++ expandtabs_from (col + incr) s'
      else if (c =? 10)%N || (c =? 13)%N then c :: expandtabs_from 0 s'
      else c :: expandtabs_from (S col) s'
  end.

Definition expandtabs4 (s : pystr) : pystr := expandtabs_from 0 s.

(* ===================================================================== *)
(** ** [shared/document_processor.py]: the parts that use the client *)
(* ===================================================================== *)

Module DocumentProcessor.

Record t : Type := {
  enable_ai : bool;
  _llm : option LLM.t;
  _llm_config : option LLMConfig.t
}.

(** [DocumentProcessor(llm_config, enable_ai)], in the environment [env]
    and with the network [net]. Whatever goes wrong in the [try] only
    switches AI off. *)
Definition init `{B : Builtins} (llm_config : option LLMConfig.t) (enable_ai : bool)
    (env : gmap string pystr) (net : Session) : t :=
  if enable_ai then
    match (match llm_config with
           | Some config => Ok config
           | None => LLMConfig.from_env env
           end) with
    | Ok config => {| enable_ai := true;
                      _llm := Some (LLM.init config net);
                      _llm_config := Some config |}
    | Raise _ => {| enable_ai := false; _llm := None; _llm_config := llm_config |}
    end
  else {| enable_ai := false; _llm := None; _llm_config := llm_config |}.

(** [_normalize_content]. *)
Definition _normalize_content (content : pystr) : pystr :=
  match content with
  | [] => []
  | _ =>
      let normalized := replace_cr (replace_crlf content) in
      let normalized := squeeze_newlines 0 normalized in
      let lines := map (fun line => rstrip (expandtabs4 line)) (split_lines normalized) in
      strip (join_lines lines)
  end.

(** The [for line in result.text.split('\n')] loop of
    [_extract_key_points]; the third bullet is the three-character string
    of the source. *)
Fixpoint key_points_loop (lines : list pystr) (points : list pystr) : list pystr :=
  match lines with
  | [] => points
  | line :: rest =>
      let line := strip line in
      if startswith (str "-") line || startswith (str "*") line
         || startswith [226; 8364; 162]%N line
      then
        let point := strip (drop 1 line) in
        if nonempty point && (10 <? length point)%nat
        then key_points_loop rest (points ++ [point])
        else key_points_loop rest points
      else key_points_loop rest points
  end.

(** The [messages] list of [_extract_key_points]. *)
Definition key_points_messages (content : pystr) : list ChatMessage :=
  let truncated := prefix_chars MAX_CONTENT_LENGTH_FOR_AI content in
  [ {| role := str "system";
       content := str "Extract the most important key points from the text. Return 3-7 concise bullet points, each on a new line starting with '-'. Focus on actionable insights, decisions, or critical information." |};
    {| role := str "user"; content := truncated |} ].

Definition _extract_key_points (self : t) (content : pystr) : M (list pystr) :=
  match _llm self with
  | None => ret []
  | Some llm =>
      let* result := LLM.chat llm (key_points_messages content) in
      let* s := lift (LLM.text_str (str "split") (LLMResult.text result)) in
      ret (take 7 (key_points_loop (split_lines s) []))
  end.

(** [try: x = call except LLMError: pass]: the value, or nothing when the
    call raised [LLMError] or a subclass; other exceptions go on. *)
Definition unless_LLMError {A} (call : M A) : M (option A) :=
  fun w =>
    match call w with
    | (Ok a, w') => (Ok (Some a), w')
    | (Raise e, w') =>
        if is_LLMError (exn_cls e) then (Ok None, w') else (Raise e, w')
    end.

(** [results[key] = value] when the call gave a value. *)
Definition store (key : string) (value : option JSON) (results : gmap string JSON)
    : gmap string JSON :=
  match value with
  | Some v => <[key := v]> results
  | None => results
  end.

Definition _run_ai_analysis `{B : Builtins} (self : t) (content summary_style : pystr)
    (suggested_tags : list pystr) : M (gmap string JSON) :=
  match _llm self with
  | None => ret ∅
  | Some llm =>
      let results : gmap string JSON := ∅ in
      let* summary :=
        if (50 <? length (split_ws content))%nat
        then unless_LLMError (LLM.summarize llm content summary_style)
        else ret None in
      let results := store "summary" summary results in
      let* ai_tags := unless_LLMError (LLM.extract_tags llm content 7) in
      let results := store "tags" (option_map (fun l => JArr (map JStr l)) ai_tags) results in
      let* sentiment := unless_LLMError (LLM.analyze_sentiment llm content) in
      let results := store "sentiment" (option_map JStr sentiment) results in
      let* key_points := unless_LLMError (_extract_key_points self content) in
      let results := store "key_points"
                       (option_map (fun l => JArr (map JStr l)) key_points) results in
      ret results
  end.

(** [tag.lower() not in [t.lower() for t in all_tags]], negated. *)
Definition lower_in `{B : Builtins} (tag : pystr) (all_tags : list pystr) : bool :=
  bool_decide (py_lower tag ∈ map py_lower all_tags).

(** [for tag in tags: if tag.lower() not in ...: all_tags.append(tag)]. *)
Fixpoint add_new `{B : Builtins} (tags all_tags : list pystr) : list pystr :=
  match tags with
  | [] => all_tags
  | tag :: rest =>
      if lower_in tag all_tags then add_new rest all_tags
      else add_new rest (all_tags ++ [tag])
  end.

(** The clean-up loop over [all_tags]. *)
Fixpoint clean_loop `{B : Builtins} (all_tags cleaned_tags : list pystr) : list pystr :=
  match all_tags with
  | [] => cleaned_tags
  | tag :: rest =>
      let clean_tag := py_lower (strip tag) in
      if nonempty clean_tag && negb (bool_decide (clean_tag ∈ cleaned_tags))
      then clean_loop rest (cleaned_tags ++ [clean_tag])
      else clean_loop rest cleaned_tags
  end.

Definition _consolidate_tags `{B : Builtins} (manual_tags suggested_tags ai_tags : list pystr)
    : list pystr :=
  let all_tags := manual_tags in
  let all_tags := add_new suggested_tags all_tags in
  let all_tags := add_new ai_tags all_tags in
  take 10 (clean_loop all_tags []).

End DocumentProcessor.

(* ===================================================================== *)
(** ** More definitions the statements use *)
(* ===================================================================== *)

(** The endpoint of each provider. *)
Definition endpoint (cfg : LLMConfig.t) (a : LLM.Adapter) : pystr :=
  match a with
  | LLM.OpenAI => LLMConfig.openai_url cfg
  | LLM.Anthropic => LLMConfig.anthropic_url cfg
  | LLM.Ollama => LLMConfig.ollama_url cfg
  end.

(** The response shape the OpenAI adapter accepts:
    [{choices: [{message: {content: v}, ...}, ...], ...}]. *)
Definition openai_shape (resp : JSON) (v : JSON) : Prop :=
  ∃ d first rest message,
    resp = JObj d
    ∧ dict_get (str "choices") d = Some (JArr (JObj first :: rest))
    ∧ dict_get (str "message") first = Some (JObj message)
    ∧ dict_get (str "content") message = Some v.

(** The twelve variables [from_env] reads. *)
Definition env_names : list string :=
  ["LLM_PROVIDER"; "LLM_MODEL"; "LLM_TEMPERATURE"; "LLM_MAX_TOKENS"; "LLM_TIMEOUT_S";
   "LLM_MAX_RETRIES"; "OPENAI_API_KEY"; "OPENAI_BASE_URL"; "ANTHROPIC_API_KEY";
   "ANTHROPIC_API_URL"; "ANTHROPIC_VERSION"; "OLLAMA_BASE_URL"]%string.

(** A tag as [_consolidate_tags] stores it. *)
Definition clean_tag `{B : Builtins} (tag : pystr) : pystr := py_lower (strip tag).

Module Samples.

(** A session that answers its calls from a list, then with [last]. *)
Definition scripted (answers : list Response) (last : Response) : Session :=
  fun k _ => Responds (nth k answers last).

(** [mock_session.post.side_effect = e] *)
Definition throwing (e : exn) : Session := fun _ _ => Throws e.

Definition ok_body : JSON := JObj [(str "result", JStr (str "success"))].

Definition server_error : Response :=
  Fixtures.response 500 (str "Server error") Fixtures.no_body.

Definition not_found : Response :=
  Fixtures.response 404 (str "Not found") Fixtures.no_body.

Definition success : Response := Fixtures.response 200 (str "") (Ok ok_body).

(** [mock_response.json.side_effect = ValueError("Invalid JSON")] on a 200. *)
Definition invalid_json : Response :=
  Fixtures.response 200 (str "") (Raise (Exn ValueError (str "Invalid JSON"))).

(** A configuration with a provider the client does not know. *)
Definition unknown_config : LLMConfig.t := Fixtures.config (str "mistral").

(** An environment naming a provider the client does not know. *)
Definition unknown_env : gmap string pystr :=
  list_to_map [("LLM_PROVIDER"%string, str "Mistral");
               ("LLM_TEMPERATURE"%string, str "hot")].

(** A configuration without credentials. *)
Definition keyless_config : LLMConfig.t :=
  {| LLMConfig.provider := str "openai";
     LLMConfig.model := str "test-model";
     LLMConfig.temperature := 0.5%float;
     LLMConfig.max_tokens := None;
     LLMConfig.timeout_s := 30;
     LLMConfig.max_retries := 2;
     LLMConfig.openai_api_key := None;
     LLMConfig.openai_base_url := str "https://api.openai.com///";
     LLMConfig.anthropic_api_key := Some [];
     LLMConfig.anthropic_api_url := str "https://api.openai.com///";
     LLMConfig.anthropic_version := ANTHROPIC_VERSION;
     LLMConfig.ollama_base_url := str "https://api.openai.com///" |}.

End Samples.

(* ===================================================================== *)
(** ** Proof steps used more than once *)
(* ===================================================================== *)

(** Decide the comparisons of two literal keys. *)
Ltac literal_keys :=
  repeat match goal with
         | |- context [str_eqb (str ?a) (str ?b)] =>
             let v := eval vm_compute in (str_eqb (str a) (str b)) in
             change (str_eqb (str a) (str b)) with v
         end.

(** Close [cls ∈ [c1; ...; cn]] for closed classes. *)
Ltac class_listed := apply (bool_decide_unpack _); vm_compute; exact I.

(* ===================================================================== *)
(** ** Transport *)
(* ===================================================================== *)

Section Transport.

Variable c : HttpClient.t.
Variable url : pystr.
Variable headers : option (list (pystr * pystr)).
Variable json : option JSON.

Local Abbreviation req := (request_of c url headers json).
Local Abbreviation N := (HttpClient.max_retries c).

Lemma next_delay_backoff (i : nat) :
  HttpClient.next_delay (backoff_delay i) = backoff_delay (S i).
Proof. destruct i as [|[|[|[|i]]]]; reflexivity. Qed.

Lemma after_0 (w : World) : after w req 0 [] = w.
Proof. destruct w; unfold after; simpl. by rewrite !app_nil_r. Qed.

Lemma after_step (w : World) (n : nat) (ds : list float) (d : float) :
  after (after w req 1 [d]) req n ds = after w req (S n) (d :: ds).
Proof. unfold after; simpl. by rewrite <- !app_assoc. Qed.

(** One pass through the [try] body always issues exactly one request. *)
Lemma try_body_posts (w : World) :
  snd (HttpClient.try_body c url headers json w) = after w req 1 [].
Proof.
  unfold HttpClient.try_body, bind, session_post, after, request_of.
  rewrite app_nil_r. cbn [repeat].
  destruct (HttpClient.session c _ _) as [resp|e]; [|done].
  unfold raise, lift.
  repeat (case_match; simplify_eq; try done).
Qed.

Lemma try_body_raise (w : World) (e : exn) :
  fst (HttpClient.try_body c url headers json w) = Raise e →
  HttpClient.try_body c url headers json w = (Raise e, after w req 1 []).
Proof.
  intros He. rewrite <- He, <- try_body_posts.
  by destruct (HttpClient.try_body c url headers json w).
Qed.

Lemma post_loop_S (n : nat) (attempt : Z) (delay : float) (last : option exn)
    (w : World) :
  HttpClient.post_loop c url headers json (S n) attempt delay last w
  = match HttpClient.try_body c url headers json w with
    | (Ok v, w1) => (Ok (HttpClient.Returned v), w1)
    | (Raise e, w1) =>
        if HttpClient.caught e then
          if attempt =? HttpClient.max_retries c
          then (Ok (HttpClient.Fell_through (Some e)), w1)
          else HttpClient.post_loop c url headers json n (attempt + 1)
                 (HttpClient.next_delay delay) (Some e)
                 {| posts := posts w1; sleeps := sleeps w1 ++ [delay] |}
        else (Raise e, w1)
    end.
Proof. reflexivity. Qed.

(** The loop when every attempt ends in an exception the [except] clause
    catches: all remaining attempts are used, with a sleep between
    consecutive ones. *)
Lemma post_loop_all_caught (n i : nat) (last : option exn) (w : World) :
  (∀ w1, ∃ e, fst (HttpClient.try_body c url headers json w1) = Raise e
              ∧ HttpClient.caught e = true) →
  Z.of_nat i + Z.of_nat (S n) = N →
  ∃ e, HttpClient.post_loop c url headers json (S n) (Z.of_nat i + 1)
         (backoff_delay i) last w
       = (Ok (HttpClient.Fell_through (Some e)),
          after w req (S n) (map backoff_delay (seq i n)))
       ∧ HttpClient.caught e = true
       ∧ fst (HttpClient.try_body c url headers json
                (after w req n (map backoff_delay (seq i n)))) = Raise e.
Proof.
  intros Hall. revert i last w. induction n as [|n IH]; intros i last w Hn.
  - destruct (Hall w) as (e & He & Hc). exists e.
    rewrite post_loop_S. cbn [seq map].
    rewrite after_0, (try_body_raise w e He), Hc.
    replace (Z.of_nat i + 1 =? HttpClient.max_retries c) with true
      by (symmetry; apply Z.eqb_eq; lia).
    done.
  - destruct (Hall w) as (e & He & Hc).
    rewrite post_loop_S, (try_body_raise w e He), Hc.
    replace (Z.of_nat i + 1 =? HttpClient.max_retries c) with false
      by (symmetry; apply Z.eqb_neq; lia).
    rewrite next_delay_backoff.
    replace (Z.of_nat i + 1 + 1) with (Z.of_nat (S i) + 1) by lia.
    assert (Hw' : {| posts := posts (after w req 1 []);
                     sleeps := sleeps (after w req 1 []) ++ [backoff_delay i] |}
                  = after w req 1 [backoff_delay i]).
    { unfold after; cbn [posts sleeps]. by rewrite app_nil_r. }
    rewrite Hw'.
    destruct (IH (S i) (Some e) (after w req 1 [backoff_delay i]))
      as (e' & Hloop & Hc' & Hlast); [lia|].
    exists e'. rewrite Hloop, after_step.
    cbn [seq map]. rewrite after_step in Hlast. done.
Qed.

(** [post] when every attempt fails with a caught exception. *)
Lemma post_all_caught (w : World) :
  1 ≤ N →
  (∀ w1, ∃ e, fst (HttpClient.try_body c url headers json w1) = Raise e
              ∧ HttpClient.caught e = true) →
  ∃ e, HttpClient.post c url headers json w
       = (Raise (Exn LLMError (str "POST " ++ url ++ str " failed after "
                               ++ py_str_int N ++ str " attempts: " ++ exn_msg e)),
          after w req (Z.to_nat N) (map backoff_delay (seq 0 (Z.to_nat N - 1))))
       ∧ fst (HttpClient.try_body c url headers json
                (after w req (Z.to_nat N - 1)
                   (map backoff_delay (seq 0 (Z.to_nat N - 1))))) = Raise e.
Proof.
  intros HN Hall.
  destruct (Z.to_nat N) as [|n] eqn:En; [lia|].
  destruct (post_loop_all_caught n 0 None w Hall) as (e & Hloop & _ & Hlast); [lia|].
  exists e. unfold HttpClient.post, bind. rewrite En.
  change (Z.of_nat 0 + 1) with 1 in Hloop.
  change (backoff_delay 0) with 1%float in Hloop. rewrite Hloop.
  replace (S n - 1)%nat with n by lia. done.
Qed.

(** A 5xx answer makes the [try] body raise the "Server error" [LLMError]. *)
Lemma try_body_5xx (w : World) (resp : Response) :
  HttpClient.session c (length (posts w)) req = Responds resp →
  500 ≤ status_code resp < 600 →
  fst (HttpClient.try_body c url headers json w)
  = Raise (Exn LLMError (str "Server error " ++ py_str_int (status_code resp)
                         ++ str ": " ++ prefix_chars 200 (resp_text resp))).
Proof.
  intros Hs Hr.
  unfold HttpClient.try_body, bind, session_post. fold (request_of c url headers json).
  rewrite Hs.
  replace ((status_code resp =? 429) || (status_code resp =? 408)) with false
    by (symmetry; apply orb_false_iff; split; apply Z.eqb_neq; lia).
  replace ((500 <=? status_code resp) && (status_code resp <? 600)) with true
    by (symmetry; apply andb_true_iff; split; [apply Z.leb_le|apply Z.ltb_lt]; lia).
  done.
Qed.

(** A 401, 403, 429 or 408 answer makes the [try] body raise an exception
    whose class derives from [LLMError]. *)
Lemma try_body_auth_rate (w : World) (resp : Response) :
  HttpClient.session c (length (posts w)) req = Responds resp →
  status_code resp ∈ [401; 403; 429; 408] →
  ∃ e, fst (HttpClient.try_body c url headers json w) = Raise e
       ∧ exn_cls e = (if bool_decide (status_code resp ∈ [401; 403])
                      then LLMAuthError else LLMRateLimit)
       ∧ HttpClient.caught e = true.
Proof.
  intros Hs Hr.
  unfold HttpClient.try_body, bind, session_post. fold (request_of c url headers json).
  rewrite Hs.
  repeat (apply elem_of_cons in Hr as [->|Hr]); [| | | |by apply elem_of_nil in Hr];
    eexists; split_and!; reflexivity.
Qed.

(** C2. With [max_retries = N >= 1] and a 5xx answer to every request,
    [post] makes exactly [N] requests and [N - 1] sleeps, the sleeps being
    1, 2, 4, 8, 8, ... seconds, and then raises a plain [LLMError] whose
    message names the URL and [N] attempts (and ends with the server
    error of the last answer). *)
Theorem post_persistent_5xx (w : World) :
  1 ≤ N →
  (∀ k r, ∃ resp, HttpClient.session c k r = Responds resp
                  ∧ 500 ≤ status_code resp < 600) →
  ∃ resp w',
    HttpClient.post c url headers json w
    = (Raise (Exn LLMError
                (str "POST " ++ url ++ str " failed after " ++ py_str_int N
                 ++ str " attempts: "
                 ++ (str "Server error " ++ py_str_int (status_code resp)
                     ++ str ": " ++ prefix_chars 200 (resp_text resp)))), w')
    ∧ 500 ≤ status_code resp < 600
    ∧ posts w' = posts w ++ repeat req (Z.to_nat N)
    ∧ sleeps w' = sleeps w ++ map backoff_delay (seq 0 (Z.to_nat N - 1))
    ∧ Z.of_nat (length (posts w')) = Z.of_nat (length (posts w)) + N
    ∧ Z.of_nat (length (sleeps w')) = Z.of_nat (length (sleeps w)) + (N - 1).
Proof.
  intros HN H5.
  destruct (post_all_caught w HN) as (e & Hpost & Hlast).
  { intros w1. destruct (H5 (length (posts w1)) req) as (resp & Hs & Hr).
    eexists. split; [by apply (try_body_5xx w1 resp)|done]. }
  set (wl := after w req (Z.to_nat N - 1) (map backoff_delay (seq 0 (Z.to_nat N - 1)))) in *.
  destruct (H5 (length (posts wl)) req) as (resp & Hs & Hr).
  rewrite (try_body_5xx wl resp Hs Hr) in Hlast. injection Hlast as <-.
  exists resp, (after w req (Z.to_nat N) (map backoff_delay (seq 0 (Z.to_nat N - 1)))).
  split_and!; try done; try lia; unfold after; cbn [posts sleeps].
  - rewrite length_app, repeat_length. lia.
  - rewrite length_app, length_map, length_seq. lia.
Qed.

(** C9. A first answer with a 2xx status whose body parses is returned
    as parsed, after one request and no sleep. *)
Theorem post_2xx_returns_body (w : World) (resp : Response) (body : JSON) :
  1 ≤ N →
  HttpClient.session c (length (posts w)) req = Responds resp →
  200 ≤ status_code resp < 300 →
  resp_json resp = Ok body →
  HttpClient.post c url headers json w
  = (Ok body, {| posts := posts w ++ [req]; sleeps := sleeps w |}).
Proof.
  intros HN Hs Hr Hj.
  assert (Hbody : HttpClient.try_body c url headers json w
                  = (Ok body, {| posts := posts w ++ [req]; sleeps := sleeps w |})).
  { unfold HttpClient.try_body, bind, session_post.
    fold (request_of c url headers json). rewrite Hs.
    replace ((status_code resp =? 429) || (status_code resp =? 408)) with false
      by (symmetry; apply orb_false_iff; split; apply Z.eqb_neq; lia).
    replace ((500 <=? status_code resp) && (status_code resp <? 600)) with false
      by (symmetry; apply andb_false_iff; left; apply Z.leb_gt; lia).
    replace ((status_code resp =? 401) || (status_code resp =? 403)) with false
      by (symmetry; apply orb_false_iff; split; apply Z.eqb_neq; lia).
    unfold lift, raise_for_status.
    replace ((400 <=? status_code resp) && (status_code resp <? 500)) with false
      by (symmetry; apply andb_false_iff; left; apply Z.leb_gt; lia).
    replace ((500 <=? status_code resp) && (status_code resp <? 600)) with false
      by (symmetry; apply andb_false_iff; left; apply Z.leb_gt; lia).
    by rewrite Hj. }
  unfold HttpClient.post, bind.
  destruct (Z.to_nat N) as [|n] eqn:En; [lia|].
  by rewrite post_loop_S, Hbody.
Qed.

(** What the code does on 401, 403, 429 and 408: the exception raised in
    the [try] body derives from [LLMError], so the [except] clause catches
    it and the loop goes on as for a server error. *)
Lemma post_auth_rate_limit_retried (w : World) :
  1 ≤ N →
  (∀ k r, ∃ resp, HttpClient.session c k r = Responds resp
                  ∧ status_code resp ∈ [401; 403; 429; 408]) →
  ∃ detail,
    HttpClient.post c url headers json w
    = (Raise (Exn LLMError
                (str "POST " ++ url ++ str " failed after " ++ py_str_int N
                 ++ str " attempts: " ++ detail)),
       after w req (Z.to_nat N) (map backoff_delay (seq 0 (Z.to_nat N - 1)))).
Proof.
  intros HN H4.
  destruct (post_all_caught w HN) as (e & Hpost & _); [|by exists (exn_msg e)].
  intros w1. destruct (H4 (length (posts w1)) req) as (resp & Hs & Hr).
  destruct (try_body_auth_rate w1 resp Hs Hr) as (e & He & _ & Hc). by exists e.
Qed.

(** Whatever the session does, the loop only posts [req], at most once
    per remaining attempt and at least once when an attempt remains, and
    an exception that leaves it is one the [except] clause does not
    catch. *)
Lemma post_loop_effects (n : nat) (attempt : Z) (delay : float)
    (last : option exn) (w : World) :
  ∃ k ds,
    snd (HttpClient.post_loop c url headers json n attempt delay last w)
    = after w req k ds
    ∧ (k ≤ n)%nat ∧ ((1 ≤ n)%nat → (1 ≤ k)%nat)
    ∧ ∀ e, fst (HttpClient.post_loop c url headers json n attempt delay last w)
           = Raise e → HttpClient.caught e = false.
Proof.
  revert attempt delay last w. induction n as [|n IH]; intros attempt delay last w.
  - exists 0%nat, []. rewrite after_0. split_and!; [done|lia|lia|done].
  - rewrite post_loop_S. pose proof (try_body_posts w) as Hw.
    destruct (HttpClient.try_body c url headers json w) as [[v|e] w1];
      cbn [snd] in Hw; subst w1.
    + exists 1%nat, []. split_and!; [done|lia|lia|done].
    + destruct (HttpClient.caught e) eqn:Hc.
      * destruct (attempt =? HttpClient.max_retries c).
        { exists 1%nat, []. split_and!; [done|lia|lia|done]. }
        assert (Hw' : {| posts := posts (after w req 1 []);
                         sleeps := sleeps (after w req 1 []) ++ [delay] |}
                      = after w req 1 [delay]).
        { unfold after; cbn [posts sleeps]. by rewrite app_nil_r. }
        rewrite Hw'.
        destruct (IH (attempt + 1) (HttpClient.next_delay delay) (Some e)
                    (after w req 1 [delay])) as (k & ds & Hs & Hk & _ & Hr).
        exists (S k), (delay :: ds). rewrite Hs, after_step.
        split_and!; [done|lia|lia|done].
      * exists 1%nat, []. split_and!; [done|lia|lia|].
        intros e' [= <-]. done.
Qed.

(** The requests [post] leaves in the world. *)
Lemma post_world (w : World) :
  ∃ k ds, snd (HttpClient.post c url headers json w) = after w req k ds
          ∧ (1 ≤ N → (1 ≤ k)%nat).
Proof.
  destruct (post_loop_effects (Z.to_nat N) 1 1%float None w)
    as (k & ds & Hs & _ & Hk & _).
  exists k, ds. split; [|lia].
  unfold HttpClient.post, bind.
  destruct (HttpClient.post_loop _ _ _ _ _ _ _ _ _) as [[[v|[e|]]|e] w1];
    cbn [snd] in Hs; by subst w1.
Qed.

(** An [LLMError] that leaves [post] is the one raised on its last line. *)
Lemma post_LLMError_message (w : World) (e : exn) :
  fst (HttpClient.post c url headers json w) = Raise e →
  is_LLMError (exn_cls e) = true →
  ∃ rest, exn_msg e = str "POST " ++ rest.
Proof.
  destruct (post_loop_effects (Z.to_nat N) 1 1%float None w)
    as (k & ds & _ & _ & _ & Hr).
  unfold HttpClient.post, bind.
  destruct (HttpClient.post_loop _ _ _ _ _ _ _ _ _) as [[[v|[e'|]]|e'] w1];
    cbn [fst] in *; unfold ret, raise; cbn [fst]; intros [= <-]; cbn [exn_cls exn_msg].
  - intros _. by eexists.
  - done.
  - intros He. specialize (Hr e' eq_refl). unfold HttpClient.caught in Hr.
    apply orb_false_iff in Hr as [_ Hr]. congruence.
Qed.

End Transport.

(* ===================================================================== *)
(** ** Adapters: the request *)
(* ===================================================================== *)

Lemma str_eqb_eq (a b : pystr) : str_eqb a b = true ↔ a = b.
Proof. unfold str_eqb. apply bool_decide_eq_true. Qed.

Lemma dict_get_app (k : pystr) (d1 d2 : list (pystr * JSON)) :
  dict_get k (d1 ++ d2)
  = match dict_get k d1 with Some v => Some v | None => dict_get k d2 end.
Proof.
  induction d1 as [|[k' v] d1 IH]; [done|].
  cbn [app dict_get]. by destruct (str_eqb k' k).
Qed.

Lemma split_loop_started (messages core : list ChatMessage) (s : pystr) :
  BaseAdapter.split_loop messages (Some s) core = (Some s, core ++ messages).
Proof.
  revert core. induction messages as [|m rest IH]; intros core.
  - by rewrite app_nil_r.
  - cbn [BaseAdapter.split_loop].
    rewrite (bool_decide_eq_true_2 (is_Some (Some s))) by by eexists.
    rewrite andb_false_r, IH. by rewrite <- app_assoc.
Qed.

Lemma split_loop_fresh (messages core : list ChatMessage) :
  BaseAdapter.split_loop messages None core
  = (first_system messages, core ++ without_first_system messages).
Proof.
  revert core. induction messages as [|m rest IH]; intros core.
  - by rewrite app_nil_r.
  - cbn [BaseAdapter.split_loop first_system without_first_system].
    rewrite (bool_decide_eq_false_2 (is_Some (@None pystr)))
      by (intros [? ?]; discriminate).
    cbn [negb]. rewrite andb_true_r.
    destruct (str_eqb (role m) (str "system")).
    + apply split_loop_started.
    + rewrite IH. by rewrite <- app_assoc.
Qed.

(** [split_system_message] takes out the first system message and nothing
    else. *)
Lemma split_system_message_spec (messages : list ChatMessage) :
  BaseAdapter.split_system_message messages
  = (first_system messages, without_first_system messages).
Proof. unfold BaseAdapter.split_system_message. by rewrite split_loop_fresh. Qed.

Lemma convert_wire (m : ChatMessage) : AnthropicAdapter.convert m = wire_message m.
Proof.
  destruct m as [r c].
  unfold AnthropicAdapter.convert, wire_message, wire_role, str_eqb. cbn [role content].
  do 3 f_equal. case_decide as Hd.
  - destruct Hd as [-> | ->]; by vm_compute.
  - rewrite !bool_decide_eq_false_2; [done|tauto|tauto].
Qed.

(** The adapters change the world only through [HttpClient.post]. *)
Lemma anthropic_chat_world (cfg : LLMConfig.t) (messages : list ChatMessage)
    (client : HttpClient.t) (key : pystr) (w : World) :
  LLMConfig.anthropic_api_key cfg = Some key → key ≠ [] →
  snd (AnthropicAdapter.chat cfg messages client w)
  = snd (HttpClient.post client (LLMConfig.anthropic_url cfg)
           (Some (AnthropicAdapter.headers cfg key))
           (Some (AnthropicAdapter.payload cfg messages)) w).
Proof.
  intros Hkey Hne. unfold AnthropicAdapter.chat, BaseAdapter.require. rewrite Hkey.
  destruct key as [|c s]; [done|].
  unfold bind at 1, lift at 1. unfold bind at 1.
  destruct (HttpClient.post _ _ _ _ _) as [[resp|e] w1]; [|done].
  unfold bind, lift, ret. cbn [snd].
  destruct (BaseAdapter.ensure_dict _ _); [|done].
  by destruct (reraise_as_LLMError _ _ _).
Qed.

(** C3, as the code has it. For a configuration with an API key and any
    message list, every request [chat] makes carries one payload, and at
    least one request is made when [max_retries >= 1]. The payload's
    [messages] are the input messages without the first system-role
    message, in order, each in wire format (role "user" or "assistant",
    any other role sent as "user", content wrapped in one text block).
    The payload has a [system] field, equal to the first system message's
    content, exactly when there is a system-role message and the content
    of the first one is not empty. *)
Theorem anthropic_payload_shape (cfg : LLMConfig.t) (messages : list ChatMessage)
    (client : HttpClient.t) (key : pystr) (w : World) :
  LLMConfig.anthropic_api_key cfg = Some key → key ≠ [] →
  ∃ fields k ds,
    AnthropicAdapter.payload cfg messages = JObj fields
    ∧ snd (AnthropicAdapter.chat cfg messages client w)
    = after w (request_of client (LLMConfig.anthropic_url cfg)
                 (Some (AnthropicAdapter.headers cfg key)) (Some (JObj fields))) k ds
    ∧ (1 ≤ HttpClient.max_retries client → (1 ≤ k)%nat)
    ∧ dict_get (str "messages") fields
      = Some (JArr (map wire_message (without_first_system messages)))
    ∧ dict_get (str "system") fields
      = match first_system messages with
        | Some (c :: s) => Some (JStr (c :: s))
        | _ => None
        end.
Proof.
  intros Hkey Hne. rewrite (anthropic_chat_world cfg messages client key w Hkey Hne).
  unfold AnthropicAdapter.payload. rewrite split_system_message_spec.
  match goal with
  | |- context [Some (JObj ?f)] => set (fields := f)
  end.
  destruct (post_world client (LLMConfig.anthropic_url cfg)
              (Some (AnthropicAdapter.headers cfg key)) (Some (JObj fields)) w)
    as (k & ds & Hs & Hk).
  exists fields, k, ds. split_and!; [done|done|done| |]; subst fields.
  - rewrite (map_ext _ _ convert_wire).
    destruct (first_system messages) as [[|c s]|]; try rewrite dict_get_app;
      cbn [dict_get]; literal_keys; done.
  - destruct (first_system messages) as [[|c s]|]; try rewrite dict_get_app;
      cbn [dict_get]; literal_keys; done.
Qed.

(* ===================================================================== *)
(** ** Adapters: the response *)
(* ===================================================================== *)

Lemma block_texts_cons (b : JSON) (blocks : list JSON) :
  block_texts (b :: blocks)
  = if is_text_block b
    then match block_text b with
         | Some s => s :: block_texts blocks
         | None => block_texts blocks
         end
    else block_texts blocks.
Proof. unfold block_texts. cbn [List.filter]. by destruct (is_text_block b). Qed.

(** What the generator yields and what [join] makes of it, when every text
    block has a usable text. *)
Lemma join_text_items (blocks : list JSON) (i : Z) :
  Forall (λ b, is_text_block b = true → is_Some (block_text b)) blocks →
  AnthropicAdapter.join_items i (AnthropicAdapter.text_items blocks)
  = Ok (concat (block_texts blocks)).
Proof.
  intros Hall. revert i. induction Hall as [|b blocks Hb _ IH]; intros i; [done|].
  rewrite block_texts_cons.
  destruct b as [| | | | |l|d]; cbn [AnthropicAdapter.text_items is_text_block];
    try apply IH.
  cbn [is_text_block] in Hb.
  destruct (get_is_str d (str "type") (str "text")); [|apply IH].
  destruct (Hb eq_refl) as [s Hs]. rewrite Hs.
  cbn [block_text] in Hs.
  destruct (dict_get (str "text") d) as [[| | | |s'| |]|]; simplify_eq; cbn [default];
    cbn [AnthropicAdapter.join_items rbind concat]; by rewrite IH.
Qed.

Section AnthropicResponse.

Variable cfg : LLMConfig.t.
Variable messages : list ChatMessage.
Variable client : HttpClient.t.
Variable key : pystr.
Variable w w' : World.
Variable resp : JSON.

Hypothesis Hkey : LLMConfig.anthropic_api_key cfg = Some key.
Hypothesis Hne : key ≠ [].
Hypothesis Hpost :
  HttpClient.post client (LLMConfig.anthropic_url cfg)
    (Some (AnthropicAdapter.headers cfg key))
    (Some (AnthropicAdapter.payload cfg messages)) w = (Ok resp, w').

(** [chat] once the transport has returned [resp]. *)
Lemma anthropic_chat_parse :
  AnthropicAdapter.chat cfg messages client w
  = (let* raw := lift (BaseAdapter.ensure_dict resp (str "anthropic")) in
     let* text := lift (reraise_as_LLMError [KeyError; TypeError]
                          (str "Anthropic: unexpected response format: ")
                          (let? blocks := getitem_key (JObj raw) (str "content") in
                           match blocks with
                           | JArr blocks =>
                               let? joined := AnthropicAdapter.join_items 0
                                                (AnthropicAdapter.text_items blocks) in
                               Ok (strip joined)
                           | _ => Raise (Exn TypeError (str "content is not a list"))
                           end)) in
     ret {| LLMResult.text := JStr text;
            LLMResult.raw := JObj raw;
            LLMResult.provider := Provider_ANTHROPIC;
            LLMResult.model := LLMConfig.model cfg;
            LLMResult.usage := default JNull (dict_get (str "usage") raw) |}) w'.
Proof using Hkey Hne Hpost.
  unfold AnthropicAdapter.chat, BaseAdapter.require. rewrite Hkey.
  destruct key as [|c s]; [done|].
  unfold bind at 1, lift at 1. unfold bind at 1. by rewrite Hpost.
Qed.

(** C4, as the code has it. When the response's [content] is a list in
    which every block of type "text" has a [text] field that is a string
    (or has none, which reads as the empty string), the result text is
    the concatenation of those texts in list order, with no separator,
    trimmed. When [content] is absent or not a list (or the response is
    not an object at all), [chat] fails with a plain [LLMError]. *)
Theorem anthropic_text_concat :
  (∀ d blocks,
      resp = JObj d → dict_get (str "content") d = Some (JArr blocks) →
      Forall (λ b, is_text_block b = true → is_Some (block_text b)) blocks →
      ∃ r, AnthropicAdapter.chat cfg messages client w = (Ok r, w')
           ∧ LLMResult.text r = JStr (strip (concat (block_texts blocks))))
  ∧ ((∀ d blocks, resp = JObj d → dict_get (str "content") d ≠ Some (JArr blocks)) →
     ∃ msg, AnthropicAdapter.chat cfg messages client w
            = (Raise (Exn LLMError msg), w')).
Proof using Hkey Hne Hpost.
  rewrite anthropic_chat_parse. split.
  - intros d blocks -> Hc Hall.
    unfold bind, lift, ret. cbn [BaseAdapter.ensure_dict getitem_key].
    rewrite Hc. cbn [rbind]. rewrite (join_text_items blocks 0 Hall).
    cbn [rbind reraise_as_LLMError]. by eexists.
  - intros Hno. unfold bind, lift, ret.
    destruct resp as [| | | | | |d]; try (cbn [BaseAdapter.ensure_dict]; by eexists).
    cbn [BaseAdapter.ensure_dict getitem_key].
    destruct (dict_get (str "content") d) as [v|] eqn:Hc.
    + destruct v as [| | | | |blocks|]; try (cbn; by eexists).
      by destruct (Hno d blocks eq_refl).
    + cbn. by eexists.
Qed.

(** Whatever the response, a result of the Anthropic adapter has a string
    as its text. *)
Lemma anthropic_text_is_str (r : LLMResult.t) (w1 : World) :
  AnthropicAdapter.chat cfg messages client w = (Ok r, w1) →
  is_str (LLMResult.text r) = true.
Proof using Hkey Hne Hpost.
  rewrite anthropic_chat_parse. unfold bind, lift, ret.
  destruct (BaseAdapter.ensure_dict _ _); [|done].
  destruct (reraise_as_LLMError _ _ _); [|done].
  by intros [= <- _].
Qed.

End AnthropicResponse.

Section OllamaResponse.

Variable cfg : LLMConfig.t.
Variable messages : list ChatMessage.
Variable client : HttpClient.t.
Variable w w' : World.
Variable resp : JSON.

Hypothesis Hpost :
  HttpClient.post client (LLMConfig.ollama_url cfg) None
    (Some (OllamaAdapter.payload cfg messages)) w = (Ok resp, w').

(** [chat] once the transport has returned [resp]. *)
Lemma ollama_chat_parse :
  OllamaAdapter.chat cfg messages client w
  = (let* raw := lift (BaseAdapter.ensure_dict resp (str "ollama")) in
     let* text := lift (match default (JObj []) (dict_get (str "message") raw) with
                        | JObj message =>
                            let v := default (JStr []) (dict_get (str "content") message) in
                            Ok (if truthy v then v else JStr [])
                        | _ => Raise (Exn LLMError
                                        (str "Ollama: unexpected response format: "
                                         ++ str "message is not an object"))
                        end) in
     ret {| LLMResult.text := text;
            LLMResult.raw := JObj raw;
            LLMResult.provider := Provider_OLLAMA;
            LLMResult.model := LLMConfig.model cfg;
            LLMResult.usage :=
              JObj [(str "eval_count",
                     default JNull (dict_get (str "eval_count") raw))] |}) w'.
Proof using Hpost.
  unfold OllamaAdapter.chat. unfold bind at 1. by rewrite Hpost.
Qed.

(** C5. For a response that is a JSON object: when it has no [message]
    key, or [message] is an object without a [content] key, the result
    text is the empty string and nothing is raised; when [message] is
    there and is not an object, [chat] fails with a plain [LLMError]. *)
Theorem ollama_message_content (d : list (pystr * JSON)) :
  resp = JObj d →
  ((dict_get (str "message") d = None
    ∨ ∃ m, dict_get (str "message") d = Some (JObj m)
           ∧ dict_get (str "content") m = None) →
   ∃ r, OllamaAdapter.chat cfg messages client w = (Ok r, w')
        ∧ LLMResult.text r = JStr [])
  ∧ (∀ v, dict_get (str "message") d = Some v → (∀ m, v ≠ JObj m) →
          ∃ msg, OllamaAdapter.chat cfg messages client w
                 = (Raise (Exn LLMError msg), w')).
Proof using Hpost.
  intros Hresp. rewrite ollama_chat_parse. subst resp.
  unfold bind, lift, ret. cbn [BaseAdapter.ensure_dict]. split.
  - intros [Hm|(m & Hm & Hc)]; rewrite Hm; cbn [default from_option id].
    + by eexists.
    + rewrite Hc. by eexists.
  - intros v Hm Hv. rewrite Hm. cbn [default from_option id].
    destruct v; try by eexists. by destruct (Hv fields).
Qed.

(** A result of the Ollama adapter never has [None] or any other falsy
    value but the empty string as its text. *)
Lemma ollama_text_truthy_or_empty (r : LLMResult.t) (w1 : World) :
  OllamaAdapter.chat cfg messages client w = (Ok r, w1) →
  truthy (LLMResult.text r) = true ∨ LLMResult.text r = JStr [].
Proof using Hpost.
  rewrite ollama_chat_parse. unfold bind, lift, ret.
  destruct (BaseAdapter.ensure_dict _ _) as [raw|]; [|done].
  destruct (default (JObj []) (dict_get (str "message") raw)); try done.
  intros [= <- _]. cbn [LLMResult.text].
  set (v := default (JStr []) (dict_get (str "content") fields)).
  destruct (truthy v) eqn:Ht; [by left|by right].
Qed.

End OllamaResponse.

Section OpenAIResponse.

Variable cfg : LLMConfig.t.
Variable messages : list ChatMessage.
Variable client : HttpClient.t.
Variable key : pystr.
Variable w w' : World.
Variable resp : JSON.

Hypothesis Hkey : LLMConfig.openai_api_key cfg = Some key.
Hypothesis Hne : key ≠ [].
Hypothesis Hpost :
  HttpClient.post client (LLMConfig.openai_url cfg)
    (Some (OpenAIAdapter.headers key))
    (Some (OpenAIAdapter.payload cfg messages)) w = (Ok resp, w').

(** The OpenAI adapter stores [choices[0].message.content] as it finds
    it, whatever its type. *)
Lemma openai_text_is_content (d first message : list (pystr * JSON))
    (rest : list JSON) (v : JSON) :
  resp = JObj d →
  dict_get (str "choices") d = Some (JArr (JObj first :: rest)) →
  dict_get (str "message") first = Some (JObj message) →
  dict_get (str "content") message = Some v →
  ∃ r, OpenAIAdapter.chat cfg messages client w = (Ok r, w')
       ∧ LLMResult.text r = v.
Proof using Hkey Hne Hpost.
  intros -> Hc Hm Hv.
  unfold OpenAIAdapter.chat, BaseAdapter.require. rewrite Hkey.
  destruct key as [|c s]; [done|].
  unfold bind at 1, lift at 1. unfold bind at 1. rewrite Hpost.
  unfold bind, lift, ret. cbn [BaseAdapter.ensure_dict getitem_key].
  rewrite Hc. cbn [rbind getitem_0 getitem_key]. rewrite Hm.
  cbn [rbind getitem_key]. rewrite Hv. by eexists.
Qed.

End OpenAIResponse.

(* ===================================================================== *)
(** ** Configuration from the environment *)
(* ===================================================================== *)

Lemma supported_names (p : pystr) : LLMConfig.supported p = true ↔ p ∈ provider_names.
Proof.
  unfold LLMConfig.supported, provider_names.
  rewrite !orb_true_iff, !str_eqb_eq, !elem_of_cons, elem_of_nil. tauto.
Qed.

Section FromEnv.

Context `{B : Builtins}.
Variable env : gmap string pystr.

(** [from_env] refuses a provider outside the three names. *)
Lemma from_env_rejects :
  py_lower (LLMConfig.getenv env "LLM_PROVIDER" DEFAULT_PROVIDER) ∉ provider_names →
  LLMConfig.from_env env
  = Raise (Exn ValueError
             (str "Unsupported provider: "
              ++ py_lower (LLMConfig.getenv env "LLM_PROVIDER" DEFAULT_PROVIDER))).
Proof.
  intros Hp. unfold LLMConfig.from_env.
  destruct (LLMConfig.supported _) eqn:Hs; [|done].
  by apply supported_names in Hs.
Qed.

(** Every configuration [from_env] builds names one of the three. *)
Lemma from_env_provider (cfg : LLMConfig.t) :
  LLMConfig.from_env env = Ok cfg → LLMConfig.provider cfg ∈ provider_names.
Proof.
  unfold LLMConfig.from_env.
  destruct (LLMConfig.supported _) eqn:Hs; [|done]. apply supported_names in Hs.
  cbn [negb]. unfold rbind.
  repeat (case_match; try done); by intros [= <-].
Qed.

(** A variable with a default reads as [a] exactly when the text the code
    passes to the parser, the variable's or the default's, parses to [a]. *)
Lemma reads_as_getenv {A} (parse : pystr -> Result A) (v : option pystr)
    (dflt_text : pystr) (dflt a : A) :
  parse dflt_text = Ok dflt →
  parse (default dflt_text v) = Ok a ↔ reads_as parse v dflt a.
Proof.
  intros Hd. destruct v as [s|]; cbn [default from_option id reads_as]; [done|].
  rewrite Hd. split; [by intros [= <-]|by intros ->].
Qed.

(** C8. For every environment whose provider, when set, is one of the
    three names in any letter case, [from_env] builds a configuration
    exactly when every numeric variable that is set parses, and the
    configuration it builds holds: the provider lower-cased, or "ollama";
    the model, base URLs and version as supplied, or "llama3",
    https://api.openai.com, https://api.anthropic.com,
    http://localhost:11434 and "2023-06-01"; the API keys as supplied, or
    none; the temperature, timeout and retry count as [float] and [int]
    read the text supplied, or 0.2, 60 and 3; the token limit as [int]
    reads the text supplied, or none when the variable is absent or set to
    the empty string. When it builds none, the exception is the one
    [float] or [int] raised on a variable that is set. The assumptions on
    the interpreter are that [float] and [int] read the defaults' own text
    back and that [lower] leaves "ollama" as it is. *)
Theorem from_env_round_trip :
  py_float (str "0.2") = Ok DEFAULT_TEMPERATURE →
  py_int (str "60") = Ok 60 →
  py_int (str "3") = Ok 3 →
  py_lower (str "ollama") = str "ollama" →
  (∀ p, env !! "LLM_PROVIDER"%string = Some p → py_lower p ∈ provider_names) →
  (∀ cfg,
     LLMConfig.from_env env = Ok cfg
     ↔ LLMConfig.provider cfg
       = from_option py_lower (str "ollama") (env !! "LLM_PROVIDER"%string)
       ∧ LLMConfig.model cfg = default (str "llama3") (env !! "LLM_MODEL"%string)
       ∧ reads_as py_float (env !! "LLM_TEMPERATURE"%string) DEFAULT_TEMPERATURE
           (LLMConfig.temperature cfg)
       ∧ reads_opt py_int (env !! "LLM_MAX_TOKENS"%string) (LLMConfig.max_tokens cfg)
       ∧ reads_as py_int (env !! "LLM_TIMEOUT_S"%string) 60 (LLMConfig.timeout_s cfg)
       ∧ reads_as py_int (env !! "LLM_MAX_RETRIES"%string) 3 (LLMConfig.max_retries cfg)
       ∧ LLMConfig.openai_api_key cfg = env !! "OPENAI_API_KEY"%string
       ∧ LLMConfig.openai_base_url cfg
         = default (str "https://api.openai.com") (env !! "OPENAI_BASE_URL"%string)
       ∧ LLMConfig.anthropic_api_key cfg = env !! "ANTHROPIC_API_KEY"%string
       ∧ LLMConfig.anthropic_api_url cfg
         = default (str "https://api.anthropic.com") (env !! "ANTHROPIC_API_URL"%string)
       ∧ LLMConfig.anthropic_version cfg
         = default (str "2023-06-01") (env !! "ANTHROPIC_VERSION"%string)
       ∧ LLMConfig.ollama_base_url cfg
         = default (str "http://localhost:11434") (env !! "OLLAMA_BASE_URL"%string))
  ∧ (∀ e,
       LLMConfig.from_env env = Raise e →
       (∃ s, env !! "LLM_TEMPERATURE"%string = Some s ∧ py_float s = Raise e)
       ∨ (∃ s, env !! "LLM_MAX_TOKENS"%string = Some s ∧ s ≠ [] ∧ py_int s = Raise e)
       ∨ (∃ s, env !! "LLM_TIMEOUT_S"%string = Some s ∧ py_int s = Raise e)
       ∨ (∃ s, env !! "LLM_MAX_RETRIES"%string = Some s ∧ py_int s = Raise e)).
Proof.
  intros Hf H60 H3 Hlow Hprov.
  assert (Hp : py_lower (LLMConfig.getenv env "LLM_PROVIDER" DEFAULT_PROVIDER)
               = from_option py_lower (str "ollama") (env !! "LLM_PROVIDER"%string)).
  { unfold LLMConfig.getenv.
    destruct (env !! "LLM_PROVIDER"%string); cbn [default from_option id]; [done|].
    exact Hlow. }
  assert (Hs : LLMConfig.supported
                 (from_option py_lower (str "ollama") (env !! "LLM_PROVIDER"%string))
               = true).
  { apply supported_names.
    destruct (env !! "LLM_PROVIDER"%string) as [p|] eqn:Ep; cbn [from_option].
    - by apply Hprov.
    - apply (bool_decide_unpack _). vm_compute. exact I. }
  unfold LLMConfig.from_env. rewrite Hp, Hs. cbn [negb].
  split.
  - intros cfg.
    rewrite <- (reads_as_getenv py_float _ DEFAULT_TEMPERATURE_str _ _ Hf).
    rewrite <- (reads_as_getenv py_int _ (py_str_int DEFAULT_TIMEOUT_S) _ _ H60).
    rewrite <- (reads_as_getenv py_int _ (py_str_int DEFAULT_MAX_RETRIES) _ _ H3).
    unfold LLMConfig.getenv, rbind, reads_opt. clear Hf H60 H3.
    split.
    + intros Hcfg.
      destruct (py_float _) as [t|]; [|done].
      destruct (env !! "LLM_MAX_TOKENS"%string) as [[|c s]|]; cbn [nonempty].
      * destruct (py_int (default (py_str_int DEFAULT_TIMEOUT_S) _)) as [x|]; [|done].
        destruct (py_int (default (py_str_int DEFAULT_MAX_RETRIES) _)) as [y|]; [|done].
        by injection Hcfg as <-.
      * destruct (py_int (c :: s)) as [n|]; [|done].
        destruct (py_int (default (py_str_int DEFAULT_TIMEOUT_S) _)) as [x|]; [|done].
        destruct (py_int (default (py_str_int DEFAULT_MAX_RETRIES) _)) as [y|]; [|done].
        injection Hcfg as <-. cbn. split_and!; try done. by exists n.
      * destruct (py_int (default (py_str_int DEFAULT_TIMEOUT_S) _)) as [x|]; [|done].
        destruct (py_int (default (py_str_int DEFAULT_MAX_RETRIES) _)) as [y|]; [|done].
        by injection Hcfg as <-.
    + destruct cfg as [p m t mt ts mr ok ob ak au av ob']. cbn.
      intros (-> & -> & -> & Hmt & -> & -> & -> & -> & -> & -> & -> & ->).
      destruct (env !! "LLM_MAX_TOKENS"%string) as [[|c s]|]; cbn [nonempty] in Hmt.
      * by subst mt.
      * destruct Hmt as (x & -> & ->). done.
      * by subst mt.
  - intros e. unfold LLMConfig.getenv, rbind.
    assert (Hf' : py_float DEFAULT_TEMPERATURE_str = Ok DEFAULT_TEMPERATURE) by exact Hf.
    assert (H60' : py_int (py_str_int DEFAULT_TIMEOUT_S) = Ok 60) by exact H60.
    assert (H3' : py_int (py_str_int DEFAULT_MAX_RETRIES) = Ok 3) by exact H3.
    clear Hf H60 H3.
    destruct (env !! "LLM_TEMPERATURE"%string) as [s1|] eqn:E1; cbn [default from_option id].
    2: rewrite Hf'.
    all: destruct (env !! "LLM_TIMEOUT_S"%string) as [s3|] eqn:E3;
      cbn [default from_option id].
    all: destruct (env !! "LLM_MAX_RETRIES"%string) as [s4|] eqn:E4;
      cbn [default from_option id].
    all: try rewrite H60'; try rewrite H3'.
    all: clear Hf' H60' H3'.
    all: destruct (env !! "LLM_MAX_TOKENS"%string) as [[|c s2]|] eqn:E2.
    all: repeat match goal with
           | |- context [match ?p ?s with Ok _ => _ | Raise _ => _ end] =>
               let E := fresh "E" in destruct (p s) eqn:E
           end.
    all: intros [= <-]; eauto 10.
Qed.

End FromEnv.

(* ===================================================================== *)
(** ** Facade *)
(* ===================================================================== *)

Lemma getitem_key_class (v : JSON) (k : pystr) (e : exn) :
  getitem_key v k = Raise e → exn_cls e = KeyError ∨ exn_cls e = TypeError.
Proof.
  unfold getitem_key.
  destruct v; try (intros [= <-]; by right).
  destruct (dict_get k fields); intros [= <-]; by left.
Qed.

Lemma getitem_0_class (v : JSON) (e : exn) :
  getitem_0 v = Raise e →
  exn_cls e = KeyError ∨ exn_cls e = IndexError ∨ exn_cls e = TypeError.
Proof.
  unfold getitem_0.
  destruct v as [| | | |[|? ?]|[|? ?]|]; intros [= <-]; cbn [exn_cls]; tauto.
Qed.

Lemma join_items_class (items : list JSON) (i : Z) (e : exn) :
  AnthropicAdapter.join_items i items = Raise e → exn_cls e = TypeError.
Proof.
  revert i. induction items as [|v items IH]; intros i; [done|].
  destruct v; try by intros [= <-].
  cbn [AnthropicAdapter.join_items]. unfold rbind.
  destruct (AnthropicAdapter.join_items (i + 1) items) eqn:Hj; [done|].
  intros [= <-]. by apply (IH (i + 1)).
Qed.

(** When every exception of the block is of a listed class, what leaves
    the [except] clause is the [LLMError] with the given prefix. *)
Lemma reraise_listed {A} (classes : list exn_class) (prefix : pystr) (r : Result A)
    (e : exn) :
  (∀ e', r = Raise e' → exn_cls e' ∈ classes) →
  reraise_as_LLMError classes prefix r = Raise e →
  ∃ detail, e = Exn LLMError (prefix ++ detail).
Proof.
  intros Hcls. destruct r as [a|e']; [done|]. cbn [reraise_as_LLMError].
  rewrite bool_decide_eq_true_2 by by apply Hcls.
  intros [= <-]. by eexists.
Qed.

Lemma post_not_unsupported (c : HttpClient.t) (url : pystr)
    (headers : option (list (pystr * pystr))) (json : option JSON) (w : World) (e : exn) :
  fst (HttpClient.post c url headers json w) = Raise e → not_unsupported e.
Proof.
  intros He Hc.
  destruct (post_LLMError_message c url headers json w e He) as [rest Hrest].
  { by rewrite Hc. }
  rewrite Hrest. eexists _, _. split; [reflexivity|done].
Qed.

Lemma openai_not_unsupported (cfg : LLMConfig.t) (messages : list ChatMessage)
    (client : HttpClient.t) (w : World) (e : exn) :
  fst (OpenAIAdapter.chat cfg messages client w) = Raise e → not_unsupported e.
Proof.
  unfold OpenAIAdapter.chat, bind, lift, ret.
  destruct (BaseAdapter.require _ _) as [key|e0] eqn:Hreq.
  2:{ intros [= <-]. unfold BaseAdapter.require in Hreq.
      repeat case_match; simplify_eq; intros Hc; discriminate Hc. }
  destruct (HttpClient.post _ _ _ _ _) as [[resp|e0] w1] eqn:Hpost.
  2:{ intros [= <-]. eapply post_not_unsupported. by rewrite Hpost. }
  destruct (BaseAdapter.ensure_dict _ _) as [raw|e0] eqn:Hd.
  2:{ intros [= <-]. unfold BaseAdapter.ensure_dict in Hd.
      destruct resp; simplify_eq; intros _; eexists _, _; (split; [reflexivity|done]). }
  destruct (reraise_as_LLMError _ _ _) as [text|e0] eqn:Hr; [done|].
  intros [= <-]. apply reraise_listed in Hr as [detail ->].
  - intros _. eexists _, _. split; [reflexivity|done].
  - intros e'. unfold rbind.
    destruct (getitem_key (JObj raw) _) as [choices|e1] eqn:H1.
    2:{ intros [= <-]. apply getitem_key_class in H1 as [-> | ->]; class_listed. }
    destruct (getitem_0 choices) as [first|e1] eqn:H2.
    2:{ intros [= <-]. apply getitem_0_class in H2 as [-> | [-> | ->]]; class_listed. }
    destruct (getitem_key first _) as [message|e1] eqn:H3.
    2:{ intros [= <-]. apply getitem_key_class in H3 as [-> | ->]; class_listed. }
    intros H4. apply getitem_key_class in H4 as [-> | ->]; class_listed.
Qed.

Lemma anthropic_not_unsupported (cfg : LLMConfig.t) (messages : list ChatMessage)
    (client : HttpClient.t) (w : World) (e : exn) :
  fst (AnthropicAdapter.chat cfg messages client w) = Raise e → not_unsupported e.
Proof.
  unfold AnthropicAdapter.chat, bind, lift, ret.
  destruct (BaseAdapter.require _ _) as [key|e0] eqn:Hreq.
  2:{ intros [= <-]. unfold BaseAdapter.require in Hreq.
      repeat case_match; simplify_eq; intros Hc; discriminate Hc. }
  destruct (HttpClient.post _ _ _ _ _) as [[resp|e0] w1] eqn:Hpost.
  2:{ intros [= <-]. eapply post_not_unsupported. by rewrite Hpost. }
  destruct (BaseAdapter.ensure_dict _ _) as [raw|e0] eqn:Hd.
  2:{ intros [= <-]. unfold BaseAdapter.ensure_dict in Hd.
      destruct resp; simplify_eq; intros _; eexists _, _; (split; [reflexivity|done]). }
  destruct (reraise_as_LLMError _ _ _) as [text|e0] eqn:Hr; [done|].
  intros [= <-]. apply reraise_listed in Hr as [detail ->].
  - intros _. eexists _, _. split; [reflexivity|done].
  - intros e'. unfold rbind.
    destruct (getitem_key (JObj raw) _) as [blocks|e1] eqn:H1.
    2:{ intros [= <-]. apply getitem_key_class in H1 as [-> | ->]; class_listed. }
    destruct blocks as [| | | | |blocks|]; try (intros [= <-]; cbn [exn_cls]; class_listed).
    destruct (AnthropicAdapter.join_items _ _) as [joined|e1] eqn:H2; [done|].
    intros [= <-]. apply join_items_class in H2. rewrite H2. class_listed.
Qed.

Lemma ollama_not_unsupported (cfg : LLMConfig.t) (messages : list ChatMessage)
    (client : HttpClient.t) (w : World) (e : exn) :
  fst (OllamaAdapter.chat cfg messages client w) = Raise e → not_unsupported e.
Proof.
  unfold OllamaAdapter.chat, bind, lift, ret.
  destruct (HttpClient.post _ _ _ _ _) as [[resp|e0] w1] eqn:Hpost.
  2:{ intros [= <-]. eapply post_not_unsupported. by rewrite Hpost. }
  destruct (BaseAdapter.ensure_dict _ _) as [raw|e0] eqn:Hd.
  2:{ intros [= <-]. unfold BaseAdapter.ensure_dict in Hd.
      destruct resp; simplify_eq; intros _; eexists _, _; (split; [reflexivity|done]). }
  destruct (default (JObj []) (dict_get (str "message") raw));
    intros [= <-]; intros _; eexists _, _; (split; [reflexivity|done]).
Qed.

(** The table of adapters built by [LLM(config)]. *)
Lemma adapters_lookup (config : LLMConfig.t) (net : Session) (k : pystr) :
  LLM._adapters (LLM.init config net) !! k
  = if decide (k = str "openai") then Some LLM.OpenAI
    else if decide (k = str "anthropic") then Some LLM.Anthropic
    else if decide (k = str "ollama") then Some LLM.Ollama
    else None.
Proof.
  cbn [LLM.init LLM._adapters].
  repeat case_decide; subst.
  - by rewrite lookup_insert_eq.
  - rewrite lookup_insert_ne by done. by rewrite lookup_insert_eq.
  - do 2 (rewrite lookup_insert_ne by done). by rewrite lookup_insert_eq.
  - by do 3 (rewrite lookup_insert_ne by done).
Qed.

(** C10. A configuration built by [from_env] names one of "openai",
    "anthropic", "ollama"; the adapter table of the facade has exactly
    those three keys; so [chat] finds an adapter, is that adapter's [chat],
    and never fails with the "Unsupported provider" [LLMError]. *)
Theorem from_env_chat_has_adapter `{B : Builtins} (env : gmap string pystr)
    (cfg : LLMConfig.t) (net : Session) :
  LLMConfig.from_env env = Ok cfg →
  LLMConfig.provider cfg ∈ provider_names
  ∧ (∀ k, is_Some (LLM._adapters (LLM.init cfg net) !! k) ↔ k ∈ provider_names)
  ∧ (∃ adapter,
       LLM._adapters (LLM.init cfg net) !! LLMConfig.provider cfg = Some adapter
       ∧ ∀ messages,
           LLM.chat (LLM.init cfg net) messages
           = LLM.adapter_chat adapter cfg messages (LLM._client (LLM.init cfg net)))
  ∧ ∀ messages w p,
      fst (LLM.chat (LLM.init cfg net) messages w)
      ≠ Raise (Exn LLMError (str "Unsupported provider: " ++ p)).
Proof.
  intros Henv. pose proof (from_env_provider env cfg Henv) as Hp.
  assert (Hkeys : ∀ k, is_Some (LLM._adapters (LLM.init cfg net) !! k) ↔ k ∈ provider_names).
  { intros k. rewrite adapters_lookup. unfold provider_names.
    rewrite !elem_of_cons, elem_of_nil.
    repeat case_decide; split; intros Hk; try tauto; try by eexists.
    by destruct Hk. }
  assert (Hsome : ∃ adapter,
             LLM._adapters (LLM.init cfg net) !! LLMConfig.provider cfg = Some adapter).
  { by apply Hkeys. }
  destruct Hsome as [adapter Ha].
  assert (Hchat : ∀ messages,
             LLM.chat (LLM.init cfg net) messages
             = LLM.adapter_chat adapter cfg messages (LLM._client (LLM.init cfg net))).
  { intros messages. unfold LLM.chat.
    change (LLM.cfg (LLM.init cfg net)) with cfg. by rewrite Ha. }
  split_and!; [done|done|by exists adapter|].
  intros messages w p Hbad. rewrite Hchat in Hbad.
  assert (Hnot : not_unsupported (Exn LLMError (str "Unsupported provider: " ++ p))).
  { destruct adapter; cbn [LLM.adapter_chat] in Hbad.
    - by eapply openai_not_unsupported.
    - by eapply anthropic_not_unsupported.
    - by eapply ollama_not_unsupported. }
  destruct (Hnot eq_refl) as (c & rest & Hmsg & Hc).
  cbn [exn_msg] in Hmsg. by injection Hmsg as <- _.
Qed.

Lemma lstrip_head (s r : pystr) (c : N) : lstrip s = c :: r → is_space c = false.
Proof.
  induction s as [|a s IH]; [done|]. cbn [lstrip].
  destruct (is_space a) eqn:Ha; [done|]. by intros [= <- _].
Qed.

Lemma lstrip_fixed (s : pystr) (c : N) : is_space c = false → lstrip (c :: s) = c :: s.
Proof. intros Hc. cbn [lstrip]. by rewrite Hc. Qed.

Lemma lstrip_idem (s : pystr) : lstrip (lstrip s) = lstrip s.
Proof.
  destruct (lstrip s) as [|c r] eqn:Hs; [done|].
  apply lstrip_fixed. by apply lstrip_head in Hs.
Qed.

Lemma lstrip_keeps_last (l : pystr) (c : N) :
  is_space c = false → ∃ r, lstrip (l ++ [c]) = r ++ [c].
Proof.
  intros Hc. induction l as [|a l IH].
  - exists []. by apply lstrip_fixed.
  - cbn [app lstrip]. destruct (is_space a); [done|]. by exists (a :: l).
Qed.

Lemma rstrip_keeps_head (s : pystr) (c : N) :
  is_space c = false → ∃ r, rstrip (c :: s) = c :: r.
Proof.
  intros Hc. unfold rstrip. cbn [rev].
  destruct (lstrip_keeps_last (rev s) c Hc) as [r Hr].
  exists (rev r). by rewrite Hr, rev_app_distr.
Qed.

Lemma rstrip_idem (s : pystr) : rstrip (rstrip s) = rstrip s.
Proof. unfold rstrip. by rewrite rev_involutive, lstrip_idem. Qed.

(** Trimming twice is trimming once: a trimmed line has no whitespace left
    at either end. *)
Lemma strip_idem (s : pystr) : strip (strip s) = strip s.
Proof.
  unfold strip. destruct (lstrip s) as [|c r] eqn:Hs; [done|].
  apply lstrip_head in Hs.
  destruct (rstrip_keeps_head r c Hs) as [r' Hr]. rewrite Hr.
  rewrite (lstrip_fixed r' c Hs), <- Hr. apply rstrip_idem.
Qed.

(** The comprehension of [extract_tags] is: trim every line, keep the
    non-empty ones. *)
Lemma stripped_nonempty_filter (lines : list pystr) :
  LLM.stripped_nonempty lines = List.filter nonempty (map strip lines).
Proof.
  induction lines as [|l lines IH]; [done|].
  cbn [LLM.stripped_nonempty map List.filter].
  destruct (strip l); cbn [nonempty]; by rewrite IH.
Qed.

Lemma stripped_nonempty_Forall (lines : list pystr) :
  Forall (λ t, t ≠ [] ∧ trimmed t) (LLM.stripped_nonempty lines).
Proof.
  induction lines as [|l lines IH]; [constructor|].
  cbn [LLM.stripped_nonempty]. destruct (strip l) as [|c s] eqn:Hl; [done|].
  constructor; [|done]. split; [done|].
  unfold trimmed. rewrite <- Hl. apply strip_idem.
Qed.

(** [l[:k]] for [k >= 0] is the first [k] entries. *)
Lemma slice_to_nonneg {A} (k : Z) (l : list A) : 0 ≤ k → slice_to k l = take (Z.to_nat k) l.
Proof. intros Hk. unfold slice_to. by rewrite (proj2 (Z.ltb_ge k 0)). Qed.

(** A negative bound counts from the end, as Python slices do. *)
Example slice_to_negative : slice_to (-1) [1; 2; 3] = [1; 2].
Proof. reflexivity. Qed.

(** C7. For [max_tags >= 0] and a chat result whose text is the string
    [s], [extract_tags] returns the first [max_tags] entries of: [s] split
    at newlines, each line trimmed, empty lines dropped. So it returns at
    most [max_tags] tags however many the model sent, each non-empty and
    trimmed. *)
Theorem extract_tags_first_max (self : LLM.t) (text s : pystr) (max_tags : Z)
    (r : LLMResult.t) (w w' : World) :
  0 ≤ max_tags →
  LLM.chat self (LLM.tags_messages text max_tags) w = (Ok r, w') →
  LLMResult.text r = JStr s →
  ∃ tags,
    LLM.extract_tags self text max_tags w = (Ok tags, w')
    ∧ tags = take (Z.to_nat max_tags) (List.filter nonempty (map strip (split_lines s)))
    ∧ Z.of_nat (length tags) ≤ max_tags
    ∧ Forall (λ t, t ≠ [] ∧ trimmed t) tags.
Proof.
  intros Hk Hchat Htext. eexists. split.
  - unfold LLM.extract_tags, bind. rewrite Hchat, Htext. reflexivity.
  - rewrite slice_to_nonneg by done. rewrite stripped_nonempty_filter.
    split_and!; [done| |].
    + rewrite length_take. lia.
    + rewrite <- stripped_nonempty_filter. apply Forall_take, stripped_nonempty_Forall.
Qed.

(* ===================================================================== *)
(** ** The statements at concrete inputs *)
(* ===================================================================== *)

Section Instances.

Import Fixtures.

Local Abbreviation req := plain_request.

(** C1 (what the code does at the test suite's input). With
    [max_retries = 2] and a session that always answers 429 "Rate
    limited", or always 401 "Unauthorized", [post] makes two requests,
    sleeps once for one second, and raises the plain [LLMError] of its
    last line; it does not raise [LLMRateLimit] or [LLMAuthError] after
    one request and no sleep. *)
Theorem post_429_401_retried_and_wrapped :
  HttpClient.post (http_client (always (response 429 (str "Rate limited") no_body)) 2)
    url None None world0
  = (Raise (Exn LLMError
              (str "POST https://api.example.com/test failed after 2 attempts: Rate limited or timeout: 429 Rate limited")),
     {| posts := [req; req]; sleeps := [1%float] |})
  ∧ HttpClient.post (http_client (always (response 401 (str "Unauthorized") no_body)) 2)
      url None None world0
    = (Raise (Exn LLMError
                (str "POST https://api.example.com/test failed after 2 attempts: Auth failed: Unauthorized")),
       {| posts := [req; req]; sleeps := [1%float] |}).
Proof. split; vm_compute; reflexivity. Qed.

Lemma post_persistent_5xx_witness :
  ∃ detail w',
    HttpClient.post (http_client (always (response 500 (str "Server error") no_body)) 6)
      url None None world0
    = (Raise (Exn LLMError
                (str "POST https://api.example.com/test failed after 6 attempts: "
                 ++ detail)), w')
    ∧ length (posts w') = 6%nat
    ∧ sleeps w' = [1; 2; 4; 8; 8]%float.
Proof.
  destruct (post_persistent_5xx
              (http_client (always (response 500 (str "Server error") no_body)) 6)
              url None None world0)
    as (resp & w' & Hpost & _ & Hposts & Hsleeps & _).
  - cbn. lia.
  - intros k r. eexists. split; [reflexivity|]. cbn. lia.
  - eexists _, w'. split_and!.
    + exact Hpost.
    + rewrite Hposts. reflexivity.
    + rewrite Hsleeps. reflexivity.
Defined.

Lemma post_2xx_returns_body_witness :
  HttpClient.post (http_client (answering (JObj [(str "result", JStr (str "success"))])) 2)
    url None None world0
  = (Ok (JObj [(str "result", JStr (str "success"))]),
     {| posts := [req]; sleeps := [] |}).
Proof.
  apply (post_2xx_returns_body
           (http_client (answering (JObj [(str "result", JStr (str "success"))])) 2)
           url None None world0
           (response 200 (str "") (Ok (JObj [(str "result", JStr (str "success"))])))).
  - cbn. lia.
  - reflexivity.
  - cbn. lia.
  - reflexivity.
Defined.

Lemma anthropic_payload_shape_witness :
  ∃ fields,
    AnthropicAdapter.payload (config (str "anthropic")) three_turns = JObj fields
    ∧ dict_get (str "messages") fields
      = Some (JArr [wire_message {| role := str "user"; content := str "Hello" |};
                    wire_message {| role := str "assistant"; content := str "Hi" |}])
    ∧ dict_get (str "system") fields = Some (JStr (str "You are terse.")).
Proof.
  destruct (anthropic_payload_shape (config (str "anthropic")) three_turns
              (http_client (answering (anthropic_response [])) 2)
              (str "test-anthropic-key") world0)
    as (fields & k & ds & Hp & _ & _ & Hm & Hs).
  - reflexivity.
  - discriminate.
  - exists fields. split_and!; [exact Hp|rewrite Hm; reflexivity|rewrite Hs; reflexivity].
Defined.

(** C3 as stated fails: a system-role message is present, its content is
    the empty string, and the one payload sent has no [system] field. *)
Lemma anthropic_empty_system_counterexample :
  (∃ m, m ∈ empty_system_turns ∧ role m = str "system")
  ∧ ∃ fields,
      map req_json
        (posts (snd (AnthropicAdapter.chat (config (str "anthropic")) empty_system_turns
                       (http_client (answering (anthropic_response [])) 2) world0)))
      = [Some (JObj fields)]
      ∧ dict_get (str "system") fields = None.
Proof.
  split.
  - eexists. split; [apply list_elem_of_here|reflexivity].
  - eexists. split; vm_compute; reflexivity.
Qed.

Lemma anthropic_text_concat_witness :
  ∃ r w',
    AnthropicAdapter.chat (config (str "anthropic")) three_turns
      (http_client (answering (anthropic_response [text_block (str "a");
                                                    text_block (str "b")])) 2) world0
    = (Ok r, w')
    ∧ LLMResult.text r = JStr (str "ab").
Proof.
  destruct (anthropic_text_concat (config (str "anthropic")) three_turns
              (http_client (answering (anthropic_response [text_block (str "a");
                                                            text_block (str "b")])) 2)
              (str "test-anthropic-key") world0
              (snd (HttpClient.post
                      (http_client (answering (anthropic_response [text_block (str "a");
                                                                    text_block (str "b")])) 2)
                      (LLMConfig.anthropic_url (config (str "anthropic")))
                      (Some (AnthropicAdapter.headers (config (str "anthropic"))
                               (str "test-anthropic-key")))
                      (Some (AnthropicAdapter.payload (config (str "anthropic"))
                               three_turns)) world0))
              (anthropic_response [text_block (str "a"); text_block (str "b")]))
    as [Hlist _].
  - reflexivity.
  - discriminate.
  - vm_compute. reflexivity.
  - destruct (Hlist _ _ eq_refl eq_refl) as (r & Hr & Ht).
    + repeat constructor; intros _; by eexists.
    + exists r. eexists. split; [exact Hr|rewrite Ht; reflexivity].
Defined.

(** C4 as stated fails: [content] is a list, and its one text block has
    [text: null]; [chat] raises instead of returning a text. *)
Lemma anthropic_null_text_counterexample :
  fst (AnthropicAdapter.chat (config (str "anthropic")) three_turns
         (http_client
            (answering (anthropic_response
                          [JObj [(str "type", JStr (str "text")); (str "text", JNull)]])) 2)
         world0)
  = Raise (Exn LLMError
             (str "Anthropic: unexpected response format: sequence item 0: expected str instance, NoneType found")).
Proof. vm_compute. reflexivity. Qed.

Lemma ollama_message_content_witness :
  (∃ r w',
      OllamaAdapter.chat (config (str "ollama")) three_turns
        (http_client (answering (ollama_response (JObj []))) 2) world0 = (Ok r, w')
      ∧ LLMResult.text r = JStr [])
  ∧ (∃ msg w',
        OllamaAdapter.chat (config (str "ollama")) three_turns
          (http_client (answering (ollama_response (JStr (str "not an object")))) 2) world0
        = (Raise (Exn LLMError msg), w')).
Proof.
  split.
  - destruct (ollama_message_content (config (str "ollama")) three_turns
                (http_client (answering (ollama_response (JObj []))) 2) world0
                (snd (HttpClient.post
                        (http_client (answering (ollama_response (JObj []))) 2)
                        (LLMConfig.ollama_url (config (str "ollama"))) None
                        (Some (OllamaAdapter.payload (config (str "ollama")) three_turns))
                        world0))
                (ollama_response (JObj [])) ltac:(vm_compute; reflexivity)
                _ eq_refl) as [Hempty _].
    destruct Hempty as (r & Hr & Ht).
    + right. exists []. split; reflexivity.
    + exists r. eexists. split; [exact Hr|exact Ht].
  - destruct (ollama_message_content (config (str "ollama")) three_turns
                (http_client (answering (ollama_response (JStr (str "not an object")))) 2)
                world0
                (snd (HttpClient.post
                        (http_client
                           (answering (ollama_response (JStr (str "not an object")))) 2)
                        (LLMConfig.ollama_url (config (str "ollama"))) None
                        (Some (OllamaAdapter.payload (config (str "ollama")) three_turns))
                        world0))
                (ollama_response (JStr (str "not an object")))
                ltac:(vm_compute; reflexivity) _ eq_refl) as [_ Hbad].
    destruct (Hbad (JStr (str "not an object"))) as (msg & Hmsg).
    + reflexivity.
    + discriminate.
    + exists msg. eexists. exact Hmsg.
Defined.

(** C6 (what the code does). The OpenAI adapter accepts a response whose
    message content is [null] and returns a result whose [text] is
    [None]; the Ollama adapter accepts a numeric content and returns it
    as the text. *)
Theorem openai_null_content_text_is_None :
  (∃ r w',
      OpenAIAdapter.chat (config (str "openai")) three_turns
        (http_client (answering (openai_response JNull)) 2) world0 = (Ok r, w')
      ∧ LLMResult.text r = JNull)
  ∧ (∃ r w',
        OllamaAdapter.chat (config (str "ollama")) three_turns
          (http_client (answering (ollama_response (JObj [(str "content", JInt 42)]))) 2)
          world0 = (Ok r, w')
        ∧ LLMResult.text r = JInt 42).
Proof. split; eexists _, _; split; vm_compute; reflexivity. Qed.

Lemma extract_tags_first_max_witness :
  ∃ w',
    LLM.extract_tags
      (LLM.init (config (str "ollama"))
         (answering (ollama_response (JObj [(str "content", JStr six_tags)]))))
      (str "Python for AI and ML") 3 world0
    = (Ok [str "python"; str "ai"; str "ml"], w').
Proof.
  destruct (extract_tags_first_max
              (LLM.init (config (str "ollama"))
                 (answering (ollama_response (JObj [(str "content", JStr six_tags)]))))
              (str "Python for AI and ML") six_tags 3
              {| LLMResult.text := JStr six_tags;
                 LLMResult.raw := ollama_response (JObj [(str "content", JStr six_tags)]);
                 LLMResult.provider := str "ollama";
                 LLMResult.model := str "test-model";
                 LLMResult.usage := JObj [(str "eval_count", JNull)] |}
              world0
              (snd (LLM.chat
                      (LLM.init (config (str "ollama"))
                         (answering (ollama_response
                                       (JObj [(str "content", JStr six_tags)]))))
                      (LLM.tags_messages (str "Python for AI and ML") 3) world0)))
    as (tags & Htags & Heq & _).
  - lia.
  - vm_compute. reflexivity.
  - reflexivity.
  - eexists. rewrite Htags, Heq. reflexivity.
Defined.

Lemma from_env_round_trip_witness :
  LLMConfig.from_env (B := builtins) full_env
  = Ok {| LLMConfig.provider := str "anthropic";
          LLMConfig.model := str "claude-test";
          LLMConfig.temperature := 0.75%float;
          LLMConfig.max_tokens := Some 256;
          LLMConfig.timeout_s := 45;
          LLMConfig.max_retries := 5;
          LLMConfig.openai_api_key := Some (str "sk-test");
          LLMConfig.openai_base_url := str "https://openai.example";
          LLMConfig.anthropic_api_key := Some (str "ak-test");
          LLMConfig.anthropic_api_url := str "https://anthropic.example";
          LLMConfig.anthropic_version := str "2024-01-01";
          LLMConfig.ollama_base_url := str "http://ollama.example:11434" |}
  ∧ LLMConfig.from_env (B := builtins) ∅
    = Ok {| LLMConfig.provider := str "ollama";
            LLMConfig.model := str "llama3";
            LLMConfig.temperature := DEFAULT_TEMPERATURE;
            LLMConfig.max_tokens := None;
            LLMConfig.timeout_s := 60;
            LLMConfig.max_retries := 3;
            LLMConfig.openai_api_key := None;
            LLMConfig.openai_base_url := str "https://api.openai.com";
            LLMConfig.anthropic_api_key := None;
            LLMConfig.anthropic_api_url := str "https://api.anthropic.com";
            LLMConfig.anthropic_version := str "2023-06-01";
            LLMConfig.ollama_base_url := str "http://localhost:11434" |}.
Proof.
  split.
  - destruct (from_env_round_trip (B := builtins) full_env) as [Hok _];
      [reflexivity|reflexivity|reflexivity|reflexivity| |].
    + intros p Hp. vm_compute in Hp. injection Hp as <-.
      apply (bool_decide_unpack _). vm_compute. exact I.
    + apply Hok. vm_compute. split_and!; try reflexivity.
      eexists. split; reflexivity.
  - destruct (from_env_round_trip (B := builtins) ∅) as [Hok _];
      [reflexivity|reflexivity|reflexivity|reflexivity| |].
    + intros p Hp. discriminate Hp.
    + apply Hok. vm_compute. split_and!; reflexivity.
Defined.

(** C8 as stated fails. With the supported provider written "OpenAI" and
    [LLM_MAX_TOKENS] set to the empty string, the configuration holds
    "openai" and no token limit, not the values supplied; with
    [LLM_TEMPERATURE] set to "hot" no configuration is built. *)
Lemma from_env_round_trip_counterexample :
  (∃ cfg,
     LLMConfig.from_env (B := builtins) mixed_case_env = Ok cfg
     ∧ mixed_case_env !! "LLM_PROVIDER"%string = Some (str "OpenAI")
     ∧ LLMConfig.provider cfg = str "openai"
     ∧ LLMConfig.provider cfg ≠ str "OpenAI"
     ∧ mixed_case_env !! "LLM_MAX_TOKENS"%string = Some []
     ∧ LLMConfig.max_tokens cfg = None)
  ∧ hot_env !! "LLM_PROVIDER"%string = Some (str "openai")
  ∧ ∃ msg, LLMConfig.from_env (B := builtins) hot_env = Raise (Exn ValueError msg).
Proof.
  split; [|split].
  - eexists. split; [vm_compute; reflexivity|].
    split_and!; try (vm_compute; reflexivity).
    vm_compute. discriminate.
  - vm_compute. reflexivity.
  - eexists. vm_compute. reflexivity.
Qed.

Lemma from_env_chat_has_adapter_witness :
  ∃ adapter,
    LLM._adapters (LLM.init (config (str "anthropic")) (answering (anthropic_response [])))
      !! str "anthropic" = Some adapter
    ∧ LLM.chat (LLM.init (config (str "anthropic")) (answering (anthropic_response [])))
        three_turns
      = LLM.adapter_chat adapter (config (str "anthropic")) three_turns
          (http_client (answering (anthropic_response [])) 2).
Proof.
  destruct (from_env_chat_has_adapter (B := builtins)
              (list_to_map [("LLM_PROVIDER"%string, str "Anthropic");
                            ("LLM_MODEL"%string, str "test-model");
                            ("LLM_TEMPERATURE"%string, str "0.5");
                            ("LLM_MAX_TOKENS"%string, str "100");
                            ("LLM_TIMEOUT_S"%string, str "30");
                            ("LLM_MAX_RETRIES"%string, str "2");
                            ("OPENAI_API_KEY"%string, str "test-openai-key");
                            ("ANTHROPIC_API_KEY"%string, str "test-anthropic-key")])
              (config (str "anthropic")) (answering (anthropic_response [])))
    as (_ & _ & (adapter & Ha & Hchat) & _).
  - vm_compute. reflexivity.
  - exists adapter. split; [exact Ha|exact (Hchat three_turns)].
Defined.

End Instances.

(* ===================================================================== *)
(** ** Transport: every session *)
(* ===================================================================== *)

Section TransportAnySession.

Variable c : HttpClient.t.
Variable url : pystr.
Variable headers : option (list (pystr * pystr)).
Variable json : option JSON.

Local Abbreviation req := (request_of c url headers json).
Local Abbreviation N := (HttpClient.max_retries c).

(** The loop started at attempt [i + 1] with the delay of that position:
    it posts [req] some [k] times and sleeps between consecutive posts, the
    sleeps continuing the backoff sequence. *)
Lemma post_loop_trace (n i : nat) (last : option exn) (w : World) :
  (i + n)%nat = Z.to_nat N →
  ∃ k, (k ≤ n)%nat ∧ ((1 ≤ n)%nat → (1 ≤ k)%nat)
       ∧ snd (HttpClient.post_loop c url headers json n (Z.of_nat i + 1)
                (backoff_delay i) last w)
         = after w req k (map backoff_delay (seq i (k - 1))).
Proof.
  revert i last w. induction n as [|n IH]; intros i last w Hin.
  - exists 0%nat. rewrite after_0. split_and!; [lia|lia|done].
  - rewrite post_loop_S. pose proof (try_body_posts c url headers json w) as Hw.
    destruct (HttpClient.try_body c url headers json w) as [[v|e] w1];
      cbn [snd] in Hw; subst w1.
    + exists 1%nat. split_and!; [lia|lia|done].
    + destruct (HttpClient.caught e).
      * destruct (Z.of_nat i + 1 =? HttpClient.max_retries c) eqn:Hlast.
        { exists 1%nat. split_and!; [lia|lia|done]. }
        apply Z.eqb_neq in Hlast.
        assert (Hw' : {| posts := posts (after w req 1 []);
                         sleeps := sleeps (after w req 1 []) ++ [backoff_delay i] |}
                      = after w req 1 [backoff_delay i]).
        { unfold after; cbn [posts sleeps]. by rewrite app_nil_r. }
        rewrite Hw', next_delay_backoff.
        replace (Z.of_nat i + 1 + 1) with (Z.of_nat (S i) + 1) by lia.
        destruct (IH (S i) (Some e) (after w req 1 [backoff_delay i]))
          as (k & Hk & Hk1 & Hs); [lia|].
        destruct k as [|k]; [lia|].
        exists (S (S k)). split_and!; [lia|lia|].
        rewrite Hs, after_step. cbn [Nat.sub seq map].
        by rewrite Nat.sub_0_r.
      * exists 1%nat. split_and!; [lia|lia|done].
Qed.

(** [post] as a whole: [k] posts of the one request, [k - 1] sleeps. *)
Lemma post_trace (w : World) :
  ∃ k, (k ≤ Z.to_nat N)%nat ∧ (1 ≤ N → (1 ≤ k)%nat)
       ∧ snd (HttpClient.post c url headers json w)
         = after w req k (map backoff_delay (seq 0 (k - 1))).
Proof.
  destruct (post_loop_trace (Z.to_nat N) 0 None w) as (k & Hk & Hk1 & Hs); [lia|].
  exists k. split_and!; [done|lia|].
  unfold HttpClient.post, bind.
  change (Z.of_nat 0 + 1) with 1 in Hs. change (backoff_delay 0) with 1%float in Hs.
  destruct (HttpClient.post_loop _ _ _ _ _ _ _ _ _) as [[[v|[e|]]|e] w1];
    cbn [snd] in Hs; by subst w1.
Qed.

(** X1. Whatever the session answers, [post] sends one and the same
    request (same URL, headers, body, and the client's timeout) [k] times
    with [k <= max_retries] (and [k >= 1] when [max_retries >= 1]), and
    sleeps exactly [k - 1] times, for 1, 2, 4, 8, 8, ... seconds. *)
Theorem post_requests_and_sleeps (w : World) :
  ∃ k, (k ≤ Z.to_nat N)%nat ∧ (1 ≤ N → (1 ≤ k)%nat)
       ∧ posts (snd (HttpClient.post c url headers json w)) = posts w ++ repeat req k
       ∧ sleeps (snd (HttpClient.post c url headers json w))
         = sleeps w ++ map backoff_delay (seq 0 (k - 1))
       ∧ length (sleeps (snd (HttpClient.post c url headers json w)))
         = (length (sleeps w) + (k - 1))%nat.
Proof.
  destruct (post_trace w) as (k & Hk & Hk1 & Hs).
  exists k. rewrite Hs. unfold after; cbn [posts sleeps].
  split_and!; try done.
  by rewrite length_app, length_map, length_seq.
Qed.

(** X2. With [max_retries <= 0] the loop body never runs: no request is
    made, nothing is slept, and the [assert] fails. *)
Theorem post_without_attempts (w : World) :
  N ≤ 0 →
  HttpClient.post c url headers json w = (Raise (Exn AssertionError []), w).
Proof.
  intros HN. unfold HttpClient.post, bind.
  replace (Z.to_nat N) with 0%nat by lia. done.
Qed.

(** X3. An exception that the [except] clause does not catch, raised by
    the session or by [resp.json()] on a 2xx answer, leaves [post] as it
    is after that one request: no sleep, no retry, no wrapping. *)
Theorem post_uncaught_propagates (w : World) (e : exn) :
  1 ≤ N →
  HttpClient.caught e = false →
  (HttpClient.session c (length (posts w)) req = Throws e
   ∨ ∃ resp, HttpClient.session c (length (posts w)) req = Responds resp
             ∧ 200 ≤ status_code resp < 300 ∧ resp_json resp = Raise e) →
  HttpClient.post c url headers json w
  = (Raise e, {| posts := posts w ++ [req]; sleeps := sleeps w |}).
Proof.
  intros HN Hc Hs.
  assert (Hbody : HttpClient.try_body c url headers json w
                  = (Raise e, {| posts := posts w ++ [req]; sleeps := sleeps w |})).
  { unfold HttpClient.try_body, bind, session_post.
    fold (request_of c url headers json).
    destruct Hs as [Hs|(resp & Hs & Hr & Hj)]; rewrite Hs; [done|].
    replace ((status_code resp =? 429) || (status_code resp =? 408)) with false
      by (symmetry; apply orb_false_iff; split; apply Z.eqb_neq; lia).
    replace ((500 <=? status_code resp) && (status_code resp <? 600)) with false
      by (symmetry; apply andb_false_iff; left; apply Z.leb_gt; lia).
    replace ((status_code resp =? 401) || (status_code resp =? 403)) with false
      by (symmetry; apply orb_false_iff; split; apply Z.eqb_neq; lia).
    unfold lift, raise_for_status.
    replace ((400 <=? status_code resp) && (status_code resp <? 500)) with false
      by (symmetry; apply andb_false_iff; left; apply Z.leb_gt; lia).
    replace ((500 <=? status_code resp) && (status_code resp <? 600)) with false
      by (symmetry; apply andb_false_iff; left; apply Z.leb_gt; lia).
    by rewrite Hj. }
  unfold HttpClient.post, bind.
  destruct (Z.to_nat N) as [|n] eqn:En; [lia|].
  by rewrite post_loop_S, Hbody, Hc.
Qed.

(** The loop leaves with [last_err] set to an exception it caught, or as
    it was. *)
Lemma post_loop_last_err (n : nat) (attempt : Z) (delay : float)
    (last : option exn) (w : World) (e : exn) :
  fst (HttpClient.post_loop c url headers json n attempt delay last w)
  = Ok (HttpClient.Fell_through (Some e)) →
  last = Some e ∨ HttpClient.caught e = true.
Proof.
  revert attempt delay last w. induction n as [|n IH]; intros attempt delay last w.
  - cbn. intros [= ->]. by left.
  - rewrite post_loop_S.
    destruct (HttpClient.try_body c url headers json w) as [[v|e'] w1]; [done|].
    destruct (HttpClient.caught e') eqn:Hc; [|done].
    destruct (attempt =? HttpClient.max_retries c).
    + cbn [fst]. intros [= ->]. by right.
    + intros Hl. apply IH in Hl as [[= ->]|Hl]; by right.
Qed.

(** X4. No [requests] exception and no [LLMRateLimit] or [LLMAuthError]
    ever leaves [post]: an exception that leaves it is either of a class
    the [except] clause does not catch, or the plain [LLMError] of the last
    line, whose message names the URL and [max_retries] and ends with the
    text of a caught exception. *)
Theorem post_raises_uncaught_or_wrapped (w : World) (e : exn) :
  fst (HttpClient.post c url headers json w) = Raise e →
  HttpClient.caught e = false
  ∨ ∃ last, HttpClient.caught last = true
            ∧ e = Exn LLMError (str "POST " ++ url ++ str " failed after "
                               ++ py_str_int N ++ str " attempts: " ++ exn_msg last).
Proof.
  destruct (post_loop_effects c url headers json (Z.to_nat N) 1 1%float None w)
    as (k & ds & _ & _ & _ & Hr).
  pose proof (post_loop_last_err (Z.to_nat N) 1 1%float None w) as Hl.
  unfold HttpClient.post, bind.
  destruct (HttpClient.post_loop _ _ _ _ _ _ _ _ _) as [[[v|[e'|]]|e'] w1];
    cbn [fst] in *; unfold ret, raise; cbn [fst]; intros [= <-].
  - right. exists e'. split; [|done].
    by destruct (Hl e' eq_refl) as [?|?].
  - by left.
  - left. by apply Hr.
Qed.

(** X5. Answers that fail [j] times with a 5xx status and then succeed
    with a 2xx status and a body that parses, with [j < max_retries]:
    [post] returns the body after [j + 1] requests and [j] sleeps. *)
Theorem post_succeeds_after_failures (w : World) (j : nat) (body : JSON) :
  Z.of_nat j < N →
  (∀ i, (i < j)%nat →
        ∃ resp, HttpClient.session c (length (posts w) + i)%nat req = Responds resp
                ∧ 500 ≤ status_code resp < 600) →
  (∃ resp, HttpClient.session c (length (posts w) + j)%nat req = Responds resp
           ∧ 200 ≤ status_code resp < 300 ∧ resp_json resp = Ok body) →
  HttpClient.post c url headers json w
  = (Ok body, after w req (S j) (map backoff_delay (seq 0 j))).
Proof.
  intros Hj Hfail (resp & Hs & Hr & Hb).
  assert (Hloop : ∀ m i last w1,
             (i + m = j)%nat →
             length (posts w1) = (length (posts w) + i)%nat →
             ∀ n, (m < n)%nat → Z.of_nat i + Z.of_nat n ≤ N →
             HttpClient.post_loop c url headers json n (Z.of_nat i + 1)
               (backoff_delay i) last w1
             = (Ok (HttpClient.Returned body),
                after w1 req (S m) (map backoff_delay (seq i m)))).
  { induction m as [|m IH]; intros i last w1 Him Hlen n Hn HnN.
    - destruct n as [|n]; [lia|]. rewrite post_loop_S.
      assert (i = j) as -> by lia.
      rewrite <- Hlen in Hs.
      assert (Hbody : HttpClient.try_body c url headers json w1
                      = (Ok body, after w1 req 1 [])).
      { unfold HttpClient.try_body, bind, session_post.
        fold (request_of c url headers json). rewrite Hs.
        replace ((status_code resp =? 429) || (status_code resp =? 408)) with false
          by (symmetry; apply orb_false_iff; split; apply Z.eqb_neq; lia).
        replace ((500 <=? status_code resp) && (status_code resp <? 600)) with false
          by (symmetry; apply andb_false_iff; left; apply Z.leb_gt; lia).
        replace ((status_code resp =? 401) || (status_code resp =? 403)) with false
          by (symmetry; apply orb_false_iff; split; apply Z.eqb_neq; lia).
        unfold lift, raise_for_status.
        replace ((400 <=? status_code resp) && (status_code resp <? 500)) with false
          by (symmetry; apply andb_false_iff; left; apply Z.leb_gt; lia).
        replace ((500 <=? status_code resp) && (status_code resp <? 600)) with false
          by (symmetry; apply andb_false_iff; left; apply Z.leb_gt; lia).
        rewrite Hb. unfold after. cbn [repeat]. by rewrite app_nil_r. }
      by rewrite Hbody.
    - destruct n as [|n]; [lia|]. rewrite post_loop_S.
      destruct (Hfail i) as (r5 & Hs5 & Hr5); [lia|].
      rewrite <- Hlen in Hs5.
      rewrite (try_body_raise c url headers json w1 _
                 (try_body_5xx c url headers json w1 r5 Hs5 Hr5)).
      cbn [HttpClient.caught exn_cls is_RequestException is_LLMError orb].
      replace (Z.of_nat i + 1 =? HttpClient.max_retries c) with false
        by (symmetry; apply Z.eqb_neq; lia).
      rewrite next_delay_backoff.
      replace (Z.of_nat i + 1 + 1) with (Z.of_nat (S i) + 1) by lia.
      assert (Hw' : {| posts := posts (after w1 req 1 []);
                       sleeps := sleeps (after w1 req 1 []) ++ [backoff_delay i] |}
                    = after w1 req 1 [backoff_delay i]).
      { unfold after; cbn [posts sleeps]. by rewrite app_nil_r. }
      rewrite Hw'.
      rewrite (IH (S i) _ (after w1 req 1 [backoff_delay i])); [|lia| |lia|lia].
      + by rewrite after_step.
      + unfold after; cbn [posts repeat]. rewrite length_app. cbn [length]. lia. }
  unfold HttpClient.post, bind.
  rewrite (Hloop j 0%nat None w); [done|lia|lia|lia|lia].
Qed.

End TransportAnySession.

Section TransportStatuses.

Variable c : HttpClient.t.
Variable url : pystr.
Variable headers : option (list (pystr * pystr)).
Variable json : option JSON.

Local Abbreviation req := (request_of c url headers json).
Local Abbreviation N := (HttpClient.max_retries c).

(** A 4xx answer other than 401, 403, 408 and 429 reaches
    [raise_for_status], whose [HTTPError] the [except] clause catches. *)
Lemma try_body_client_error (w : World) (resp : Response) :
  HttpClient.session c (length (posts w)) req = Responds resp →
  400 ≤ status_code resp < 500 →
  status_code resp ∉ [401; 403; 408; 429] →
  ∃ e, fst (HttpClient.try_body c url headers json w) = Raise e
       ∧ exn_cls e = HTTPError.
Proof.
  intros Hs Hr Hn.
  rewrite !not_elem_of_cons in Hn. destruct Hn as (H1 & H3 & H8 & H29 & _).
  unfold HttpClient.try_body, bind, session_post. fold (request_of c url headers json).
  rewrite Hs.
  replace ((status_code resp =? 429) || (status_code resp =? 408)) with false
    by (symmetry; apply orb_false_iff; split; apply Z.eqb_neq; lia).
  replace ((500 <=? status_code resp) && (status_code resp <? 600)) with false
    by (symmetry; apply andb_false_iff; left; apply Z.leb_gt; lia).
  replace ((status_code resp =? 401) || (status_code resp =? 403)) with false
    by (symmetry; apply orb_false_iff; split; apply Z.eqb_neq; lia).
  unfold lift, raise_for_status.
  replace ((400 <=? status_code resp) && (status_code resp <? 500)) with true
    by (symmetry; apply andb_true_iff; split; [apply Z.leb_le|apply Z.ltb_lt]; lia).
  by eexists.
Qed.

(** X6. A 4xx answer other than 401, 403, 408 and 429 (400, 404, 422,
    ...) to every request is retried like a server error: [max_retries]
    requests, one sleep fewer, then the plain [LLMError] of the last line. *)
Theorem post_client_error_retried (w : World) :
  1 ≤ N →
  (∀ k r, ∃ resp, HttpClient.session c k r = Responds resp
                  ∧ 400 ≤ status_code resp < 500
                  ∧ status_code resp ∉ [401; 403; 408; 429]) →
  ∃ detail,
    HttpClient.post c url headers json w
    = (Raise (Exn LLMError
                (str "POST " ++ url ++ str " failed after " ++ py_str_int N
                 ++ str " attempts: " ++ detail)),
       after w req (Z.to_nat N) (map backoff_delay (seq 0 (Z.to_nat N - 1)))).
Proof.
  intros HN H4.
  destruct (post_all_caught c url headers json w HN) as (e & Hpost & _);
    [|by exists (exn_msg e)].
  intros w1. destruct (H4 (length (posts w1)) req) as (resp & Hs & Hr & Hn).
  destruct (try_body_client_error w1 resp Hs Hr Hn) as (e & He & Hc).
  exists e. split; [done|]. unfold HttpClient.caught. by rewrite Hc.
Qed.

End TransportStatuses.

(* ===================================================================== *)
(** ** Endpoints and the environment *)
(* ===================================================================== *)

Lemma drop_leading_repeat (ch : N) (k : nat) (s : pystr) :
  drop_leading ch (repeat ch k ++ s) = drop_leading ch s.
Proof.
  induction k as [|k IH]; [done|].
  cbn [repeat app drop_leading]. by rewrite N.eqb_refl.
Qed.

Lemma rev_repeat_same (ch : N) (k : nat) : rev (repeat ch k) = repeat ch k.
Proof.
  induction k as [|k IH]; [done|].
  cbn [repeat rev]. rewrite IH. clear IH.
  induction k as [|k IH]; [done|]. cbn [repeat app]. by rewrite IH.
Qed.

Lemma rstrip_char_trailing (ch : N) (s : pystr) (k : nat) :
  rstrip_char ch (s ++ repeat ch k) = rstrip_char ch s.
Proof.
  unfold rstrip_char. by rewrite rev_app_distr, rev_repeat_same, drop_leading_repeat.
Qed.

Lemma rstrip_char_fixed (ch : N) (s : pystr) :
  last s ≠ Some ch → rstrip_char ch s = s.
Proof.
  intros Hl. unfold rstrip_char.
  destruct (rev s) as [|c r] eqn:Hr.
  - apply (f_equal (@rev N)) in Hr. rewrite rev_involutive in Hr. by subst s.
  - assert (Hs : s = rev r ++ [c]).
    { apply (f_equal (@rev N)) in Hr. by rewrite rev_involutive in Hr. }
    cbn [drop_leading]. destruct (c =? ch)%N eqn:Hc.
    + apply N.eqb_eq in Hc. subst c. rewrite Hs, last_snoc in Hl. done.
    + by rewrite <- Hr, rev_involutive.
Qed.

(** X7. The endpoint URLs do not depend on trailing slashes of the base
    URL: for a base that does not end in a slash, followed by any number
    of slashes, each URL is the base followed by the provider's path. *)
Theorem endpoints_ignore_trailing_slashes (cfg : LLMConfig.t) (base : pystr) (k : nat) :
  last base ≠ Some 47%N →
  (LLMConfig.openai_base_url cfg = base ++ repeat 47%N k →
   LLMConfig.openai_url cfg = base ++ str "/v1/chat/completions")
  ∧ (LLMConfig.anthropic_api_url cfg = base ++ repeat 47%N k →
     LLMConfig.anthropic_url cfg = base ++ str "/v1/messages")
  ∧ (LLMConfig.ollama_base_url cfg = base ++ repeat 47%N k →
     LLMConfig.ollama_url cfg = base ++ str "/api/chat").
Proof.
  intros Hb.
  unfold LLMConfig.openai_url, LLMConfig.anthropic_url, LLMConfig.ollama_url.
  split_and!; intros ->; by rewrite rstrip_char_trailing, rstrip_char_fixed.
Qed.

Section FromEnvMore.

Context `{B : Builtins}.

(** X8. An unsupported provider stops everything at construction: for
    any environment whose provider, lower-cased, is not one of the three
    names, [LLMConfig.from_env] raises [ValueError] naming it, whatever the
    other variables hold, and [LLM.from_env] raises the same instead of
    building a client. *)
Theorem from_env_unsupported_provider (env : gmap string pystr) (net : Session) :
  py_lower (LLMConfig.getenv env "LLM_PROVIDER" DEFAULT_PROVIDER) ∉ provider_names →
  LLMConfig.from_env env
  = Raise (Exn ValueError
             (str "Unsupported provider: "
              ++ py_lower (LLMConfig.getenv env "LLM_PROVIDER" DEFAULT_PROVIDER)))
  ∧ LLM.from_env env net
    = Raise (Exn ValueError
               (str "Unsupported provider: "
                ++ py_lower (LLMConfig.getenv env "LLM_PROVIDER" DEFAULT_PROVIDER))).
Proof.
  intros Hp. unfold LLM.from_env. by rewrite (from_env_rejects env Hp).
Qed.

(** X9. [from_env] reads twelve variables and nothing else: setting or
    changing any other variable does not change its result. *)
Theorem from_env_reads_only_its_variables (env : gmap string pystr) (name : string)
    (value : pystr) :
  name ∉ env_names →
  LLMConfig.from_env (<[name := value]> env) = LLMConfig.from_env env.
Proof.
  intros Hn. unfold env_names in Hn. rewrite !not_elem_of_cons in Hn.
  destruct Hn as (H1 & H2 & H3 & H4 & H5 & H6 & H7 & H8 & H9 & H10 & H11 & H12 & _).
  unfold LLMConfig.from_env, LLMConfig.getenv.
  by rewrite !lookup_insert_ne by done.
Qed.

(** X10. An empty [LLM_MAX_TOKENS] counts as an absent one: [int] is not
    called on it and [max_tokens] is left unset. *)
Theorem from_env_empty_max_tokens (env : gmap string pystr) :
  LLMConfig.from_env (<["LLM_MAX_TOKENS"%string := []]> env)
  = LLMConfig.from_env (delete "LLM_MAX_TOKENS"%string env).
Proof.
  unfold LLMConfig.from_env, LLMConfig.getenv.
  rewrite lookup_insert_eq, lookup_delete_eq.
  by rewrite !lookup_insert_ne, !lookup_delete_ne by done.
Qed.

End FromEnvMore.

(* ===================================================================== *)
(** ** Adapters: more of the request and the response *)
(* ===================================================================== *)

Lemma first_system_none (messages : list ChatMessage) :
  first_system messages = None →
  without_first_system messages = messages
  ∧ Forall (λ m, role m ≠ str "system") messages.
Proof.
  induction messages as [|m rest IH]; [done|].
  cbn [first_system without_first_system].
  destruct (str_eqb (role m) (str "system")) eqn:Hm; [done|].
  intros Hn. destruct (IH Hn) as [-> Hall]. split; [done|].
  constructor; [|done]. intros Hr. apply str_eqb_eq in Hr. congruence.
Qed.

Lemma first_system_some (messages : list ChatMessage) (s : pystr) :
  first_system messages = Some s →
  ∃ before m rest,
    messages = before ++ m :: rest
    ∧ role m = str "system" ∧ content m = s
    ∧ Forall (λ m, role m ≠ str "system") before
    ∧ without_first_system messages = before ++ rest.
Proof.
  induction messages as [|m rest IH]; [done|].
  cbn [first_system without_first_system].
  destruct (str_eqb (role m) (str "system")) eqn:Hm.
  - intros [= <-]. apply str_eqb_eq in Hm. by exists [], m, rest.
  - intros Hs. destruct (IH Hs) as (before & m' & rest' & -> & Hr & Hc & Hb & ->).
    exists (m :: before), m', rest'. split_and!; try done.
    constructor; [|done]. intros Hr'. apply str_eqb_eq in Hr'. congruence.
Qed.

(** X11. [split_system_message] takes out one message at most. When no
    message has role "system" it returns [None] and the list as it is.
    Otherwise it returns the content of the first such message, and the
    messages before it followed by the messages after it; later
    system-role messages stay where they are. *)
Theorem split_system_message_decompose (messages : list ChatMessage) :
  match BaseAdapter.split_system_message messages with
  | (None, core) =>
      core = messages ∧ Forall (λ m, role m ≠ str "system") messages
  | (Some s, core) =>
      ∃ before m rest,
        messages = before ++ m :: rest
        ∧ role m = str "system" ∧ content m = s
        ∧ Forall (λ m, role m ≠ str "system") before
        ∧ core = before ++ rest
  end.
Proof.
  rewrite split_system_message_spec.
  destruct (first_system messages) as [s|] eqn:Hs.
  - by apply first_system_some.
  - by apply first_system_none.
Qed.

(** X12. Without an API key (absent or empty) the OpenAI and Anthropic
    adapters raise [LLMAuthError] naming the variable and make no request
    at all. *)
Theorem chat_without_key_makes_no_request (cfg : LLMConfig.t)
    (messages : list ChatMessage) (client : HttpClient.t) (w : World) :
  (LLMConfig.openai_api_key cfg = None ∨ LLMConfig.openai_api_key cfg = Some [] →
   OpenAIAdapter.chat cfg messages client w
   = (Raise (Exn LLMAuthError (str "Missing OPENAI_API_KEY")), w))
  ∧ (LLMConfig.anthropic_api_key cfg = None ∨ LLMConfig.anthropic_api_key cfg = Some [] →
     AnthropicAdapter.chat cfg messages client w
     = (Raise (Exn LLMAuthError (str "Missing ANTHROPIC_API_KEY")), w)).
Proof.
  split; intros [Hk|Hk].
  - unfold OpenAIAdapter.chat, BaseAdapter.require. by rewrite Hk.
  - unfold OpenAIAdapter.chat, BaseAdapter.require. by rewrite Hk.
  - unfold AnthropicAdapter.chat, BaseAdapter.require. by rewrite Hk.
  - unfold AnthropicAdapter.chat, BaseAdapter.require. by rewrite Hk.
Qed.

Section OpenAIOutcome.

Variable cfg : LLMConfig.t.
Variable messages : list ChatMessage.
Variable client : HttpClient.t.
Variable key : pystr.
Variable w w' : World.
Variable resp : JSON.

Hypothesis Hkey : LLMConfig.openai_api_key cfg = Some key.
Hypothesis Hne : key ≠ [].
Hypothesis Hpost :
  HttpClient.post client (LLMConfig.openai_url cfg)
    (Some (OpenAIAdapter.headers key))
    (Some (OpenAIAdapter.payload cfg messages)) w = (Ok resp, w').

(** [chat] once the transport has returned [resp]. *)
Lemma openai_chat_parse :
  OpenAIAdapter.chat cfg messages client w
  = (let* raw := lift (BaseAdapter.ensure_dict resp (str "openai")) in
     let* text := lift (reraise_as_LLMError [KeyError; IndexError; TypeError]
                          (str "OpenAI: unexpected response format: ")
                          (let? choices := getitem_key (JObj raw) (str "choices") in
                           let? first := getitem_0 choices in
                           let? message := getitem_key first (str "message") in
                           getitem_key message (str "content"))) in
     ret {| LLMResult.text := text;
            LLMResult.raw := JObj raw;
            LLMResult.provider := Provider_OPENAI;
            LLMResult.model := LLMConfig.model cfg;
            LLMResult.usage := default JNull (dict_get (str "usage") raw) |}) w'.
Proof using Hkey Hne Hpost.
  unfold OpenAIAdapter.chat, BaseAdapter.require. rewrite Hkey.
  destruct key as [|c s]; [done|].
  unfold bind at 1, lift at 1. unfold bind at 1. by rewrite Hpost.
Qed.

(** X13. Given the transport's response, the OpenAI adapter returns a
    result exactly when the response has the shape
    [{choices: [{message: {content: v}}, ...]}]; the result then has [v]
    as text, the response as [raw], provider "openai" and the configured
    model. For every other response it raises a plain [LLMError]: no
    [KeyError], [IndexError] or [TypeError] gets out. *)
Theorem openai_result_or_LLMError :
  (∃ v r, openai_shape resp v
          ∧ OpenAIAdapter.chat cfg messages client w = (Ok r, w')
          ∧ LLMResult.text r = v ∧ LLMResult.raw r = resp
          ∧ LLMResult.provider r = str "openai"
          ∧ LLMResult.model r = LLMConfig.model cfg)
  ∨ ((∀ v, ¬ openai_shape resp v)
     ∧ ∃ msg, OpenAIAdapter.chat cfg messages client w = (Raise (Exn LLMError msg), w')).
Proof using Hkey Hne Hpost.
  rewrite openai_chat_parse. unfold bind, lift, ret, openai_shape.
  destruct resp as [| | | | | |d];
    try (right; split; [by intros v (? & ? & ? & ? & ? & _)|
                        cbn [BaseAdapter.ensure_dict]; by eexists]).
  cbn [BaseAdapter.ensure_dict getitem_key].
  destruct (dict_get (str "choices") d) as [choices|] eqn:Hc.
  2:{ right. split; [|cbn; by eexists].
      intros v (? & ? & ? & ? & [= <-] & Hc' & _). congruence. }
  cbn [rbind].
  destruct choices as [| | | |s|[|first rest]|];
    try (right; split; [|cbn; by eexists];
         intros v (? & ? & ? & ? & [= <-] & Hc' & _); congruence).
  { right. split; [|destruct s; cbn; by eexists].
    intros v (? & ? & ? & ? & [= <-] & Hc' & _). congruence. }
  cbn [getitem_0 rbind].
  destruct first as [| | | | | |first];
    try (right; split; [|cbn; by eexists];
         intros v (? & ? & ? & ? & [= <-] & Hc' & _); congruence).
  cbn [getitem_key].
  destruct (dict_get (str "message") first) as [message|] eqn:Hm.
  2:{ right. split; [|cbn; by eexists].
      intros v (? & ? & ? & ? & [= <-] & Hc' & Hm' & _). congruence. }
  cbn [rbind].
  destruct message as [| | | | | |message];
    try (right; split; [|cbn; by eexists];
         intros v (? & ? & ? & ? & [= <-] & Hc' & Hm' & _); congruence).
  cbn [getitem_key].
  destruct (dict_get (str "content") message) as [v|] eqn:Hv.
  2:{ right. split; [|cbn; by eexists].
      intros v (? & ? & ? & ? & [= <-] & Hc' & Hm' & Hv'). congruence. }
  left. exists v. eexists. split; [by exists d, first, rest, message|].
  cbn [reraise_as_LLMError]. split_and!; reflexivity.
Qed.

End OpenAIOutcome.

Section AnthropicOutcome.

Variable cfg : LLMConfig.t.
Variable messages : list ChatMessage.
Variable client : HttpClient.t.
Variable key : pystr.
Variable w w' : World.
Variable resp : JSON.

Hypothesis Hkey : LLMConfig.anthropic_api_key cfg = Some key.
Hypothesis Hne : key ≠ [].
Hypothesis Hpost :
  HttpClient.post client (LLMConfig.anthropic_url cfg)
    (Some (AnthropicAdapter.headers cfg key))
    (Some (AnthropicAdapter.payload cfg messages)) w = (Ok resp, w').

(** X14. Given the transport's response, the Anthropic adapter either
    returns a result whose text is a string with no whitespace at either
    end, with the response as [raw], provider "anthropic" and the
    configured model, or raises a plain [LLMError]: no [KeyError] or
    [TypeError] gets out. *)
Theorem anthropic_result_or_LLMError :
  (∃ r s, AnthropicAdapter.chat cfg messages client w = (Ok r, w')
          ∧ LLMResult.text r = JStr s ∧ trimmed s
          ∧ LLMResult.raw r = resp
          ∧ LLMResult.provider r = str "anthropic"
          ∧ LLMResult.model r = LLMConfig.model cfg)
  ∨ ∃ msg, AnthropicAdapter.chat cfg messages client w = (Raise (Exn LLMError msg), w').
Proof using Hkey Hne Hpost.
  rewrite (anthropic_chat_parse cfg messages client key w w' resp Hkey Hne Hpost).
  unfold bind, lift, ret.
  destruct resp as [| | | | | |d]; try (right; cbn [BaseAdapter.ensure_dict]; by eexists).
  cbn [BaseAdapter.ensure_dict].
  destruct (reraise_as_LLMError _ _ _) as [text|e] eqn:Hr.
  - left. exists {| LLMResult.text := JStr text; LLMResult.raw := JObj d;
                    LLMResult.provider := Provider_ANTHROPIC;
                    LLMResult.model := LLMConfig.model cfg;
                    LLMResult.usage := default JNull (dict_get (str "usage") d) |}, text.
    split_and!; try done.
    unfold rbind in Hr. cbn [getitem_key] in Hr.
    destruct (dict_get (str "content") d) as [[| | | | |blocks|]|]; try done.
    destruct (AnthropicAdapter.join_items 0 (AnthropicAdapter.text_items blocks));
      [|cbn in Hr; by case_bool_decide].
    cbn in Hr. injection Hr as <-. apply strip_idem.
  - right. apply reraise_listed in Hr as [detail ->]; [by eexists|].
    intros e'. unfold rbind.
    destruct (getitem_key (JObj d) _) as [blocks|e1] eqn:H1.
    2:{ intros [= <-]. apply getitem_key_class in H1 as [-> | ->]; class_listed. }
    destruct blocks as [| | | | |blocks|]; try (intros [= <-]; cbn [exn_cls]; class_listed).
    destruct (AnthropicAdapter.join_items _ _) as [joined|e1] eqn:H2; [done|].
    intros [= <-]. apply join_items_class in H2. rewrite H2. class_listed.
Qed.

End AnthropicOutcome.

Section OllamaOutcome.

Variable cfg : LLMConfig.t.
Variable messages : list ChatMessage.
Variable client : HttpClient.t.
Variable w w' : World.
Variable resp : JSON.

Hypothesis Hpost :
  HttpClient.post client (LLMConfig.ollama_url cfg) None
    (Some (OllamaAdapter.payload cfg messages)) w = (Ok resp, w').

(** X15. Given the transport's response, the Ollama adapter either
    returns a result whose text is the empty string or a value that counts
    as true (never [None], [0], [False] or an empty container), with the
    response as [raw], provider "ollama", the configured model and a usage
    dict holding the response's [eval_count] (or [None]), or it raises a
    plain [LLMError]. *)
Theorem ollama_result_or_LLMError :
  (∃ r, OllamaAdapter.chat cfg messages client w = (Ok r, w')
        ∧ (LLMResult.text r = JStr [] ∨ truthy (LLMResult.text r) = true)
        ∧ LLMResult.raw r = resp
        ∧ LLMResult.provider r = str "ollama"
        ∧ LLMResult.model r = LLMConfig.model cfg
        ∧ ∃ d, resp = JObj d
               ∧ LLMResult.usage r
                 = JObj [(str "eval_count", default JNull (dict_get (str "eval_count") d))])
  ∨ ∃ msg, OllamaAdapter.chat cfg messages client w = (Raise (Exn LLMError msg), w').
Proof using Hpost.
  rewrite (ollama_chat_parse cfg messages client w w' resp Hpost).
  unfold bind, lift, ret.
  destruct resp as [| | | | | |d]; try (right; cbn [BaseAdapter.ensure_dict]; by eexists).
  cbn [BaseAdapter.ensure_dict].
  destruct (default (JObj []) (dict_get (str "message") d)) as [| | | | | |message];
    try (right; by eexists).
  left. eexists. split; [reflexivity|]. cbn [LLMResult.text LLMResult.raw
    LLMResult.provider LLMResult.model LLMResult.usage].
  split_and!; try done; [|by exists d].
  set (v := default (JStr []) (dict_get (str "content") message)).
  destruct (truthy v) eqn:Ht; [by right|by left].
Qed.

End OllamaOutcome.

(* ===================================================================== *)
(** ** Facade: dispatch, requests, budgets *)
(* ===================================================================== *)

(** X16. A client built on a configuration whose provider is none of the
    three names (one not made by [from_env]) fails every [chat] with the
    "Unsupported provider" [LLMError], before any request. *)
Theorem chat_unsupported_provider (cfg : LLMConfig.t) (net : Session)
    (messages : list ChatMessage) (w : World) :
  LLMConfig.provider cfg ∉ provider_names →
  LLM.chat (LLM.init cfg net) messages w
  = (Raise (Exn LLMError (str "Unsupported provider: " ++ LLMConfig.provider cfg)), w).
Proof.
  intros Hp. unfold provider_names in Hp. rewrite !not_elem_of_cons in Hp.
  destruct Hp as (H1 & H2 & H3 & _).
  unfold LLM.chat. change (LLM.cfg (LLM.init cfg net)) with cfg.
  rewrite adapters_lookup. by repeat case_decide.
Qed.

Lemma adapter_chat_world (a : LLM.Adapter) (cfg : LLMConfig.t)
    (messages : list ChatMessage) (client : HttpClient.t) (w : World) :
  snd (LLM.adapter_chat a cfg messages client w) = w
  ∨ ∃ hs body,
      snd (LLM.adapter_chat a cfg messages client w)
      = snd (HttpClient.post client (endpoint cfg a) hs body w).
Proof.
  destruct a; cbn [LLM.adapter_chat endpoint].
  - unfold OpenAIAdapter.chat, bind, lift, ret.
    destruct (BaseAdapter.require _ _) as [key|e]; [|by left].
    right. exists (Some (OpenAIAdapter.headers key)),
             (Some (OpenAIAdapter.payload cfg messages)).
    destruct (HttpClient.post _ _ _ _ _) as [[resp|e] w1]; [|done]. cbn [snd].
    destruct (BaseAdapter.ensure_dict _ _); [|done].
    by destruct (reraise_as_LLMError _ _ _).
  - unfold AnthropicAdapter.chat, bind, lift, ret.
    destruct (BaseAdapter.require _ _) as [key|e]; [|by left].
    right. exists (Some (AnthropicAdapter.headers cfg key)),
             (Some (AnthropicAdapter.payload cfg messages)).
    destruct (HttpClient.post _ _ _ _ _) as [[resp|e] w1]; [|done]. cbn [snd].
    destruct (BaseAdapter.ensure_dict _ _); [|done].
    by destruct (reraise_as_LLMError _ _ _).
  - unfold OllamaAdapter.chat, bind, lift, ret.
    right. exists None, (Some (OllamaAdapter.payload cfg messages)).
    destruct (HttpClient.post _ _ _ _ _) as [[resp|e] w1]; [|done]. cbn [snd].
    destruct (BaseAdapter.ensure_dict _ _) as [raw|]; [|done].
    by destruct (default (JObj []) (dict_get (str "message") raw)).
Qed.

(** X17. One [chat] call of a client sends one and the same request [k]
    times, with [k] at most [max_retries], always to the endpoint of the
    configured provider and with the configured timeout, and sleeps
    [k - 1] times (never when no request is sent), for 1, 2, 4, 8, 8, ...
    seconds. *)
Theorem chat_requests (cfg : LLMConfig.t) (net : Session) (a : LLM.Adapter)
    (messages : list ChatMessage) (w : World) :
  LLM._adapters (LLM.init cfg net) !! LLMConfig.provider cfg = Some a →
  ∃ request k,
    snd (LLM.chat (LLM.init cfg net) messages w)
    = after w request k (map backoff_delay (seq 0 (k - 1)))
    ∧ (k ≤ Z.to_nat (LLMConfig.max_retries cfg))%nat
    ∧ req_url request = endpoint cfg a
    ∧ req_timeout request = LLMConfig.timeout_s cfg.
Proof.
  intros Ha. unfold LLM.chat. change (LLM.cfg (LLM.init cfg net)) with cfg.
  rewrite Ha.
  set (client := LLM._client (LLM.init cfg net)).
  destruct (adapter_chat_world a cfg messages client w) as [Hw|(hs & body & Hw)];
    rewrite Hw.
  - exists (request_of client (endpoint cfg a) None None), 0%nat.
    unfold after. cbn [repeat seq map Nat.sub]. rewrite !app_nil_r.
    split_and!; [by destruct w|lia|done|done].
  - destruct (post_trace client (endpoint cfg a) hs body w) as (k & Hk & _ & Hs).
    exists (request_of client (endpoint cfg a) hs body), k. by split_and!.
Qed.

(** X18. The convenience operations look at a bounded prefix of their
    text only: [extract_tags] at the first 1000 characters, [summarize]
    and [analyze_sentiment] at the first 2000. Texts that agree on that
    prefix give the same requests and the same result. *)
Theorem convenience_operations_use_prefix `{B : Builtins} (self : LLM.t)
    (text text' style : pystr) (max_tags : Z) :
  (take 1000 text = take 1000 text' →
   LLM.extract_tags self text max_tags = LLM.extract_tags self text' max_tags)
  ∧ (take 2000 text = take 2000 text' →
     LLM.summarize self text style = LLM.summarize self text' style
     ∧ LLM.analyze_sentiment self text = LLM.analyze_sentiment self text').
Proof.
  split.
  - intros Ht. unfold LLM.extract_tags, LLM.tags_messages, prefix_chars,
      MAX_CONTENT_LENGTH_FOR_TAGS. by rewrite Ht.
  - intros Ht. unfold LLM.summarize, LLM.analyze_sentiment, prefix_chars,
      MAX_CONTENT_LENGTH_FOR_AI. by rewrite Ht.
Qed.

Lemma lstrip_all_space (s : pystr) : forallb is_space s = true → lstrip s = [].
Proof.
  induction s as [|c s IH]; [done|].
  cbn [forallb lstrip]. intros [Hc Hs]%andb_true_iff. rewrite Hc. by apply IH.
Qed.

Lemma split_lines_all_space (s : pystr) :
  forallb is_space s = true →
  Forall (λ l, forallb is_space l = true) (split_lines s).
Proof.
  induction s as [|c s IH]; [by repeat constructor|].
  cbn [forallb split_lines]. intros [Hc Hs]%andb_true_iff. specialize (IH Hs).
  destruct (c =? 10)%N; [by constructor|].
  destruct (split_lines s) as [|piece rest].
  - repeat constructor. cbn [forallb]. by rewrite Hc.
  - inversion IH as [|? ? Hp Hrest]; subst. constructor; [|done].
    cbn [forallb]. by rewrite Hc, Hp.
Qed.

Lemma stripped_nonempty_all_space (lines : list pystr) :
  Forall (λ l, forallb is_space l = true) lines → LLM.stripped_nonempty lines = [].
Proof.
  induction 1 as [|l lines Hl _ IH]; [done|].
  cbn [LLM.stripped_nonempty]. unfold strip. rewrite (lstrip_all_space l Hl). done.
Qed.

(** X19. When the model answers with nothing but whitespace (or with
    nothing), [extract_tags] returns the empty list and raises nothing. *)
Theorem extract_tags_blank_response (self : LLM.t) (text s : pystr) (max_tags : Z)
    (r : LLMResult.t) (w w' : World) :
  LLM.chat self (LLM.tags_messages text max_tags) w = (Ok r, w') →
  LLMResult.text r = JStr s →
  forallb is_space s = true →
  LLM.extract_tags self text max_tags w = (Ok [], w').
Proof.
  intros Hchat Htext Hs. unfold LLM.extract_tags, bind. rewrite Hchat, Htext.
  cbn [lift LLM.text_str]. unfold ret.
  rewrite (stripped_nonempty_all_space _ (split_lines_all_space s Hs)).
  unfold slice_to. destruct (max_tags <? 0); by rewrite take_nil.
Qed.

(* ===================================================================== *)
(** ** The document processor's use of the client *)
(* ===================================================================== *)

Section ConsolidateTags.

Context `{B : Builtins}.

Lemma add_new_extends (tags all_tags : list pystr) :
  ∃ extra, DocumentProcessor.add_new tags all_tags = all_tags ++ extra
           ∧ ∀ t, t ∈ extra → t ∈ tags.
Proof.
  revert all_tags. induction tags as [|tag rest IH]; intros all_tags.
  - exists []. by rewrite app_nil_r.
  - cbn [DocumentProcessor.add_new].
    destruct (DocumentProcessor.lower_in tag all_tags).
    + destruct (IH all_tags) as (extra & -> & Hin). exists extra. split; [done|].
      intros t Ht. right. by apply Hin.
    + destruct (IH (all_tags ++ [tag])) as (extra & -> & Hin).
      exists (tag :: extra). split; [by rewrite <- app_assoc|].
      intros t [->|Ht]%elem_of_cons; [left|right; by apply Hin].
Qed.

(** What the clean-up loop keeps true of [cleaned_tags]. *)
Lemma clean_loop_invariant (all_tags cleaned : list pystr) :
  NoDup cleaned →
  Forall (λ t, t ≠ []) cleaned →
  ∃ added,
    DocumentProcessor.clean_loop all_tags cleaned = cleaned ++ added
    ∧ NoDup (cleaned ++ added)
    ∧ Forall (λ t, t ≠ []) (cleaned ++ added)
    ∧ ∀ t, t ∈ added → ∃ tag, tag ∈ all_tags ∧ t = clean_tag tag.
Proof.
  revert cleaned. induction all_tags as [|tag rest IH]; intros cleaned Hnd Hne.
  - exists []. rewrite app_nil_r. split_and!; try done. intros t Ht. by apply elem_of_nil in Ht.
  - cbn [DocumentProcessor.clean_loop]. fold (clean_tag tag).
    destruct (nonempty (clean_tag tag)) eqn:Hn; cbn [andb].
    2:{ destruct (IH cleaned Hnd Hne) as (added & -> & H1 & H2 & H3).
        exists added. split_and!; try done.
        intros t Ht. destruct (H3 t Ht) as (tag' & Hin & ->). exists tag'. split; [by right|done]. }
    case_bool_decide as Hin; cbn [negb].
    { destruct (IH cleaned Hnd Hne) as (added & -> & H1 & H2 & H3).
      exists added. split_and!; try done.
      intros t Ht. destruct (H3 t Ht) as (tag' & Hin' & ->). exists tag'. split; [by right|done]. }
    destruct (IH (cleaned ++ [clean_tag tag])) as (added & -> & H1 & H2 & H3).
    { apply NoDup_app. split_and!; [done| |apply NoDup_singleton].
      intros x Hx ->%list_elem_of_singleton. done. }
    { apply Forall_app. split; [done|]. constructor; [|done].
      intros Hnil. by rewrite Hnil in Hn. }
    exists (clean_tag tag :: added). rewrite <- app_assoc in *. cbn [app] in *.
    split_and!; try done.
    intros t [->|Ht]%elem_of_cons.
    + exists tag. split; [by left|done].
    + destruct (H3 t Ht) as (tag' & Hin' & ->). exists tag'. split; [by right|done].
Qed.

Lemma clean_loop_app (l1 l2 cleaned : list pystr) :
  DocumentProcessor.clean_loop (l1 ++ l2) cleaned
  = DocumentProcessor.clean_loop l2 (DocumentProcessor.clean_loop l1 cleaned).
Proof.
  revert cleaned. induction l1 as [|tag rest IH]; intros cleaned; [done|].
  cbn [app DocumentProcessor.clean_loop].
  by destruct (nonempty _ && negb _).
Qed.

(** X20. [_consolidate_tags] returns at most ten tags, all different,
    none empty, each the trimmed and lower-cased form of one of the tags it
    was given; and the manual tags have priority: their cleaned forms, in
    order, are the start of the result. *)
Theorem consolidate_tags_invariants (manual suggested ai : list pystr) :
  (length (DocumentProcessor._consolidate_tags manual suggested ai) ≤ 10)%nat
  ∧ NoDup (DocumentProcessor._consolidate_tags manual suggested ai)
  ∧ Forall (λ t, t ≠ []) (DocumentProcessor._consolidate_tags manual suggested ai)
  ∧ (∀ t, t ∈ DocumentProcessor._consolidate_tags manual suggested ai →
          ∃ tag, tag ∈ manual ++ suggested ++ ai ∧ t = clean_tag tag)
  ∧ take 10 (DocumentProcessor.clean_loop manual [])
    `prefix_of` DocumentProcessor._consolidate_tags manual suggested ai.
Proof.
  unfold DocumentProcessor._consolidate_tags.
  destruct (add_new_extends suggested manual) as (e1 & -> & He1).
  destruct (add_new_extends ai (manual ++ e1)) as (e2 & -> & He2).
  destruct (clean_loop_invariant ((manual ++ e1) ++ e2) [])
    as (added & Hloop & Hnd & Hne & Hin); [constructor|constructor|].
  cbn [app] in *. rewrite Hloop. split_and!.
  - rewrite length_take. lia.
  - eapply sublist_NoDup; [done|apply sublist_take].
  - by apply Forall_take.
  - intros t Ht. apply subseteq_take in Ht. destruct (Hin t Ht) as (tag & Htag & ->).
    exists tag. split; [|done].
    rewrite !elem_of_app in Htag. rewrite !elem_of_app.
    destruct Htag as [[?|?]|?]; auto.
  - rewrite <- Hloop, <- app_assoc, clean_loop_app.
    destruct (clean_loop_invariant (e1 ++ e2) (DocumentProcessor.clean_loop manual []))
      as (more & -> & _).
    + destruct (clean_loop_invariant manual []) as (a & -> & Ha & _);
        [constructor|constructor|done].
    + destruct (clean_loop_invariant manual []) as (a & -> & _ & Ha & _);
        [constructor|constructor|done].
    + rewrite take_app. by eexists.
Qed.

End ConsolidateTags.

Lemma key_points_loop_invariant (lines points : list pystr) :
  Forall (λ p, (10 < length p)%nat ∧ trimmed p) points →
  Forall (λ p, (10 < length p)%nat ∧ trimmed p)
    (DocumentProcessor.key_points_loop lines points).
Proof.
  revert points. induction lines as [|line rest IH]; intros points Hp; [done|].
  cbn [DocumentProcessor.key_points_loop].
  destruct (startswith _ _ || startswith _ _ || startswith _ _); [|by apply IH].
  destruct (nonempty _ && (10 <? length _)%nat) eqn:Hc; [|by apply IH].
  apply IH, Forall_app. split; [done|]. constructor; [|done].
  apply andb_true_iff in Hc as [_ Hlen]. apply Nat.ltb_lt in Hlen.
  split; [done|]. apply strip_idem.
Qed.

(** X21. [_extract_key_points] returns at most seven points, each longer
    than ten characters and with no whitespace at either end; without a
    client it returns the empty list and makes no request. *)
Theorem extract_key_points_shape (self : DocumentProcessor.t) (content : pystr)
    (w : World) :
  (∀ points w',
      DocumentProcessor._extract_key_points self content w = (Ok points, w') →
      (length points ≤ 7)%nat
      ∧ Forall (λ p, (10 < length p)%nat ∧ trimmed p) points)
  ∧ (DocumentProcessor._llm self = None →
     DocumentProcessor._extract_key_points self content w = (Ok [], w)).
Proof.
  unfold DocumentProcessor._extract_key_points. split.
  - intros points w'. destruct (DocumentProcessor._llm self) as [llm|].
    2:{ intros [= <- _]. split; [cbn; lia|constructor]. }
    unfold bind, lift, ret.
    destruct (LLM.chat _ _ _) as [[r|e] w1]; [|done].
    destruct (LLM.text_str _ _) as [s|e]; [|done].
    intros [= <- _]. split.
    + rewrite length_take. lia.
    + apply Forall_take, key_points_loop_invariant. constructor.
  - by intros ->.
Qed.

Section RunAiAnalysis.

Context `{B : Builtins}.

Lemma unless_LLMError_raises {A} (call : M A) (w : World) (e : exn) :
  fst (DocumentProcessor.unless_LLMError call w) = Raise e →
  is_LLMError (exn_cls e) = false.
Proof.
  unfold DocumentProcessor.unless_LLMError.
  destruct (call w) as [[a|e'] w1]; [done|].
  destruct (is_LLMError (exn_cls e')) eqn:He; [done|]. by intros [= <-].
Qed.

Lemma unless_LLMError_caught {A} (call : M A) (w : World) (e : exn) :
  fst (call w) = Raise e → is_LLMError (exn_cls e) = true →
  DocumentProcessor.unless_LLMError call w = (Ok None, snd (call w)).
Proof.
  unfold DocumentProcessor.unless_LLMError.
  destruct (call w) as [[a|e'] w1]; [done|]. cbn [fst snd].
  intros [= ->] ->. done.
Qed.

(** X22. [_run_ai_analysis] never lets an [LLMError] (or [LLMRateLimit],
    [LLMAuthError]) out: every call to the client is guarded. And when
    every [chat] of the client fails with such an error, it returns the
    empty dict. *)
Theorem run_ai_analysis_guards_LLMError (self : DocumentProcessor.t)
    (content summary_style : pystr) (suggested_tags : list pystr) (w : World) :
  (∀ e, fst (DocumentProcessor._run_ai_analysis self content summary_style
               suggested_tags w) = Raise e →
        is_LLMError (exn_cls e) = false)
  ∧ (∀ llm, DocumentProcessor._llm self = Some llm →
            (∀ messages w1, ∃ e, fst (LLM.chat llm messages w1) = Raise e
                                 ∧ is_LLMError (exn_cls e) = true) →
            fst (DocumentProcessor._run_ai_analysis self content summary_style
                   suggested_tags w) = Ok ∅).
Proof.
  unfold DocumentProcessor._run_ai_analysis. split.
  - intros e. destruct (DocumentProcessor._llm self) as [llm|]; [|done].
    unfold bind.
    destruct (50 <? length (split_ws content))%nat.
    + destruct (DocumentProcessor.unless_LLMError (LLM.summarize _ _ _) w)
        as [[o1|e1] w1] eqn:H1.
      2:{ intros [= <-]. eapply unless_LLMError_raises. by rewrite H1. }
      destruct (DocumentProcessor.unless_LLMError (LLM.extract_tags _ _ _) w1)
        as [[o2|e2] w2] eqn:H2.
      2:{ intros [= <-]. eapply unless_LLMError_raises. by rewrite H2. }
      destruct (DocumentProcessor.unless_LLMError (LLM.analyze_sentiment _ _) w2)
        as [[o3|e3] w3] eqn:H3.
      2:{ intros [= <-]. eapply unless_LLMError_raises. by rewrite H3. }
      destruct (DocumentProcessor.unless_LLMError
                  (DocumentProcessor._extract_key_points _ _) w3)
        as [[o4|e4] w4] eqn:H4; [done|].
      intros [= <-]. eapply unless_LLMError_raises. by rewrite H4.
    + unfold ret at 1.
      destruct (DocumentProcessor.unless_LLMError (LLM.extract_tags _ _ _) w)
        as [[o2|e2] w2] eqn:H2.
      2:{ intros [= <-]. eapply unless_LLMError_raises. by rewrite H2. }
      destruct (DocumentProcessor.unless_LLMError (LLM.analyze_sentiment _ _) w2)
        as [[o3|e3] w3] eqn:H3.
      2:{ intros [= <-]. eapply unless_LLMError_raises. by rewrite H3. }
      destruct (DocumentProcessor.unless_LLMError
                  (DocumentProcessor._extract_key_points _ _) w3)
        as [[o4|e4] w4] eqn:H4; [done|].
      intros [= <-]. eapply unless_LLMError_raises. by rewrite H4.
  - intros llm Hllm Hfail. rewrite Hllm.
    assert (Hsum : ∀ w1, DocumentProcessor.unless_LLMError
                           (LLM.summarize llm content summary_style) w1
                         = (Ok None, snd (LLM.summarize llm content summary_style w1))).
    { intros w1.
      assert (∃ e, fst (LLM.summarize llm content summary_style w1) = Raise e
                   ∧ is_LLMError (exn_cls e) = true) as (e & He & Hc).
      { unfold LLM.summarize, bind.
        match goal with
        | |- context [LLM.chat llm ?m w1] => destruct (Hfail m w1) as (e & He & Hc)
        end.
        exists e. split; [|done].
        destruct (LLM.chat llm _ w1) as [[r|e'] w2]; cbn [fst] in *; congruence. }
      by eapply unless_LLMError_caught. }
    assert (Htags : ∀ w1, DocumentProcessor.unless_LLMError
                            (LLM.extract_tags llm content 7) w1
                          = (Ok None, snd (LLM.extract_tags llm content 7 w1))).
    { intros w1. destruct (Hfail (LLM.tags_messages content 7) w1) as (e & He & Hc).
      eapply unless_LLMError_caught; [|exact Hc].
      unfold LLM.extract_tags, bind.
      destruct (LLM.chat llm _ w1) as [[r|e'] w2]; cbn [fst] in *; congruence. }
    assert (Hsent : ∀ w1, DocumentProcessor.unless_LLMError
                            (LLM.analyze_sentiment llm content) w1
                          = (Ok None, snd (LLM.analyze_sentiment llm content w1))).
    { intros w1.
      assert (∃ e, fst (LLM.analyze_sentiment llm content w1) = Raise e
                   ∧ is_LLMError (exn_cls e) = true) as (e & He & Hc).
      { unfold LLM.analyze_sentiment, bind.
        match goal with
        | |- context [LLM.chat llm ?m w1] => destruct (Hfail m w1) as (e & He & Hc)
        end.
        exists e. split; [|done].
        destruct (LLM.chat llm _ w1) as [[r|e'] w2]; cbn [fst] in *; congruence. }
      by eapply unless_LLMError_caught. }
    assert (Hkey : ∀ w1, DocumentProcessor.unless_LLMError
                           (DocumentProcessor._extract_key_points self content) w1
                         = (Ok None,
                            snd (DocumentProcessor._extract_key_points self content w1))).
    { intros w1.
      destruct (Hfail (DocumentProcessor.key_points_messages content) w1)
        as (e & He & Hc).
      eapply unless_LLMError_caught; [|exact Hc].
      unfold DocumentProcessor._extract_key_points, bind. rewrite Hllm.
      destruct (LLM.chat llm _ w1) as [[r|e'] w2]; cbn [fst] in *; congruence. }
    unfold bind.
    destruct (50 <? length (split_ws content))%nat.
    + rewrite Hsum, Htags, Hsent, Hkey. done.
    + unfold ret at 1. rewrite Htags, Hsent, Hkey. done.
Qed.

(** X23. A processor built with AI requested, no configuration given and
    an environment naming an unsupported provider comes up with AI off and
    without a client; its analysis then returns the empty dict and its key
    points the empty list, and neither makes a request. *)
Theorem processor_degrades_on_bad_environment (env : gmap string pystr)
    (net : Session) (content summary_style : pystr) (suggested_tags : list pystr)
    (w : World) :
  py_lower (LLMConfig.getenv env "LLM_PROVIDER" DEFAULT_PROVIDER) ∉ provider_names →
  DocumentProcessor.enable_ai (DocumentProcessor.init None true env net) = false
  ∧ DocumentProcessor._llm (DocumentProcessor.init None true env net) = None
  ∧ DocumentProcessor._run_ai_analysis (DocumentProcessor.init None true env net)
      content summary_style suggested_tags w = (Ok ∅, w)
  ∧ DocumentProcessor._extract_key_points (DocumentProcessor.init None true env net)
      content w = (Ok [], w).
Proof.
  intros Hp. unfold DocumentProcessor.init. rewrite (from_env_rejects env Hp).
  by split_and!.
Qed.

End RunAiAnalysis.

(* ===================================================================== *)
(** ** Content normalisation *)
(* ===================================================================== *)

Section Normalize.

Variable P : N → Prop.

Lemma squeeze_newlines_Forall (run : nat) (s : pystr) :
  Forall P s → Forall P (squeeze_newlines run s).
Proof.
  intros Hs. revert run. induction Hs as [|c s Hc _ IH]; intros run; [done|].
  cbn [squeeze_newlines]. destruct (c =? 10)%N eqn:H10.
  - apply N.eqb_eq in H10. subst c. destruct (run <? 2)%nat; [constructor|]; done.
  - by constructor.
Qed.

Lemma split_lines_Forall (s : pystr) :
  Forall P s → Forall (Forall P) (split_lines s).
Proof.
  induction 1 as [|c s Hc _ IH]; [by repeat constructor|].
  cbn [split_lines]. destruct (c =? 10)%N; [by constructor|].
  destruct (split_lines s) as [|piece rest]; [by repeat constructor|].
  inversion IH; subst. by repeat constructor.
Qed.

Lemma lstrip_Forall (s : pystr) : Forall P s → Forall P (lstrip s).
Proof.
  induction 1 as [|c s Hc Hs IH]; [done|].
  cbn [lstrip]. destruct (is_space c); [done|by constructor].
Qed.

Lemma rstrip_Forall (s : pystr) : Forall P s → Forall P (rstrip s).
Proof.
  intros Hs. unfold rstrip. apply Forall_forall. intros x Hx.
  apply list_elem_of_In, in_rev, list_elem_of_In in Hx.
  assert (Hrev : Forall P (rev s)).
  { apply Forall_forall. intros y Hy.
    apply list_elem_of_In, in_rev, list_elem_of_In in Hy.
    by eapply Forall_forall in Hs. }
  apply lstrip_Forall in Hrev. by eapply Forall_forall in Hrev.
Qed.

Lemma strip_Forall (s : pystr) : Forall P s → Forall P (strip s).
Proof. intros Hs. by apply rstrip_Forall, lstrip_Forall. Qed.

Lemma join_lines_Forall (lines : list pystr) :
  P 10%N → Forall (Forall P) lines → Forall P (join_lines lines).
Proof.
  intros H10. induction 1 as [|l lines Hl Hrest IH]; [done|].
  cbn [join_lines]. destruct lines as [|l' lines]; [done|].
  apply Forall_app. split; [done|]. by constructor.
Qed.

End Normalize.

Lemma replace_cr_no_cr (s : pystr) : Forall (λ c, c ≠ 13%N) (replace_cr s).
Proof.
  induction s as [|c s IH]; [constructor|].
  cbn [replace_cr map]. constructor; [|done].
  destruct (c =? 13)%N eqn:Hc; [done|]. by apply N.eqb_neq.
Qed.

Lemma expandtabs_no_tab (col : nat) (s : pystr) :
  Forall (λ c, c ≠ 13%N) s →
  Forall (λ c, c ≠ 13%N ∧ c ≠ 9%N) (expandtabs_from col s).
Proof.
  intros Hs. revert col. induction Hs as [|c s Hc _ IH]; intros col; [constructor|].
  cbn [expandtabs_from]. destruct (c =? 9)%N eqn:H9.
  - apply Forall_app. split; [|done].
    apply Forall_forall. intros x Hx%list_elem_of_In%repeat_spec. by subst x.
  - apply N.eqb_neq in H9.
    destruct ((c =? 10)%N || (c =? 13)%N); by constructor.
Qed.

(** X24. The normalised content has no carriage return and no tab, and
    no whitespace at either end; empty content stays empty. *)
Theorem normalize_content_clean (content : pystr) :
  Forall (λ c, c ≠ 13%N ∧ c ≠ 9%N) (DocumentProcessor._normalize_content content)
  ∧ trimmed (DocumentProcessor._normalize_content content)
  ∧ DocumentProcessor._normalize_content [] = [].
Proof.
  split_and!; [| |done].
  - destruct content as [|c content]; [constructor|].
    unfold DocumentProcessor._normalize_content.
    apply strip_Forall, join_lines_Forall; [done|].
    pose proof (replace_cr_no_cr (replace_crlf (c :: content))) as Hcr.
    apply (squeeze_newlines_Forall _ 0), split_lines_Forall in Hcr.
    apply Forall_forall. intros l [line [-> Hline]]%list_elem_of_fmap.
    apply rstrip_Forall, expandtabs_no_tab.
    by eapply Forall_forall in Hcr.
  - destruct content as [|c content]; [done|].
    unfold DocumentProcessor._normalize_content, trimmed. apply strip_idem.
Qed.

(* ===================================================================== *)
(** ** Token limits, provider names, result labels *)
(* ===================================================================== *)

(** X25. How the configured [max_tokens] reaches each provider. OpenAI
    gets a [max_tokens] field and Ollama an [options.num_predict] field
    exactly when a value is configured, and then that value, 0 included.
    Anthropic always gets a [max_tokens] field, never 0: the configured
    value, or 1024 when none or 0 is configured. *)
Theorem max_tokens_per_provider (cfg : LLMConfig.t) (messages : list ChatMessage) :
  (∃ fields, OpenAIAdapter.payload cfg messages = JObj fields
             ∧ dict_get (str "max_tokens") fields
               = option_map JInt (LLMConfig.max_tokens cfg))
  ∧ (∃ fields options,
        OllamaAdapter.payload cfg messages = JObj fields
        ∧ dict_get (str "options") fields = Some (JObj options)
        ∧ dict_get (str "num_predict") options
          = option_map JInt (LLMConfig.max_tokens cfg))
  ∧ (∃ fields n,
        AnthropicAdapter.payload cfg messages = JObj fields
        ∧ dict_get (str "max_tokens") fields = Some (JInt n)
        ∧ n ≠ 0
        ∧ n = match LLMConfig.max_tokens cfg with
              | Some m => if decide (m = 0) then 1024 else m
              | None => 1024
              end).
Proof.
  split_and!.
  - unfold OpenAIAdapter.payload. eexists. split; [reflexivity|].
    destruct (LLMConfig.max_tokens cfg); cbn [app dict_get option_map];
      literal_keys; done.
  - unfold OllamaAdapter.payload. eexists _, _. split; [reflexivity|].
    split; [cbn [dict_get]; literal_keys; reflexivity|].
    destruct (LLMConfig.max_tokens cfg); cbn [app dict_get option_map];
      literal_keys; done.
  - unfold AnthropicAdapter.payload.
    destruct (BaseAdapter.split_system_message messages) as [system core].
    eexists _, _. split; [reflexivity|].
    split.
    { destruct system as [[|c s]|]; try rewrite dict_get_app;
        cbn [dict_get]; literal_keys; reflexivity. }
    destruct (LLMConfig.max_tokens cfg) as [m|]; [|done].
    case_decide as Hm.
    + subst m. done.
    + rewrite (proj2 (Z.eqb_neq m 0) Hm). done.
Qed.

(** X26. The provider name is read without regard to case: where
    [lower] gives the same on a name and on its lower-cased form, the two
    environments give the same result. *)
Theorem from_env_provider_case `{B : Builtins} (env : gmap string pystr) (p : pystr) :
  py_lower (py_lower p) = py_lower p →
  LLMConfig.from_env (<["LLM_PROVIDER"%string := p]> env)
  = LLMConfig.from_env (<["LLM_PROVIDER"%string := py_lower p]> env).
Proof.
  intros Hidem. unfold LLMConfig.from_env, LLMConfig.getenv.
  rewrite !lookup_insert_eq. cbn [default from_option id]. rewrite Hidem.
  by rewrite !lookup_insert_ne by done.
Qed.

Lemma adapter_result_labels (a : LLM.Adapter) (cfg : LLMConfig.t)
    (messages : list ChatMessage) (client : HttpClient.t) (w w' : World)
    (r : LLMResult.t) :
  LLM.adapter_chat a cfg messages client w = (Ok r, w') →
  LLMResult.provider r = match a with
                         | LLM.OpenAI => str "openai"
                         | LLM.Anthropic => str "anthropic"
                         | LLM.Ollama => str "ollama"
                         end
  ∧ LLMResult.model r = LLMConfig.model cfg
  ∧ ∃ d, LLMResult.raw r = JObj d.
Proof.
  destruct a; cbn [LLM.adapter_chat].
  - unfold OpenAIAdapter.chat, bind, lift, ret.
    destruct (BaseAdapter.require _ _); [|done].
    destruct (HttpClient.post _ _ _ _ _) as [[resp|e] w1]; [|done].
    destruct (BaseAdapter.ensure_dict _ _) as [raw|]; [|done].
    destruct (reraise_as_LLMError _ _ _); [|done].
    intros [= <- _]. split_and!; [done|done|by eexists].
  - unfold AnthropicAdapter.chat, bind, lift, ret.
    destruct (BaseAdapter.require _ _); [|done].
    destruct (HttpClient.post _ _ _ _ _) as [[resp|e] w1]; [|done].
    destruct (BaseAdapter.ensure_dict _ _) as [raw|]; [|done].
    destruct (reraise_as_LLMError _ _ _); [|done].
    intros [= <- _]. split_and!; [done|done|by eexists].
  - unfold OllamaAdapter.chat, bind, lift, ret.
    destruct (HttpClient.post _ _ _ _ _) as [[resp|e] w1]; [|done].
    destruct (BaseAdapter.ensure_dict _ _) as [raw|]; [|done].
    destruct (default (JObj []) (dict_get (str "message") raw)); try done.
    intros [= <- _]. split_and!; [done|done|by eexists].
Qed.

(** X27. Whatever a client returns from [chat] is labelled with its own
    configuration: the result's provider is the configured provider, its
    model the configured model, and its [raw] a JSON object. *)
Theorem chat_result_labels (cfg : LLMConfig.t) (net : Session)
    (messages : list ChatMessage) (w w' : World) (r : LLMResult.t) :
  LLM.chat (LLM.init cfg net) messages w = (Ok r, w') →
  LLMResult.provider r = LLMConfig.provider cfg
  ∧ LLMResult.model r = LLMConfig.model cfg
  ∧ ∃ d, LLMResult.raw r = JObj d.
Proof.
  unfold LLM.chat. change (LLM.cfg (LLM.init cfg net)) with cfg.
  rewrite adapters_lookup.
  repeat case_decide; try done; intros Hchat;
    apply adapter_result_labels in Hchat as (Hp & Hm & Hd);
    (split_and!; [congruence|done|done]).
Qed.

(* ===================================================================== *)
(** ** These statements at concrete inputs *)
(* ===================================================================== *)

Section MoreInstances.

Import Fixtures Samples.

Lemma post_without_attempts_witness :
  HttpClient.post (http_client (always success) 0) url None None world0
  = (Raise (Exn AssertionError []), world0).
Proof. apply post_without_attempts. cbn. lia. Defined.

Lemma post_uncaught_propagates_witness :
  HttpClient.post (http_client (always invalid_json) 2) url None None world0
  = (Raise (Exn ValueError (str "Invalid JSON")),
     {| posts := [plain_request]; sleeps := [] |}).
Proof.
  apply (post_uncaught_propagates (http_client (always invalid_json) 2) url None None
           world0 (Exn ValueError (str "Invalid JSON"))).
  - cbn. lia.
  - reflexivity.
  - right. exists invalid_json. split; [reflexivity|split; [cbn; lia|reflexivity]].
Defined.

Lemma post_raises_uncaught_or_wrapped_witness :
  HttpClient.caught (Exn LLMError
                       (str "POST https://api.example.com/test failed after 2 attempts: 404 Client Error:  for url: https://api.example.com/test"))
  = false
  ∨ ∃ last,
      HttpClient.caught last = true
      ∧ Exn LLMError
          (str "POST https://api.example.com/test failed after 2 attempts: 404 Client Error:  for url: https://api.example.com/test")
        = Exn LLMError (str "POST " ++ url ++ str " failed after " ++ py_str_int 2
                        ++ str " attempts: " ++ exn_msg last).
Proof.
  apply (post_raises_uncaught_or_wrapped (http_client (always not_found) 2) url None None
           world0).
  vm_compute. reflexivity.
Defined.

Lemma post_succeeds_after_failures_witness :
  HttpClient.post (http_client (scripted [server_error] success) 2) url None None world0
  = (Ok ok_body, {| posts := [plain_request; plain_request]; sleeps := [1%float] |}).
Proof.
  apply (post_succeeds_after_failures
           (http_client (scripted [server_error] success) 2) url None None world0 1).
  - cbn. lia.
  - intros i Hi. assert (i = 0%nat) as -> by lia.
    exists server_error. split; [reflexivity|]. cbn. lia.
  - exists success. split; [reflexivity|split; [cbn; lia|reflexivity]].
Defined.

Lemma post_client_error_retried_witness :
  ∃ detail,
    HttpClient.post (http_client (always not_found) 3) url None None world0
    = (Raise (Exn LLMError
                (str "POST https://api.example.com/test failed after 3 attempts: "
                 ++ detail)),
       {| posts := [plain_request; plain_request; plain_request];
          sleeps := [1; 2]%float |}).
Proof.
  destruct (post_client_error_retried (http_client (always not_found) 3) url None None
              world0) as [detail Hd].
  - cbn. lia.
  - intros k r. exists not_found. split; [reflexivity|split; [cbn; lia|]].
    apply (bool_decide_unpack _). vm_compute. exact I.
  - exists detail. exact Hd.
Defined.

Lemma endpoints_ignore_trailing_slashes_witness :
  LLMConfig.openai_url keyless_config = str "https://api.openai.com/v1/chat/completions"
  ∧ LLMConfig.anthropic_url keyless_config = str "https://api.openai.com/v1/messages"
  ∧ LLMConfig.ollama_url keyless_config = str "https://api.openai.com/api/chat".
Proof.
  destruct (endpoints_ignore_trailing_slashes keyless_config
              (str "https://api.openai.com") 3) as (H1 & H2 & H3).
  - vm_compute. discriminate.
  - split; [apply H1; reflexivity|split; [apply H2; reflexivity|apply H3; reflexivity]].
Defined.

Lemma from_env_unsupported_provider_witness :
  LLMConfig.from_env (B := builtins) unknown_env
  = Raise (Exn ValueError (str "Unsupported provider: mistral"))
  ∧ LLM.from_env (B := builtins) unknown_env (always success)
    = Raise (Exn ValueError (str "Unsupported provider: mistral")).
Proof.
  apply (from_env_unsupported_provider (B := builtins) unknown_env (always success)).
  intros Hin. apply (bool_decide_pack _) in Hin. vm_compute in Hin. exact Hin.
Defined.

Lemma from_env_reads_only_its_variables_witness :
  LLMConfig.from_env (B := builtins) (<["OLLAMA_MODEL"%string := str "llama2"]> full_env)
  = LLMConfig.from_env (B := builtins) full_env.
Proof.
  apply (from_env_reads_only_its_variables (B := builtins)).
  intros Hin. apply (bool_decide_pack _) in Hin. vm_compute in Hin. exact Hin.
Defined.

Lemma openai_result_or_LLMError_witness :
  (∃ r w',
      OpenAIAdapter.chat (config (str "openai")) three_turns
        (http_client (answering (openai_response (JStr (str "hi")))) 2) world0 = (Ok r, w')
      ∧ LLMResult.text r = JStr (str "hi"))
  ∧ (∃ msg w',
        OpenAIAdapter.chat (config (str "openai")) three_turns
          (http_client (answering (JObj [(str "error", JStr (str "x"))])) 2) world0
        = (Raise (Exn LLMError msg), w')).
Proof.
  split.
  - destruct (openai_result_or_LLMError (config (str "openai")) three_turns
                (http_client (answering (openai_response (JStr (str "hi")))) 2)
                (str "test-openai-key") world0
                (snd (HttpClient.post
                        (http_client (answering (openai_response (JStr (str "hi")))) 2)
                        (LLMConfig.openai_url (config (str "openai")))
                        (Some (OpenAIAdapter.headers (str "test-openai-key")))
                        (Some (OpenAIAdapter.payload (config (str "openai")) three_turns))
                        world0))
                (openai_response (JStr (str "hi")))
                eq_refl ltac:(discriminate) ltac:(vm_compute; reflexivity))
      as [(v & r & Hshape & Hchat & Htext & _)|[Hno _]].
    + exists r. eexists. split; [exact Hchat|].
      destruct Hshape as (d & first & rest & message & [= <-] & [= <- <-] & [= <-] & [= <-]).
      exact Htext.
    + destruct (Hno (JStr (str "hi"))). eexists _, _, _, _. by split_and!.
  - destruct (openai_result_or_LLMError (config (str "openai")) three_turns
                (http_client (answering (JObj [(str "error", JStr (str "x"))])) 2)
                (str "test-openai-key") world0
                (snd (HttpClient.post
                        (http_client (answering (JObj [(str "error", JStr (str "x"))])) 2)
                        (LLMConfig.openai_url (config (str "openai")))
                        (Some (OpenAIAdapter.headers (str "test-openai-key")))
                        (Some (OpenAIAdapter.payload (config (str "openai")) three_turns))
                        world0))
                (JObj [(str "error", JStr (str "x"))])
                eq_refl ltac:(discriminate) ltac:(vm_compute; reflexivity))
      as [(v & r & Hshape & _)|[_ (msg & Hmsg)]].
    + destruct Hshape as (d & first & rest & message & [= <-] & Hc & _). discriminate Hc.
    + exists msg. eexists. exact Hmsg.
Defined.

Lemma anthropic_result_or_LLMError_witness :
  ∃ r w',
    AnthropicAdapter.chat (config (str "anthropic")) three_turns
      (http_client (answering (anthropic_response [text_block (str "  padded answer ")])) 2)
      world0 = (Ok r, w')
    ∧ LLMResult.provider r = str "anthropic".
Proof.
  destruct (anthropic_result_or_LLMError (config (str "anthropic")) three_turns
              (http_client
                 (answering (anthropic_response [text_block (str "  padded answer ")])) 2)
              (str "test-anthropic-key") world0
              (snd (HttpClient.post
                      (http_client
                         (answering
                            (anthropic_response [text_block (str "  padded answer ")])) 2)
                      (LLMConfig.anthropic_url (config (str "anthropic")))
                      (Some (AnthropicAdapter.headers (config (str "anthropic"))
                               (str "test-anthropic-key")))
                      (Some (AnthropicAdapter.payload (config (str "anthropic"))
                               three_turns)) world0))
              (anthropic_response [text_block (str "  padded answer ")])
              eq_refl ltac:(discriminate) ltac:(vm_compute; reflexivity))
    as [(r & s & Hchat & _ & _ & _ & Hprov & _)|(msg & Hmsg)].
  - exists r. eexists. split; [exact Hchat|exact Hprov].
  - vm_compute in Hmsg. discriminate Hmsg.
Defined.

Lemma ollama_result_or_LLMError_witness :
  ∃ r w',
    OllamaAdapter.chat (config (str "ollama")) three_turns
      (http_client (answering (ollama_response (JObj [(str "content", JNull)]))) 2)
      world0 = (Ok r, w')
    ∧ (LLMResult.text r = JStr [] ∨ truthy (LLMResult.text r) = true).
Proof.
  destruct (ollama_result_or_LLMError (config (str "ollama")) three_turns
              (http_client (answering (ollama_response (JObj [(str "content", JNull)]))) 2)
              world0
              (snd (HttpClient.post
                      (http_client
                         (answering (ollama_response (JObj [(str "content", JNull)]))) 2)
                      (LLMConfig.ollama_url (config (str "ollama"))) None
                      (Some (OllamaAdapter.payload (config (str "ollama")) three_turns))
                      world0))
              (ollama_response (JObj [(str "content", JNull)]))
              ltac:(vm_compute; reflexivity))
    as [(r & Hchat & Htext & _)|(msg & Hmsg)].
  - exists r. eexists. split; [exact Hchat|exact Htext].
  - vm_compute in Hmsg. discriminate Hmsg.
Defined.

Lemma chat_unsupported_provider_witness :
  LLM.chat (LLM.init unknown_config (always success)) three_turns world0
  = (Raise (Exn LLMError (str "Unsupported provider: mistral")), world0).
Proof.
  apply (chat_unsupported_provider unknown_config (always success) three_turns world0).
  intros Hin. apply (bool_decide_pack _) in Hin. vm_compute in Hin. exact Hin.
Defined.

Lemma chat_requests_witness :
  ∃ request k,
    snd (LLM.chat (LLM.init (config (str "ollama")) (always server_error)) three_turns
           world0)
    = after world0 request k (map backoff_delay (seq 0 (k - 1)))
    ∧ (k ≤ 2)%nat
    ∧ req_url request = str "http://localhost:11434/api/chat"
    ∧ req_timeout request = 30.
Proof.
  destruct (chat_requests (config (str "ollama")) (always server_error) LLM.Ollama
              three_turns world0) as (request & k & Hw & Hk & Hurl & Ht).
  - vm_compute. reflexivity.
  - exists request, k. split; [exact Hw|]. split; [exact Hk|]. split; [|exact Ht].
    rewrite Hurl. reflexivity.
Defined.

Lemma extract_tags_blank_response_witness :
  ∃ w',
    LLM.extract_tags
      (LLM.init (config (str "ollama"))
         (answering (ollama_response (JObj [(str "content", JStr [32; 10; 9; 10]%N)]))))
      (str "Some text") 5 world0
    = (Ok [], w').
Proof.
  eexists.
  apply (extract_tags_blank_response
           (LLM.init (config (str "ollama"))
              (answering (ollama_response (JObj [(str "content", JStr [32; 10; 9; 10]%N)]))))
           (str "Some text") [32; 10; 9; 10]%N 5
           {| LLMResult.text := JStr [32; 10; 9; 10]%N;
              LLMResult.raw := ollama_response (JObj [(str "content", JStr [32; 10; 9; 10]%N)]);
              LLMResult.provider := str "ollama";
              LLMResult.model := str "test-model";
              LLMResult.usage := JObj [(str "eval_count", JNull)] |}
           world0).
  - vm_compute. reflexivity.
  - reflexivity.
  - reflexivity.
Defined.

Lemma processor_degrades_on_bad_environment_witness :
  DocumentProcessor.enable_ai
    (DocumentProcessor.init (B := builtins) None true unknown_env (always success)) = false
  ∧ DocumentProcessor._run_ai_analysis (B := builtins)
      (DocumentProcessor.init (B := builtins) None true unknown_env (always success))
      (str "Some content") (str "concise") [] world0 = (Ok ∅, world0).
Proof.
  destruct (processor_degrades_on_bad_environment (B := builtins) unknown_env
              (always success) (str "Some content") (str "concise") [] world0)
    as (Hoff & _ & Hrun & _).
  - intros Hin. apply (bool_decide_pack _) in Hin. vm_compute in Hin. exact Hin.
  - split; [exact Hoff|exact Hrun].
Defined.

Lemma from_env_provider_case_witness :
  LLMConfig.from_env (B := builtins) (<["LLM_PROVIDER"%string := str "OLLAMA"]> full_env)
  = LLMConfig.from_env (B := builtins)
      (<["LLM_PROVIDER"%string := str "ollama"]> full_env).
Proof.
  apply (from_env_provider_case (B := builtins) full_env (str "OLLAMA")).
  reflexivity.
Defined.

Lemma chat_result_labels_witness :
  ∃ r w',
    LLM.chat (LLM.init (config (str "ollama"))
                (answering (ollama_response (JObj [(str "content", JStr (str "hello"))]))))
      three_turns world0 = (Ok r, w')
    ∧ LLMResult.provider r = str "ollama"
    ∧ LLMResult.model r = str "test-model".
Proof.
  eexists _, _. split; [vm_compute; reflexivity|].
  destruct (chat_result_labels (config (str "ollama"))
              (answering (ollama_response (JObj [(str "content", JStr (str "hello"))])))
              three_turns world0 _ _ ltac:(vm_compute; reflexivity)) as (Hp & Hm & _).
  split; [exact Hp|exact Hm].
Defined.

End MoreInstances.
